(** * Batch post-processing and submission scripts: a shallow embedding

    Two programs of the repository are embedded here:

    - [montecarlo/mc_postprocess.py] (module [McPostprocess]): reads the dag
      file, checks the per-group output-file counts and the event totals, and
      merges every group with [hadd];
    - [montecarlo/fax_waveform/BatchMergeTruthAndProcessed.py] (module
      [BatchMerge]): pairs truth files with processed files and submits one
      job per pair, throttled by the number of jobs already in the queue.

    Python values are modelled as the scripts use them: [int] as [Z], [str]
    as [string], lists as [list], insertion-ordered dictionaries as
    association lists, [float] as binary64 through [SpecFloat].  Calls that
    leave the interpreter (file system, subprocesses, ROOT) go through an
    abstract world; what the program does to it is also recorded in a
    chronological trace. *)

From Stdlib Require Import ZArith List String Ascii Bool Lia.
From Stdlib Require Import DecimalString DecimalZ SpecFloat.
Import ListNotations.
Open Scope string_scope.
Open Scope Z_scope.

(** ** Python primitives shared by both scripts *)

Module Py.

(** The exceptions the two scripts can end with. *)
Inductive exn : Type :=
| ValueError
| IndexError
| KeyError
| TypeError
| AttributeError
| NameError
| OSError
| OverflowError.

(** [s.startswith(p)] *)
Definition startswith (s p : string) : bool := String.prefix p s.

(** [s.endswith(p)] *)
Definition endswith (s p : string) : bool :=
  let n := String.length s in
  let m := String.length p in
  (m <=? n)%nat && String.eqb (substring (n - m) m s) p.

(** [s[len(p):]] when [s] starts with [p]. *)
Fixpoint drop_prefix (p s : string) : option string :=
  match p, s with
  | EmptyString, _ => Some s
  | String a p', String b s' =>
      if Ascii.eqb a b then drop_prefix p' s' else None
  | String _ _, EmptyString => None
  end.

(** [s.split(sep)] for a non-empty separator: the fields between the
    successive, non-overlapping occurrences of [sep], scanned from the left.
    [skip] counts the characters of a separator that are still to be passed,
    [acc] is the field being read. *)
Fixpoint split_go (sep : string) (skip : nat) (acc s : string) : list string :=
  match s with
  | EmptyString => [acc]
  | String c s' =>
      match skip with
      | S k => split_go sep k acc s'
      | O =>
          if String.prefix sep s
          then acc :: split_go sep (String.length sep - 1) EmptyString s'
          else split_go sep 0 (acc ++ String c EmptyString) s'
      end
  end.

Definition split (s sep : string) : list string :=
  split_go sep 0 EmptyString s.

(** [sep.join(l)] *)
Definition join (sep : string) (l : list string) : string :=
  String.concat sep l.

(** [sep in s] *)
Fixpoint contains (sep s : string) : bool :=
  String.prefix sep s ||
  match s with
  | EmptyString => false
  | String _ s' => contains sep s'
  end.

(** [s.replace(old, new)] for a non-empty [old]: the occurrences replaced
    are the ones [split] cuts at. *)
Definition replace (s old new : string) : string := join new (split s old).

(** [l[i]] for [i >= 0]; [None] is Python's IndexError. *)
Definition index {A : Type} (l : list A) (i : nat) : option A := nth_error l i.

(** [del l[i]] for [i >= 0]; [None] is Python's IndexError. *)
Fixpoint del_index {A : Type} (l : list A) (i : nat) : option (list A) :=
  match l, i with
  | [], _ => None
  | _ :: l', O => Some l'
  | x :: l', S i' => option_map (cons x) (del_index l' i')
  end.

(** [str(n)] for an [int]. *)
Definition str (n : Z) : string := NilZero.string_of_int (Z.to_int n).

Definition is_digit (c : ascii) : bool :=
  let n := nat_of_ascii c in ((48 <=? n) && (n <=? 57))%nat.

(** [int(s)] for a string of decimal digits (what [\d+] captured). *)
Fixpoint int_digits (acc : Z) (s : string) : Z :=
  match s with
  | EmptyString => acc
  | String c s' => int_digits (10 * acc + (Z.of_nat (nat_of_ascii c) - 48)) s'
  end.

Definition int (s : string) : Z := int_digits 0 s.

(** [os.path.join(a, p)] on POSIX. *)
Definition os_path_join (a p : string) : string :=
  if startswith p "/" then p
  else if String.eqb a "" || endswith a "/" then a ++ p
  else a ++ "/" ++ p.

(** Binary64, the format of Python's [float]. *)
Definition float : Type := spec_float.
Definition prec : Z := 53.
Definition emax : Z := 1024.

(** [float(n)] for an [int]: the nearest double, ties to even;
    [None] is Python's OverflowError. *)
Definition float_of_int (n : Z) : option float :=
  match binary_normalize prec emax n 0 false with
  | S754_infinity _ => None
  | f => Some f
  end.

(** [x * y] on floats. *)
Definition fmul (x y : float) : float := SFmul prec emax x y.

(** [n > f] for an [int] and a [float]: Python compares the exact values. *)
Definition int_gt_float (n : Z) (f : float) : bool :=
  match f with
  | S754_nan => false
  | S754_infinity s => s
  | S754_zero _ => 0 <? n
  | S754_finite s m e =>
      let v := if s then Zneg m else Zpos m in
      if 0 <=? e then v * 2 ^ e <? n else v <? n * 2 ^ (- e)
  end.

End Py.

(** ** mc_postprocess.py *)

Module McPostprocess.
Import Py.

Definition nl : ascii := "010"%char.
Definition NL : string := String nl EmptyString.
Definition dq : string := String "034"%char EmptyString.

(** *** The world outside the interpreter *)

(** How [subprocess.check_call] ends: exit status zero, a non-zero exit
    status (it raises CalledProcessError), or the program could not be
    started (it raises OSError). *)
Inductive call_result : Type :=
| CallOk
| CalledProcessError
| CallOSError.

(** The operating-system and ROOT calls the script makes.  Queries read the
    world, commands return the next one; [None] (or [inl]) is the call raising
    OSError.  [tree_entries f path] is [GetEntries()] of the tree reached by
    the successive [Get]s of [path] in the ROOT file [f], or the exception
    one of the ROOT calls raises. *)
Class World (W : Type) : Type := {
  os_path_isfile : string -> W -> bool;
  os_path_isdir : string -> W -> bool;
  open_read : string -> W -> option string;
  os_getcwd : W -> string;
  os_chdir : string -> W -> option W;
  os_listdir : string -> W -> option (list string);
  os_mkdir : string -> W -> option W;
  os_rename : string -> string -> W -> string + W;
  check_call : list string -> W -> call_result * W;
  tree_entries : string -> list string -> W -> exn + Z
}.

(** What the script does, in the order it does it. *)
Inductive event : Type :=
| Stdout (s : string)
| Stderr (s : string)
| Chdir (d : string)
| Mkdir (d : string)
| Exec (argv : list string)
| Rename (src dst : string).

Record state (W : Type) : Type := mkState { world : W; trace : list event }.
Arguments mkState {W} _ _.
Arguments world {W} _.
Arguments trace {W} _.

(** How a block of statements ends: it runs to its end, it executes a
    [return], or it raises. *)
Inductive ctl (R A : Type) : Type :=
| Normal (a : A)
| Returned (r : R)
| Raised (e : exn).
Arguments Normal {R A} _.
Arguments Returned {R A} _.
Arguments Raised {R A} _.

Definition M (W R A : Type) : Type := state W -> ctl R A * state W.

Definition ret {W R A} (a : A) : M W R A := fun s => (Normal a, s).

Definition bind {W R A B} (m : M W R A) (k : A -> M W R B) : M W R B :=
  fun s =>
    match m s with
    | (Normal a, s') => k a s'
    | (Returned r, s') => (Returned r, s')
    | (Raised e, s') => (Raised e, s')
    end.

Definition return_ {W R A} (r : R) : M W R A := fun s => (Returned r, s).
Definition raise {W R A} (e : exn) : M W R A := fun s => (Raised e, s).

Definition emit {W R} (e : event) : M W R unit :=
  fun s => (Normal tt, mkState (world s) (trace s ++ [e])).

Definition query {W R A} (f : W -> A) : M W R A :=
  fun s => (Normal (f (world s)), s).

(** A call of a function from a block: the function's [return v] is the
    value of the call, falling off its end gives [dflt] (Python's None). *)
Definition call {W R R' : Type} (dflt : R) (body : M W R unit) : M W R' R :=
  fun s =>
    match body s with
    | (Normal _, s') => (Normal dflt, s')
    | (Returned r, s') => (Normal r, s')
    | (Raised e, s') => (Raised e, s')
    end.

Declare Scope py_scope.
Delimit Scope py_scope with py.
Notation "x <- m ;; k" := (bind m (fun x => k))
  (at level 100, m at next level, right associativity) : py_scope.
Notation "m ;; k" := (bind m (fun _ => k))
  (at level 100, right associativity) : py_scope.
Open Scope py_scope.

Definition of_option {W R A} (e : exn) (o : option A) : M W R A :=
  match o with Some a => ret a | None => raise e end.

(** A command on the world that raises OSError when it fails. *)
Definition command {W R} (f : W -> option W) : M W R unit :=
  fun s =>
    match f (world s) with
    | Some w => (Normal tt, mkState w (trace s))
    | None => (Raised OSError, s)
    end.

(** *** Constants of the module *)

(** [EVENT_THRESHOLD = 0.05]: the double nearest to 1/20,
    0x1.999999999999ap-5. *)
Definition EVENT_THRESHOLD : float := S754_finite false 7205759403792794 (-57).

Definition MINITREE_OUTPUTS : list (string * string) :=
  [("Basics", "Basics.root");
   ("Fundamentals", "Fundamentals.root");
   ("DoubleScatter", "DoubleScatter.root");
   ("LargestPeakProperties", "LargestPeakProperties.root");
   ("TotalProperties", "TotalProperties.root")].

(** *** get_dag_information *)

(** The lines of a text file as iterating over the file object yields them:
    each keeps its newline. *)
Fixpoint lines_go (acc s : string) : list string :=
  match s with
  | EmptyString => if String.eqb acc EmptyString then [] else [acc]
  | String c s' =>
      if Ascii.eqb c nl
      then (acc ++ String c EmptyString) :: lines_go EmptyString s'
      else lines_go (acc ++ String c EmptyString) s'
  end.

Definition file_lines (content : string) : list string :=
  lines_go EmptyString content.

(** The longest run of digits at the head of [s], and what follows it. *)
Fixpoint span_digits (s : string) : string * string :=
  match s with
  | EmptyString => (EmptyString, EmptyString)
  | String c s' =>
      if is_digit c
      then let (d, r) := span_digits s' in (String c d, r)
      else (EmptyString, s)
  end.

(** The regular expression [events="(\d+)"] matched at the head of [s]:
    the captured digits. *)
Definition events_here (s : string) : option string :=
  match drop_prefix ("events=" ++ dq) s with
  | None => None
  | Some r =>
      let (d, r') := span_digits r in
      match d, drop_prefix dq r' with
      | String _ _, Some _ => Some d
      | _, _ => None
      end
  end.

(** [event_match.search(s)]: group 1 of the leftmost match. *)
Fixpoint event_search (s : string) : option string :=
  match events_here s with
  | Some d => Some d
  | None =>
      match s with
      | EmptyString => None
      | String _ s' => event_search s'
      end
  end.

(** The text up to the first quote, when no newline comes before it:
    what the lazy [(.*?)] followed by a quote captures. *)
Fixpoint until_quote (s : string) : option string :=
  match s with
  | EmptyString => None
  | String c s' =>
      if Ascii.eqb c "034"%char then Some EmptyString
      else if Ascii.eqb c nl then None
      else option_map (String c) (until_quote s')
  end.

Definition flavor_here (s : string) : option string :=
  match drop_prefix ("flavor=" ++ dq) s with
  | None => None
  | Some r => until_quote r
  end.

(** [flavor_match.search(s)]: group 1 of the leftmost match. *)
Fixpoint flavor_search (s : string) : option string :=
  match flavor_here s with
  | Some f => Some f
  | None =>
      match s with
      | EmptyString => None
      | String _ s' => flavor_search s'
      end
  end.

(** The loop over the lines of the dag file. *)
Fixpoint scan_dag (ls : list string) (jobs events : Z) : Z * Z :=
  match ls with
  | [] => (jobs, events)
  | line :: ls' =>
      let jobs' := if startswith line "JOB" then jobs + 1 else jobs in
      let events' :=
        match event_search line with
        | Some d => events + int d
        | None => events
        end in
      scan_dag ls' jobs' events'
  end.

(** The tuple [get_dag_information] returns: two components when the dag
    file is not there, three otherwise. *)
Inductive dag_info : Type :=
| Info2 (jobs events : Z)
| Info3 (jobs events : Z) (flavor : option string).

Definition get_dag_information {W} `{World W} {R}
  (dag_filename : string) : M W R dag_info :=
  let jobs := 0 in
  let events := 0 in
  isfile <- query (os_path_isfile dag_filename) ;;
  if negb isfile then
    emit (Stderr (dag_filename ++ " not found" ++ NL)) ;;
    ret (Info2 jobs events)
  else
    content <- query (open_read dag_filename) ;;
    content <- of_option OSError content ;;
    let (jobs, events) := scan_dag (file_lines content) jobs events in
    let flavor := flavor_search (substring 0 1024 content) in
    ret (Info3 jobs events flavor).

(** *** merge_files *)

(** A list of plain file names as [format] prints it. *)
Definition repr_list (l : list string) : string :=
  "[" ++ join ", " (map (fun f => "'" ++ f ++ "'") l) ++ "]".

(** The body of [merge_files]: every path through it ends in a [return] or
    in an exception, so the block itself has no normal end. *)
Definition merge_files_body {W} `{World W}
  (file_list : list string) (result_dir : string) : M W bool Empty_set :=
  sample_file <- of_option IndexError (index file_list 0) ;;
  let fields := split sample_file "_" in
  fields <- of_option IndexError (del_index fields 3) ;;
  let output_file := join "_" fields in
  let command_line := (["hadd"; output_file] ++ file_list)%list in
  emit (Exec command_line) ;;
  fun s =>
    match check_call command_line (world s) with
    | (CallOSError, w) => (Raised OSError, mkState w (trace s))
    | (CalledProcessError, w) =>
        (emit (Stderr ("Can't combine files into " ++ repr_list file_list ++ NL)) ;;
         return_ false) (mkState w (trace s))
    | (CallOk, w) =>
        (isdir <- query (os_path_isdir result_dir) ;;
         if negb isdir then
           emit (Stderr (result_dir ++ " not present" ++ NL)) ;;
           return_ false
         else
           isfile <- query (os_path_isfile output_file) ;;
           if negb isfile then
             emit (Stderr (output_file ++ " not present, couldn't " ++
                           "merge files" ++ NL)) ;;
             return_ false
           else
             let target := os_path_join result_dir output_file in
             emit (Rename output_file target) ;;
             fun s' =>
               match os_rename output_file target (world s') with
               | inl e =>
                   (emit (Stderr ("Got exception while moving results: " ++
                                  e ++ NL)) ;;
                    return_ false) s'
               | inr w' => (Returned true, mkState w' (trace s'))
               end) (mkState w (trace s))
    end.

(** A call [merge_files(file_list, result_dir)]. *)
Definition merge_files {W} `{World W} {R}
  (file_list : list string) (result_dir : string) : M W R bool :=
  fun s =>
    match merge_files_body file_list result_dir s with
    | (Normal a, _) => match a with end
    | (Returned r, s') => (Normal r, s')
    | (Raised e, s') => (Raised e, s')
    end.

(** The merge is attempted on [file_list] and fails without an exception:
    [hadd] exits with a non-zero status, or the results directory is not
    there, or the combined file is not there, or the move fails. *)
Definition merge_fails {W} `{World W}
  (file_list : list string) (result_dir : string) (w : W) : Prop :=
  exists f l fields,
    file_list = f :: l /\
    del_index (split f "_") 3 = Some fields /\
    let output_file := join "_" fields in
    let cw := check_call ("hadd" :: output_file :: file_list) w in
    fst cw = CalledProcessError \/
    (fst cw = CallOk /\
     (os_path_isdir result_dir (snd cw) = false \/
      (os_path_isdir result_dir (snd cw) = true /\
       os_path_isfile output_file (snd cw) = false) \/
      (os_path_isdir result_dir (snd cw) = true /\
       os_path_isfile output_file (snd cw) = true /\
       exists msg,
         os_rename output_file (os_path_join result_dir output_file) (snd cw)
         = inl msg))).

(** *** run_main *)

(** A value of the dictionary [root_files]: the pair [(files, suffix)], or,
    for the key set by the statement that ends in a comma,
    the one-element tuple [((files, suffix),)]. *)
Inductive group : Type :=
| Group (files : list string) (suffix : string)
| Wrapped (files : list string) (suffix : string).

(** An insertion-ordered dictionary with string keys; it is only built by
    [dict_set], so its keys are distinct. *)
Definition dict : Type := list (string * group).

Fixpoint dict_get (d : dict) (k : string) : option group :=
  match d with
  | [] => None
  | (k', v) :: d' => if String.eqb k k' then Some v else dict_get d' k
  end.

Fixpoint dict_set (d : dict) (k : string) (v : group) : dict :=
  match d with
  | [] => [(k, v)]
  | (k', v') :: d' =>
      if String.eqb k k' then (k, v) :: d' else (k', v') :: dict_set d' k v
  end.

Definition keys {A B : Type} (d : list (A * B)) : list A := map fst d.

(** [len(root_files[entry][0])] *)
Definition group_len (g : group) : nat :=
  match g with
  | Group files _ => List.length files
  | Wrapped _ _ => 2
  end.

(** [a, b = s] for a string [s]: it must have exactly two characters. *)
Definition unpack2 (s : string) : option (string * string) :=
  match s with
  | String a (String b EmptyString) =>
      Some (String a EmptyString, String b EmptyString)
  | _ => None
  end.

(** [for entry, suffix in MINITREE_OUTPUTS: root_files[entry] = ([], suffix)]:
    the loop runs over the keys of the dictionary. *)
Fixpoint add_minitrees {W R} (ks : list string) (root_files : dict)
  : M W R dict :=
  match ks with
  | [] => ret root_files
  | k :: ks' =>
      es <- of_option ValueError (unpack2 k) ;;
      let (entry, suffix) := es in
      add_minitrees ks' (dict_set root_files entry (Group [] suffix))
  end.

(** The inner loop over [root_files] for one directory entry;
    [root_files[root_type][1]] is out of range on the one-element tuple. *)
Fixpoint add_entry (entry : string) (d : dict) : option dict :=
  match d with
  | [] => Some []
  | (root_type, Group files suffix) :: d' =>
      let files' := if endswith entry suffix then (files ++ [entry])%list else files in
      option_map (cons (root_type, Group files' suffix)) (add_entry entry d')
  | (_, Wrapped _ _) :: _ => None
  end.

Fixpoint collect_outputs {W R} (listing : list string) (root_files : dict)
  : M W R dict :=
  match listing with
  | [] => ret root_files
  | entry :: listing' =>
      root_files <- of_option IndexError (add_entry entry root_files) ;;
      collect_outputs listing' root_files
  end.

(** [len(root_files[entry][0]) != jobs] *)
Definition count_differs (jobs : Z) (item : string * group) : bool :=
  negb (Z.of_nat (group_len (snd item)) =? jobs).

(** The first line written to stderr for a group with a wrong file count. *)
Definition count_message (jobs : Z) (item : string * group) : string :=
  "Number of " ++ fst item ++ " files doesn't" ++
  "match the number of jobs: " ++
  str (Z.of_nat (group_len (snd item))) ++ " vs " ++ str jobs ++ NL.

Definition count_advice : string :=
  "An error probably occurred while processing." ++ NL.

(** The loop that compares the number of files of each group with the number
    of jobs. *)
Fixpoint check_file_counts {W} (jobs : Z) (d : dict) : M W Z unit :=
  match d with
  | [] => ret tt
  | item :: d' =>
      if count_differs jobs item then
        emit (Stderr (count_message jobs item)) ;;
        emit (Stderr count_advice) ;;
        return_ 1
      else check_file_counts jobs d'
  end.

(** [total_events += ttree.GetEntries()] over the files of a group. *)
Fixpoint sum_entries {W} `{World W} {R}
  (path : list string) (files : list string) (total_events : Z) : M W R Z :=
  match files with
  | [] => ret total_events
  | root_file :: files' =>
      n <- query (tree_entries root_file path) ;;
      match n with
      | inl e => raise e
      | inr n => sum_entries path files' (total_events + n)
      end
  end.

(** [abs(events - total_events) > (EVENT_THRESHOLD * float(events))];
    [None] when [float(events)] overflows. *)
Definition events_differ (events total_events : Z) : option bool :=
  match float_of_int events with
  | None => None
  | Some f =>
      Some (int_gt_float (Z.abs (events - total_events)) (fmul EVENT_THRESHOLD f))
  end.


(** The line written to stderr when a total is out of tolerance. *)
Definition events_message (what : string) (events total_events : Z) : string :=
  what ++ "events by more than 0.05: " ++
  "got " ++ str total_events ++ " events, expected " ++ str events ++ NL.

(** The comparison of a group's total with the requested events: a message
    on stderr when they differ by more than the threshold, nothing else. *)
Definition check_events {W R} (what : string) (events total_events : Z)
  : M W R unit :=
  differ <- of_option OverflowError (events_differ events total_events) ;;
  if (differ : bool) then
    emit (Stderr (events_message what events total_events))
  else ret tt.

(** The files of a group as the loops read them; iterating over the wrapped
    pair hands its first component, a list, to ROOT or to [split]. *)
Definition group_files {W R} (e : exn) (g : group) : M W R (list string) :=
  match g with
  | Group files _ => ret files
  | Wrapped _ _ => raise e
  end.

(** The loop over the Geant, Sort and Patch outputs. *)
Fixpoint check_geant {W} `{World W} {R}
  (events : Z) (root_files : dict) (outputs : list string) : M W R unit :=
  match outputs with
  | [] => ret tt
  | output :: outputs' =>
      match dict_get root_files output with
      | None => check_geant events root_files outputs'
      | Some g =>
          files <- group_files TypeError g ;;
          total_events <- sum_entries ["events"; "events"] files 0 ;;
          check_events (output ++ " events differs from requested ")
                       events total_events ;;
          check_geant events root_files outputs'
      end
  end.

Definition check_pax {W} `{World W} {R} (events : Z) (root_files : dict)
  : M W R unit :=
  g <- of_option KeyError (dict_get root_files "PAX ROOT") ;;
  files <- group_files TypeError g ;;
  total_events <- sum_entries ["tree"] files 0 ;;
  check_events ("PAX events differs from requested ") events total_events.

Fixpoint check_minitrees {W} `{World W} {R}
  (events : Z) (root_files : dict) (output_types : list string) : M W R unit :=
  match output_types with
  | [] => ret tt
  | output_type :: output_types' =>
      g <- of_option KeyError (dict_get root_files output_type) ;;
      files <- group_files TypeError g ;;
      total_events <- sum_entries [output_type] files 0 ;;
      check_events (output_type ++ " differs from requested ")
                   events total_events ;;
      check_minitrees events root_files output_types'
  end.

Definition merge_message (output_type : string) : string :=
  "Can't merge " ++ output_type ++ " files, exiting" ++ NL.

(** The loop that merges every group. *)
Fixpoint merge_all {W} `{World W} (result_dir : string) (d : dict)
  : M W Z unit :=
  match d with
  | [] => ret tt
  | (output_type, g) :: d' =>
      files <- group_files AttributeError g ;;
      ok <- merge_files files result_dir ;;
      if negb ok then
        emit (Stderr (merge_message output_type)) ;;
        return_ 1
      else merge_all result_dir d'
  end.

(** [run_main] from the file-count loop to its end. *)
Definition check_and_merge {W} `{World W}
  (jobs events : Z) (cur_dir : string) (root_files : dict) : M W Z unit :=
  check_file_counts jobs root_files ;;
  check_geant events root_files ["Geant ROOT"; "Sort ROOT"; "Patch ROOT"] ;;
  check_pax events root_files ;;
  check_minitrees events root_files (keys MINITREE_OUTPUTS) ;;
  let result_dir := os_path_join cur_dir "merged_results" in
  emit (Mkdir result_dir) ;;
  command (os_mkdir result_dir) ;;
  merge_all result_dir root_files ;;
  emit (Chdir cur_dir) ;;
  command (os_chdir cur_dir).

(** The output groups selected by the flavor of the dag. *)
Definition flavor_outputs {W} (flavor : option string) (root_files : dict)
  : M W Z (string * dict) :=
  match flavor with
  | Some "NEST" =>
      ret ("NEST.root", dict_set root_files "Patch ROOT" (Group [] "Patch.root"))
  | Some "G4" =>
      ret ("G4.root", dict_set root_files "Sort ROOT" (Group [] "Sort.root"))
  | Some "G4p10" =>
      ret ("G4p10.root", dict_set root_files "Sort ROOT" (Group [] "Sort.root"))
  | _ =>
      emit (Stderr ("MC flavor unknown: " ++
                    match flavor with Some f => f | None => "None" end ++ NL)) ;;
      return_ 1
  end.

(** [run_main], from the parsed argument [args.dag_file]. *)
Definition run_main {W} `{World W} (dag_file : string) : M W Z unit :=
  info <- get_dag_information dag_file ;;
  match info with
  | Info2 _ _ => raise ValueError
  | Info3 jobs events flavor =>
      if events =? 0 then
        emit (Stdout ("No events generated by this dag file" ++ NL)) ;;
        return_ 1
      else if jobs =? 0 then
        emit (Stdout ("No jobs run by this dag file" ++ NL)) ;;
        return_ 1
      else
        cur_dir <- query os_getcwd ;;
        isdir <- query (os_path_isdir "output") ;;
        if negb isdir then
          emit (Stderr ("Output directory not present" ++ NL)) ;;
          return_ 1
        else
          emit (Chdir "output") ;;
          command (os_chdir "output") ;;
          let root_files := [("PAX ROOT", Group [] "pax.root")] in
          sel <- flavor_outputs flavor root_files ;;
          let (geant_suffix, root_files) := sel : string * dict in
          let root_files :=
            dict_set root_files "Geant ROOT" (Wrapped [] geant_suffix) in
          root_files <- add_minitrees (keys MINITREE_OUTPUTS) root_files ;;
          listing <- query (os_listdir ".") ;;
          listing <- of_option OSError listing ;;
          root_files <- collect_outputs listing root_files ;;
          check_and_merge jobs events cur_dir root_files
  end.

(** [sys.exit(run_main())]: the exit status of the process.  Falling off the
    end of [run_main] is [sys.exit(None)], status 0; an exception that nothing
    handles ends the interpreter with a traceback and status 1. *)
Definition exit_status (r : ctl Z unit) : Z :=
  match r with
  | Normal _ => 0
  | Returned n => n
  | Raised _ => 1
  end.

Definition unhandled {R A} (r : ctl R A) : bool :=
  match r with
  | Raised _ => true
  | _ => false
  end.

(** A run from an initial world with an empty trace. *)
Definition run {W R A} (m : M W R A) (w : W) : ctl R A * list event :=
  let (r, s) := m (mkState w []) in (r, trace s).

(** *** Reading a dag file and a trace *)

(** [line.startswith('JOB')] *)
Definition line_is_job (line : string) : bool := startswith line "JOB".

(** What a line adds to [events]: the number of its first [events="N"],
    nothing when it has none. *)
Definition line_events (line : string) : Z :=
  match event_search line with
  | Some d => int d
  | None => 0
  end.

Definition total (l : list Z) : Z := fold_right Z.add 0 l.

(** The flavors [run_main] has a branch for. *)
Definition known_flavor (flavor : option string) : bool :=
  match flavor with
  | Some f => String.eqb f "NEST" || String.eqb f "G4" || String.eqb f "G4p10"
  | None => false
  end.

(** [format] of the flavor. *)
Definition flavor_repr (flavor : option string) : string :=
  match flavor with
  | Some f => f
  | None => "None"
  end.

(** The lines written to the terminal. *)
Definition is_stderr (e : event) : bool :=
  match e with
  | Stderr _ => true
  | _ => false
  end.

(** The events that change the file system. *)
Definition alters (e : event) : bool :=
  match e with
  | Mkdir _ | Exec _ | Rename _ _ => true
  | _ => false
  end.

(** The pairs [(files, suffix)], as against the one-element tuple. *)
Definition plain (item : string * group) : bool :=
  match snd item with
  | Group _ _ => true
  | Wrapped _ _ => false
  end.

(** A group once the entries of [listing] that end with its suffix have
    been appended to its files. *)
Definition with_listing (listing : list string) (item : string * group)
  : string * group :=
  match item with
  | (root_type, Group files suffix) =>
      (root_type,
       Group (files ++ filter (fun entry => endswith entry suffix) listing) suffix)
  | (_, Wrapped _ _) => item
  end.

(** The files of a group. *)
Definition files_of (item : string * group) : list string :=
  match snd item with
  | Group files _ => files
  | Wrapped files _ => files
  end.

(** The name [merge_files] gives the combined file: the first file's name
    without its fourth field. *)
Definition output_file (file_list : list string) : option string :=
  match index file_list 0 with
  | None => None
  | Some sample_file =>
      option_map (join "_") (del_index (split sample_file "_") 3)
  end.

(** [GetEntries()] of the tree at [path] in [root_file]; zero stands in
    where a ROOT call raises. *)
Definition entries_of {W} `{World W} (path : list string) (w : W)
  (root_file : string) : Z :=
  match tree_entries root_file path w with
  | inr n => n
  | inl _ => 0
  end.

(** The exception of the first of [files] whose tree cannot be read. *)
Fixpoint first_error {W} `{World W} (path : list string) (files : list string)
  (w : W) : option exn :=
  match files with
  | [] => None
  | root_file :: files' =>
      match tree_entries root_file path w with
      | inl e => Some e
      | inr _ => first_error path files' w
      end
  end.

(** [s'] is [s] after some lines were written to stderr and nothing else
    was done. *)
Definition warned {W} (s s' : state W) : Prop :=
  world s' = world s /\
  exists tr, trace s' = (trace s ++ tr)%list /\ forallb is_stderr tr = true.

(** A block that only warns, and does not execute a [return]. *)
Definition warns {W A : Type} (R : Type) (m : M W R A) : Prop :=
  forall s, warned s (snd (m s)) /\
            match fst (m s) with
            | Returned _ => False
            | _ => True
            end.

(** The three loops of [run_main] that compare the totals with the
    requested events. *)
Definition check_totals {W} `{World W} {R} (events : Z) (root_files : dict)
  : M W R unit :=
  check_geant events root_files ["Geant ROOT"; "Sort ROOT"; "Patch ROOT"] ;;
  check_pax events root_files ;;
  check_minitrees events root_files (keys MINITREE_OUTPUTS).

(** What a successful [merge_files] adds to the trace. *)
Definition merge_events (result_dir : string) (file_list : list string)
  : list event :=
  match output_file file_list with
  | Some out =>
      [Exec ("hadd" :: out :: file_list); Rename out (os_path_join result_dir out)]
  | None => []
  end.

End McPostprocess.

(** ** BatchMergeTruthAndProcessed.py *)

Module BatchMerge.
Import Py.

Definition NL : string := String "010"%char EmptyString.

(** The names the script binds from its command line and its process, before
    the first glob.  [save_ap] is bound only when an eleventh argument is
    given. *)
Record config : Type := {
  CurrentEXE : string;
  ConfigFile : string;
  TruthCSVPath : string;
  ProcessedRootPath : string;
  OutputPath : string;
  RelativeSubmitPath : string;
  IfPublicNode : Z;
  SubmitID : Z;
  ArrayOutput : Z;
  MinitreeType : Z;
  save_ap : option string;
  CurrentPath : string;
  CurrentUser : string
}.

(** What the file system answers: [glob.glob(pattern)] and
    [os.path.exists(path)]. *)
Record world : Type := {
  glob : string -> list string;
  path_exists : string -> bool
}.

(** One pass of the queue query: [Output] is the line count that
    [squeue | wc -l] printed, [Status] the exit status of the shell
    pipeline. *)
Record poll : Type := { Output : Z; Status : Z }.

(** What the script does, in the order it does it. *)
Inductive event : Type :=
| Call (cmd : string)
| Squeue (partition user : string)
| Print (s : string)
| Sleep (seconds : Z).

(** How the script stands when the model stops: it ran to its end, it died
    on an exception, or it is still in the submission loop of job [j] with
    no poll result left. *)
Inductive outcome : Type :=
| Finished
| Raised (e : exn)
| Polling (j : nat).

Section Script.

Variable cfg : config.
Variable w : world.

Definition MaxNumJob : Z :=
  if IfPublicNode cfg =? 0 then 200 else 64.

Definition EXE_Path : string :=
  hd EmptyString (split (CurrentEXE cfg) "BatchMergeTruthAndProcessed.py").

Definition EXE1 : string :=
  if ArrayOutput cfg =? 1
  then CurrentPath cfg ++ "/" ++ EXE_Path ++ "TruthSorting_arrays.py"
  else CurrentPath cfg ++ "/" ++ EXE_Path ++ "TruthSorting.py".

Definition EXE2 : string :=
  if MinitreeType cfg =? 2
  then CurrentPath cfg ++ "/" ++ EXE_Path ++ "MergeTruthAndProcessed_peaks.py"
  else CurrentPath cfg ++ "/" ++ EXE_Path ++ "MergeTruthAndProcessed.py".

Definition FileList : list string := glob w (TruthCSVPath cfg ++ "/*.csv").

(** [filename.split("FakeWaveform_XENON1T_")[1].split("_truth.csv")[0]];
    [None] is the IndexError of the first subscript. *)
Definition extract_ID (filename : string) : option string :=
  match index (split filename "FakeWaveform_XENON1T_") 1 with
  | None => None
  | Some tail => index (split tail "_truth.csv") 0
  end.

(** The loop that fills [IDList]. *)
Fixpoint make_IDList (files : list string) : option (list string) :=
  match files with
  | [] => Some []
  | filename :: files' =>
      match extract_ID filename with
      | None => None
      | Some ID =>
          match make_IDList files' with
          | None => None
          | Some ids => Some (ID :: ids)
          end
      end
  end.

Definition TmpPath : string :=
  OutputPath cfg ++ "/TmpFolder_" ++ str (SubmitID cfg).

Definition Partition : string :=
  if IfPublicNode cfg =? 0 then "xenon1t"
  else if IfPublicNode cfg =? 2 then "kicp"
  else "sandyb".

Definition SubmitPath (j : nat) : string :=
  CurrentPath cfg ++ "/" ++ RelativeSubmitPath cfg ++ "/" ++
  str (Z.of_nat j) ++ "_" ++ str (SubmitID cfg).

Definition SubmitPath_abs (j : nat) : string :=
  RelativeSubmitPath cfg ++ "/" ++ str (Z.of_nat j) ++ "_" ++ str (SubmitID cfg).

Definition OneProcessedFile (ID_job : string) : list string :=
  glob w (ProcessedRootPath cfg ++ "/FakeWaveform_XENON1T_" ++ ID_job ++ "*.root").

Definition TruthCSVFilename (ID_job : string) : string :=
  TruthCSVPath cfg ++ "/FakeWaveform_XENON1T_" ++ ID_job ++ "_truth.csv".

Definition TmpOutputFilename (ID_job : string) : string :=
  TmpPath ++ "/FakeWaveform_XENON1T_" ++ ID_job ++ "_tmp.pkl".

Definition OutputFilename (ID_job : string) : string :=
  OutputPath cfg ++ "/FakeWaveform_XENON1T_" ++ ID_job ++ "_merged.pkl".

Definition AbsoluteConfigFile : string := CurrentPath cfg ++ "/" ++ ConfigFile cfg.

(** How the part of the loop body before the submission ends for one
    identifier: [continue], an exception, or a submit file ready to be
    handed to the queue. *)
Inductive prepared : Type :=
| Skip
| Abort (e : exn)
| Ready (submit_path submit_file processed : string).

(** The processed file paired with an identifier: the first path the glob
    returns, when there is one and neither file name is shorter than two
    characters. *)
Definition correlate (ID_job : string) : option string :=
  match OneProcessedFile ID_job with
  | [] => None
  | ProcessedRootFilename :: _ =>
      if (String.length ProcessedRootFilename <? 2)%nat
         || (String.length (TruthCSVFilename ID_job) <? 2)%nat
      then None
      else Some ProcessedRootFilename
  end.

Definition echo (text SubmitFile : string) : event :=
  Call ("echo '" ++ text ++ "' >> " ++ SubmitFile).

(** The lines written to the submit file. *)
Definition write_submit
  (j : nat) (ID_job sp SubmitFile ProcessedRootFilename : string)
  : list event * option exn :=
  let head :=
    [ echo ("#!/bin/bash" ++ NL) SubmitFile;
      echo ("#SBATCH --output=" ++ sp ++ "/myout_" ++ str (SubmitID cfg) ++
            "_" ++ str (Z.of_nat j) ++ ".txt " ++ NL) SubmitFile;
      echo ("#SBATCH --error=" ++ sp ++ "/myerr_" ++ str (SubmitID cfg) ++
            "_" ++ str (Z.of_nat j) ++ ".txt" ++ NL) SubmitFile;
      echo ("#SBATCH --time=00:05:00" ++ NL) SubmitFile ] in
  let account :=
    if IfPublicNode cfg =? 0 then
      [ echo ("#SBATCH --account=pi-lgrandi" ++ NL) SubmitFile;
        echo ("#SBATCH --qos=xenon1t" ++ NL) SubmitFile;
        echo ("#SBATCH --partition=xenon1t" ++ NL) SubmitFile ]
    else if IfPublicNode cfg =? 2 then
      [ echo ("#SBATCH --account=pi-lgrandi" ++ NL) SubmitFile;
        echo ("#SBATCH --qos=xenon1t-kicp" ++ NL) SubmitFile;
        echo ("#SBATCH --partition=kicp" ++ NL) SubmitFile ]
    else [] in
  let env := [ echo (". /home/mcfate/Env/GlobalPAXEnv.sh" ++ NL ++ NL) SubmitFile ] in
  let stage2 :=
    [ echo ("python " ++ EXE2 ++ " " ++ AbsoluteConfigFile ++ " " ++
            TmpOutputFilename ID_job ++ " " ++ ProcessedRootFilename ++ " " ++
            OutputFilename ID_job) SubmitFile ] in
  if negb (ArrayOutput cfg =? 0) then
    let running := [ Print ("running " ++ TruthCSVFilename ID_job) ] in
    match save_ap cfg with
    | None => ((head ++ account ++ env ++ running)%list, Some NameError)
    | Some ap =>
        ((head ++ account ++ env ++ running ++
          [ echo ("python " ++ EXE1 ++ " " ++ TruthCSVFilename ID_job ++ " " ++
                  TmpOutputFilename ID_job ++ " 0 " ++ ap) SubmitFile ] ++
          stage2)%list, None)
    end
  else
    ((head ++ account ++ env ++
      [ echo ("python " ++ EXE1 ++ " " ++ TruthCSVFilename ID_job ++ " " ++
              TmpOutputFilename ID_job) SubmitFile ] ++
      stage2)%list, None).

(** [SubmitPath] for job [j] after the test of [RelativeSubmitPath[0]];
    [None] is the IndexError of the subscript on an empty string. *)
Definition submit_dir (j : nat) : option string :=
  match RelativeSubmitPath cfg with
  | EmptyString => None
  | String c _ => Some (if Ascii.eqb c "/" then SubmitPath_abs j else SubmitPath j)
  end.

(** The loop body for job [j] up to the comment [#submit]. *)
Definition prepare (j : nat) (ID_job : string) : list event * prepared :=
  match submit_dir j with
  | None => ([], Abort IndexError)
  | Some sp =>
      let SubmitFile := sp ++ "/submit" in
      let dirs :=
        ((if path_exists w sp then [Call ("rm -r " ++ sp)] else []) ++
         [Call ("mkdir " ++ sp)] ++
         (if path_exists w SubmitFile then [Call ("rm " ++ SubmitFile)] else []))%list in
      match correlate ID_job with
      | None => (dirs, Skip)
      | Some ProcessedRootFilename =>
          let (lines, err) :=
            write_submit j ID_job sp SubmitFile ProcessedRootFilename in
          let tr := (dirs ++ [Print ("To process -> " ++ ID_job)] ++ lines)%list in
          match err with
          | Some e => (tr, Abort e)
          | None => (tr, Ready sp SubmitFile ProcessedRootFilename)
          end
      end
  end.

(** The command that hands a submit file to the queue. *)
Definition sbatch (sp SubmitFile : string) : event :=
  Call ("cd " ++ sp ++ ";sbatch " ++ SubmitFile ++ ";cd -").

(** One pass of the [while IfSubmitted==0] loop on the poll result [p]:
    what it does, and the value of [IfSubmitted] after it. *)
Definition poll_once (sp SubmitFile : string) (p : poll) : list event * bool :=
  let query :=
    [ Squeue Partition (CurrentUser cfg);
      Call ("squeue --partition=" ++ Partition ++ " --user=mcfate | wc -l");
      Print ("Current job running number " ++ str (Output p)) ] in
  if (Status p =? 0) && (Output p <? MaxNumJob) then
    ((query ++ [ sbatch sp SubmitFile; Call ("rm " ++ SubmitFile); Sleep 1 ])%list,
     true)
  else ((query ++ [ Sleep 30 ])%list, false).

(** The [while IfSubmitted==0] loop, fed with the results of its successive
    polls: the trace, and the polls left once the job is submitted ([None]
    when the results run out with the job still pending). *)
Fixpoint submit_loop (sp SubmitFile : string) (polls : list poll)
  : list event * option (list poll) :=
  match polls with
  | [] => ([], None)
  | p :: polls' =>
      let (tr, IfSubmitted) := poll_once sp SubmitFile p in
      if IfSubmitted then (tr, Some polls')
      else
        let (tr', rest) := submit_loop sp SubmitFile polls' in
        ((tr ++ tr')%list, rest)
  end.

(** [for j, ID_job in enumerate(IDList)], from index [j] on. *)
Fixpoint submission (j : nat) (ids : list string) (polls : list poll)
  : list event * outcome :=
  match ids with
  | [] => ([], Finished)
  | ID_job :: ids' =>
      let (tr, p) := prepare j ID_job in
      match p with
      | Skip =>
          let (tr', o) := submission (S j) ids' polls in ((tr ++ tr')%list, o)
      | Abort e => (tr, Raised e)
      | Ready sp SubmitFile _ =>
          match submit_loop sp SubmitFile polls with
          | (tr1, None) => ((tr ++ tr1)%list, Polling j)
          | (tr1, Some polls') =>
              let (tr', o) := submission (S j) ids' polls' in
              ((tr ++ tr1 ++ tr')%list, o)
          end
      end
  end.

(** The whole script, from the first glob to the removal of the temporary
    directory. *)
Definition script (polls : list poll) : list event * outcome :=
  match make_IDList FileList with
  | None => ([], Raised IndexError)
  | Some IDList =>
      let tmp :=
        ((if path_exists w TmpPath then [Call ("rm -r " ++ TmpPath)] else []) ++
         [Call ("mkdir " ++ TmpPath)])%list in
      let (tr, o) := submission 0 IDList polls in
      match o with
      | Finished => ((tmp ++ tr ++ [Call ("rm -rf " ++ TmpPath)])%list, Finished)
      | _ => ((tmp ++ tr)%list, o)
      end
  end.

(** The Correlator: the jobs of the loop that reach the submission, each
    with its index, its identifier, the truth file and the processed file. *)
Fixpoint Correlator (j : nat) (ids : list string)
  : list (nat * string * string * string) :=
  match ids with
  | [] => []
  | ID_job :: ids' =>
      match correlate ID_job with
      | None => Correlator (S j) ids'
      | Some processed =>
          (j, ID_job, TruthCSVFilename ID_job, processed) :: Correlator (S j) ids'
      end
  end.

End Script.

(** *** Reading a trace *)

(** The submissions to the queue. *)
Definition is_sbatch (e : event) : bool :=
  match e with
  | Call cmd => String.prefix "cd " cmd
  | _ => false
  end.

(** The queries of the queue. *)
Definition is_squeue (e : event) : bool :=
  match e with
  | Squeue _ _ => true
  | _ => false
  end.

(** The long sleeps between two polls. *)
Definition is_backoff (e : event) : bool :=
  match e with
  | Sleep n => n =? 30
  | _ => false
  end.

(** The recursive, forced removals. *)
Definition is_cleanup (e : event) : bool :=
  match e with
  | Call cmd => String.prefix "rm -rf " cmd
  | _ => false
  end.

(** [SubmitPath] for job [j], whichever way [RelativeSubmitPath] starts. *)
Definition job_dir (cfg : config) (j : nat) : string :=
  if startswith (RelativeSubmitPath cfg) "/"
  then SubmitPath_abs cfg j else SubmitPath cfg j.

(** The submission of job [j]. *)
Definition dispatch_of (cfg : config) (j : nat) : event :=
  sbatch (job_dir cfg j) (job_dir cfg j ++ "/submit").

(** The index of a job of the Correlator. *)
Definition job_index (job : nat * string * string * string) : nat :=
  fst (fst (fst job)).

(** The identifier of a job of the Correlator. *)
Definition job_ID (job : nat * string * string * string) : string :=
  snd (fst (fst job)).

(** The identifiers the loop pairs with a processed file. *)
Definition matched (cfg : config) (w : world) (ID_job : string) : bool :=
  match correlate cfg w ID_job with
  | Some _ => true
  | None => false
  end.

(** What one pass of the submission loop does before it decides. *)
Definition asks (cfg : config) (n : Z) : list event :=
  [ Squeue (Partition cfg) (CurrentUser cfg);
    Call ("squeue --partition=" ++ Partition cfg ++ " --user=mcfate | wc -l");
    Print ("Current job running number " ++ str n) ].

(** The submissions the loop is expected to make, in the order of the
    Correlator. *)
Definition expected (cfg : config) (w : world) (j : nat) (ids : list string)
  : list event :=
  map (dispatch_of cfg) (map job_index (Correlator cfg w j ids)).

(** The script ran to its last line. *)
Definition is_finished (o : outcome) : bool :=
  match o with
  | Finished => true
  | _ => false
  end.

(** The test of the submission loop on a poll result:
    [Status==0 and Output<MaxNumJob]. *)
Definition admits (cfg : config) (p : poll) : bool :=
  (Status p =? 0) && (Output p <? MaxNumJob cfg).

(** What the loop does on a poll that keeps the job waiting. *)
Definition waits (cfg : config) (p : poll) : list event :=
  (asks cfg (Output p) ++ [Sleep 30])%list.

(** The second run of [squeue] in a pass of the loop, the one made through
    the shell for its exit status. *)
Definition is_status_query (e : event) : bool :=
  match e with
  | Call cmd => String.prefix "squeue " cmd
  | _ => false
  end.

(** The directories made. *)
Definition is_mkdir (e : event) : bool :=
  match e with
  | Call cmd => String.prefix "mkdir " cmd
  | _ => false
  end.

(** The creation of the submit directory of job [j]. *)
Definition mkdir_of (cfg : config) (j : nat) : event :=
  Call ("mkdir " ++ job_dir cfg j).

(** The name of the script, which [EXE_Path] is cut at. *)
Definition script_name : string := "BatchMergeTruthAndProcessed.py".

(** *** The command line *)

(** How the binding of the names to [sys.argv] ends: with the usage text
    and [exit()], with an exception, or with the names bound. *)
Inductive start : Type :=
| Usage
| Died (e : exn)
| Started (cfg : config).

(** The two lines printed when no argument is given. *)
Definition usage : list event :=
  [ Print "======== Usage =========";
    Print ("python BatchMergeTruthAndProcessed.py <config file> " ++
           "<truth csv path> <processed root path> <output path> " ++
           "<(opt)relative path for submission> " ++
           "<(opt) if use public node (1) optional (2 for use kicp nodes)> " ++
           "<(opt)Submit ID> <(opt) if use arrays in output (1) (default 0)> " ++
           "<(opt) minitree type; 0(default): Basics, 1: S1S2Properties, " ++
           "2: PeakEfficiency> <(opt) save afterpulses in arrays (default 0)>") ].

(** [int(sys.argv[i])] when [len(sys.argv) > i], the default otherwise.
    [to_int] is what [int] makes of a string, [None] its ValueError. *)
Definition int_argument (to_int : string -> option Z) (argv : list string)
  (i : nat) (default : Z) : option Z :=
  if (i <? List.length argv)%nat then to_int (nth i argv EmptyString)
  else Some default.

(** The lines from [if len(sys.argv)<=1] to the binding of [save_ap], and
    the two calls [os.getcwd()] and [getpass.getuser()], whose answers are
    [cwd] and [user]. *)
Definition bind_names (to_int : string -> option Z) (cwd user : string)
  (argv : list string) : start :=
  if (List.length argv <=? 1)%nat then Usage
  else
    match index argv 0, index argv 1, index argv 2, index argv 3, index argv 4 with
    | Some exe, Some cf, Some tp, Some pp, Some op =>
        let rel :=
          if (5 <? List.length argv)%nat then nth 5 argv EmptyString
          else "Submit" in
        match int_argument to_int argv 6 1 with
        | None => Died ValueError
        | Some pub =>
            match int_argument to_int argv 7 0 with
            | None => Died ValueError
            | Some sid =>
                match int_argument to_int argv 8 0 with
                | None => Died ValueError
                | Some arr =>
                    match int_argument to_int argv 9 0 with
                    | None => Died ValueError
                    | Some mt =>
                        Started
                          {| CurrentEXE := exe;
                             ConfigFile := cf;
                             TruthCSVPath := tp;
                             ProcessedRootPath := pp;
                             OutputPath := op;
                             RelativeSubmitPath := rel;
                             IfPublicNode := pub;
                             SubmitID := sid;
                             ArrayOutput := arr;
                             MinitreeType := mt;
                             save_ap :=
                               if (10 <? List.length argv)%nat
                               then Some (nth 10 argv EmptyString) else None;
                             CurrentPath := cwd;
                             CurrentUser := user |}
                    end
                end
            end
        end
    | _, _, _, _, _ => Died IndexError
    end.

(** The script from its first line: the usage text and [exit()], an
    exception of the binding, or the run on the names bound. *)
Definition from_command_line (to_int : string -> option Z) (cwd user : string)
  (argv : list string) (w : world) (polls : list poll) : list event * outcome :=
  match bind_names to_int cwd user argv with
  | Usage => (usage, Finished)
  | Died e => ([], Raised e)
  | Started cfg => script cfg w polls
  end.

End BatchMerge.

(** ** Test doubles

    Concrete worlds on which the two scripts can be run: a small file system
    with a scripted [hadd] for the post-processing, directory listings with
    a wildcard matcher for the globs of the batch script. *)

Module Samples.
Import Py.

(** *** A file system for mc_postprocess.py *)

Record sim : Type := {
  sim_cwd : string;
  sim_files : list (string * string);
  sim_dirs : list string;
  sim_listing : list string;
  sim_entries : string -> list string -> exn + Z;
  sim_hadd : list string -> McPostprocess.call_result * bool
}.

Definition sim_isfile (p : string) (w : sim) : bool :=
  existsb (fun f => String.eqb p (fst f)) (sim_files w).

Definition sim_isdir (p : string) (w : sim) : bool :=
  existsb (String.eqb p) (sim_dirs w).

Definition sim_read (p : string) (w : sim) : option string :=
  option_map snd (find (fun f => String.eqb p (fst f)) (sim_files w)).

Definition sim_with (w : sim) (files : list (string * string)) (dirs : list string)
  : sim :=
  {| sim_cwd := sim_cwd w; sim_files := files; sim_dirs := dirs;
     sim_listing := sim_listing w; sim_entries := sim_entries w;
     sim_hadd := sim_hadd w |}.

Definition sim_mkdir (d : string) (w : sim) : option sim :=
  if sim_isdir d w || sim_isfile d w then None
  else Some (sim_with w (sim_files w) (d :: sim_dirs w)).

Definition sim_rename (src dst : string) (w : sim) : string + sim :=
  match sim_read src w with
  | None => inl "[Errno 2] No such file or directory"
  | Some c =>
      inr (sim_with w
             ((dst, c) :: filter (fun f => negb (String.eqb src (fst f))) (sim_files w))
             (sim_dirs w))
  end.

(** [hadd] as scripted: its result, and whether it writes its output file
    (the second word of the command line). *)
Definition sim_check_call (argv : list string) (w : sim)
  : McPostprocess.call_result * sim :=
  let (r, writes) := sim_hadd w argv in
  match r, writes, argv with
  | McPostprocess.CallOk, true, _ :: out :: _ =>
      (r, sim_with w ((out, EmptyString) :: sim_files w) (sim_dirs w))
  | _, _, _ => (r, w)
  end.

#[export] Instance sim_world : McPostprocess.World sim := {|
  McPostprocess.os_path_isfile := sim_isfile;
  McPostprocess.os_path_isdir := sim_isdir;
  McPostprocess.open_read := sim_read;
  McPostprocess.os_getcwd := sim_cwd;
  McPostprocess.os_chdir := fun _ w => Some w;
  McPostprocess.os_listdir := fun _ w => Some (sim_listing w);
  McPostprocess.os_mkdir := sim_mkdir;
  McPostprocess.os_rename := sim_rename;
  McPostprocess.check_call := sim_check_call;
  McPostprocess.tree_entries := fun f path w => sim_entries w f path
|}.

(** A dag file of flavor G4 with two jobs of 500 events each. *)
Definition dag_text : string :=
  let dq := McPostprocess.dq in
  let NL := McPostprocess.NL in
  "# flavor=" ++ dq ++ "G4" ++ dq ++ NL ++
  "JOB sim_0 mc.submit" ++ NL ++
  "VARS sim_0 events=" ++ dq ++ "500" ++ dq ++ NL ++
  "JOB sim_1 mc.submit" ++ NL ++
  "VARS sim_1 events=" ++ dq ++ "500" ++ dq ++ NL.

(** The two per-job files of an output group. *)
Definition outputs_of (suffix : string) : list string :=
  ["mc_run_v1_0_" ++ suffix; "mc_run_v1_1_" ++ suffix].

(** A [root_files] dictionary in which every group has its two files. *)
Definition groups_complete : McPostprocess.dict :=
  [ ("PAX ROOT", McPostprocess.Group (outputs_of "pax.root") "pax.root");
    ("Sort ROOT", McPostprocess.Group (outputs_of "Sort.root") "Sort.root");
    ("Geant ROOT", McPostprocess.Group (outputs_of "G4.root") "G4.root");
    ("Basics", McPostprocess.Group (outputs_of "Basics.root") "Basics.root");
    ("Fundamentals",
     McPostprocess.Group (outputs_of "Fundamentals.root") "Fundamentals.root");
    ("DoubleScatter",
     McPostprocess.Group (outputs_of "DoubleScatter.root") "DoubleScatter.root");
    ("LargestPeakProperties",
     McPostprocess.Group (outputs_of "LargestPeakProperties.root")
                         "LargestPeakProperties.root");
    ("TotalProperties",
     McPostprocess.Group (outputs_of "TotalProperties.root") "TotalProperties.root") ].

(** The same dictionary with one PAX file missing. *)
Definition groups_pax_short : McPostprocess.dict :=
  McPostprocess.dict_set groups_complete "PAX ROOT"
    (McPostprocess.Group ["mc_run_v1_0_pax.root"] "pax.root").

(** A working directory with the dag file and the output directory; every
    tree has [n] entries, and [hadd] fails on the outputs listed in [broken]. *)
Definition post_world (n : Z) (listing broken : list string) : sim :=
  {| sim_cwd := "/work";
     sim_files := [("mc.dag", dag_text)];
     sim_dirs := ["output"];
     sim_listing := listing;
     sim_entries := fun _ _ => inr n;
     sim_hadd := fun argv =>
       match argv with
       | _ :: out :: _ =>
           if existsb (String.eqb out) broken
           then (McPostprocess.CalledProcessError, false)
           else (McPostprocess.CallOk, true)
       | _ => (McPostprocess.CallOSError, false)
       end |}.

(** The same after [merged_results] has been created. *)
Definition merge_world (broken : list string) : sim :=
  sim_with (post_world 500 [] broken) [("mc.dag", dag_text)]
           ["/work/merged_results"; "output"].

(** A working directory whose dag file holds [text], with the directories
    [dirs] and an empty output directory. *)
Definition dag_world (text : string) (dirs : list string) : sim :=
  {| sim_cwd := "/work";
     sim_files := [("mc.dag", text)];
     sim_dirs := dirs;
     sim_listing := [];
     sim_entries := fun _ _ => inr 0;
     sim_hadd := fun _ => (McPostprocess.CallOk, true) |}.

(** A dag file with one job and no event count. *)
Definition dag_no_events : string := "JOB sim_0 mc.submit" ++ McPostprocess.NL.

(** A dag file with an event count and no job. *)
Definition dag_no_jobs : string :=
  "VARS sim_0 events=" ++ McPostprocess.dq ++ "500" ++ McPostprocess.dq ++
  McPostprocess.NL.

(** A dag file of the flavor [f] with one job of 500 events. *)
Definition dag_of_flavor (f : string) : string :=
  "# flavor=" ++ McPostprocess.dq ++ f ++ McPostprocess.dq ++ McPostprocess.NL ++
  dag_no_events ++ dag_no_jobs.

(** *** Directory listings for BatchMergeTruthAndProcessed.py *)

(** Shell wildcards as the globs of the script use them: [*] stands for any
    run of characters, [?] for one; bracket classes are not modelled. *)
Fixpoint fnmatch (pat s : string) : bool :=
  match pat with
  | EmptyString => String.eqb s EmptyString
  | String c pat' =>
      if Ascii.eqb c "*" then
        (fix star (s : string) : bool :=
           fnmatch pat' s ||
           match s with
           | EmptyString => false
           | String _ s' => star s'
           end) s
      else
        match s with
        | EmptyString => false
        | String d s' => (Ascii.eqb c "?" || Ascii.eqb c d) && fnmatch pat' s'
        end
  end.

(** [glob.glob] over directories given by their listings; the directory
    names hold no wildcard. *)
Fixpoint glob_dirs (dirs : list (string * list string)) (pattern : string)
  : list string :=
  match dirs with
  | [] => []
  | (d, entries) :: dirs' =>
      match drop_prefix (d ++ "/") pattern with
      | Some base => map (fun e => d ++ "/" ++ e) (filter (fnmatch base) entries)
      | None => glob_dirs dirs' pattern
      end
  end.

Definition listing_world (dirs : list (string * list string)) : BatchMerge.world :=
  {| BatchMerge.glob := glob_dirs dirs;
     BatchMerge.path_exists := fun _ => false |}.

(** A run on the public partition, from [/home/user]. *)
Definition cfg_public : BatchMerge.config :=
  {| BatchMerge.CurrentEXE := "BatchMergeTruthAndProcessed.py";
     BatchMerge.ConfigFile := "XENON1T.ini";
     BatchMerge.TruthCSVPath := "/data/truth";
     BatchMerge.ProcessedRootPath := "/data/processed";
     BatchMerge.OutputPath := "/data/merged";
     BatchMerge.RelativeSubmitPath := "Submit";
     BatchMerge.IfPublicNode := 1;
     BatchMerge.SubmitID := 0;
     BatchMerge.ArrayOutput := 0;
     BatchMerge.MinitreeType := 0;
     BatchMerge.save_ap := None;
     BatchMerge.CurrentPath := "/home/user";
     BatchMerge.CurrentUser := "user" |}.

(** The same run asked for arrays in the output, with nine arguments on the
    command line: [save_ap] is not bound. *)
Definition cfg_arrays : BatchMerge.config :=
  {| BatchMerge.CurrentEXE := "BatchMergeTruthAndProcessed.py";
     BatchMerge.ConfigFile := "XENON1T.ini";
     BatchMerge.TruthCSVPath := "/data/truth";
     BatchMerge.ProcessedRootPath := "/data/processed";
     BatchMerge.OutputPath := "/data/merged";
     BatchMerge.RelativeSubmitPath := "Submit";
     BatchMerge.IfPublicNode := 1;
     BatchMerge.SubmitID := 0;
     BatchMerge.ArrayOutput := 1;
     BatchMerge.MinitreeType := 0;
     BatchMerge.save_ap := None;
     BatchMerge.CurrentPath := "/home/user";
     BatchMerge.CurrentUser := "user" |}.

(** Truth files for the identifiers 1 and 10, one processed file, the one
    of identifier 10. *)
Definition world_prefix : BatchMerge.world :=
  listing_world
    [ ("/data/truth",
       ["FakeWaveform_XENON1T_1_truth.csv"; "FakeWaveform_XENON1T_10_truth.csv"]);
      ("/data/processed", ["FakeWaveform_XENON1T_10_pax.root"]) ].

(** A queue that is empty at every poll. *)
Definition idle : BatchMerge.poll :=
  {| BatchMerge.Output := 1; BatchMerge.Status := 0 |}.

(** A poll that finds the queue at the ceiling of the public partition. *)
Definition full : BatchMerge.poll :=
  {| BatchMerge.Output := 64; BatchMerge.Status := 0 |}.

(** A poll whose shell pipeline exits with a non-zero status. *)
Definition failed : BatchMerge.poll :=
  {| BatchMerge.Output := 3; BatchMerge.Status := 1 |}.

(** Truth files for the identifiers 1 and 2, and a processed file for the
    identifier 2 only. *)
Definition world_unmatched : BatchMerge.world :=
  listing_world
    [ ("/data/truth",
       ["FakeWaveform_XENON1T_1_truth.csv"; "FakeWaveform_XENON1T_2_truth.csv"]);
      ("/data/processed", ["FakeWaveform_XENON1T_2_pax.root"]) ].

(** A comment of [n] characters. *)
Fixpoint comment (n : nat) : string :=
  match n with
  | O => EmptyString
  | S n' => String "#" (comment n')
  end.

(** A first line that fills the first 1024 characters of a dag file. *)
Definition dag_header : string := comment 1023 ++ McPostprocess.NL.

(** [int] on the strings of decimal digits; every other string is refused. *)
Definition digits_to_int (s : string) : option Z :=
  match s with
  | EmptyString => None
  | _ => if forallb Py.is_digit (list_ascii_of_string s)
         then Some (Py.int s) else None
  end.

(** A command line that asks for arrays in the output and stops at the
    minitree type. *)
Definition argv_arrays : list string :=
  [ "BatchMergeTruthAndProcessed.py"; "XENON1T.ini"; "/data/truth";
    "/data/processed"; "/data/merged"; "Submit"; "1"; "0"; "1"; "0" ].

End Samples.

(** * The primitives on small inputs *)

Section Primitives.
Import Py.

Example split_underscore :
  split "mc_run_v1_0_pax.root" "_" = ["mc"; "run"; "v1"; "0"; "pax.root"] /\
  split "a__b_" "_" = ["a"; ""; "b"; ""] /\
  split "plain" "_" = ["plain"].
Proof. repeat split; reflexivity. Qed.

Example split_word :
  split "xABabABcAB" "AB" = ["x"; "ab"; "c"; ""].
Proof. reflexivity. Qed.

Example del_index_examples :
  del_index ["mc"; "run"; "v1"; "0"; "pax.root"] 3 = Some ["mc"; "run"; "v1"; "pax.root"] /\
  del_index ["a"; "b"; "c"] 3 = None.
Proof. split; reflexivity. Qed.

Example str_examples : str 0 = "0" /\ str 17 = "17" /\ str (-5) = "-5".
Proof. repeat split; reflexivity. Qed.

Example int_example : int "01200" = 1200.
Proof. reflexivity. Qed.

Example endswith_examples :
  endswith "mc_run_v1_0_pax.root" "pax.root" = true /\
  endswith "x" "pax.root" = false.
Proof. split; reflexivity. Qed.

Example os_path_join_examples :
  os_path_join "/home/u" "merged_results" = "/home/u/merged_results" /\
  os_path_join "/" "x" = "/x" /\ os_path_join "/a" "/b" = "/b".
Proof. repeat split; reflexivity. Qed.

(** [0.05] is the quotient of [5.0] by [100.0], and [0.05 * 1000.0] is
    [50.0]. *)
Example EVENT_THRESHOLD_value :
  Some McPostprocess.EVENT_THRESHOLD =
    match float_of_int 5, float_of_int 100 with
    | Some a, Some b => Some (SFdiv prec emax a b)
    | _, _ => None
    end /\
  option_map (fmul McPostprocess.EVENT_THRESHOLD) (float_of_int 1000) =
    float_of_int 50.
Proof. split; reflexivity. Qed.

Example dag_file_example :
  McPostprocess.scan_dag (McPostprocess.file_lines Samples.dag_text) 0 0 = (2, 1000) /\
  McPostprocess.flavor_search (substring 0 1024 Samples.dag_text) = Some "G4".
Proof. split; reflexivity. Qed.

Example extract_ID_examples :
  BatchMerge.extract_ID "/data/truth/FakeWaveform_XENON1T_000012_truth.csv"
    = Some "000012" /\
  BatchMerge.extract_ID "/data/truth/notes.csv" = None.
Proof. split; reflexivity. Qed.

Example fnmatch_examples :
  Samples.fnmatch "FakeWaveform_XENON1T_1*.root" "FakeWaveform_XENON1T_10_pax.root"
    = true /\
  Samples.fnmatch "FakeWaveform_XENON1T_2*.root" "FakeWaveform_XENON1T_10_pax.root"
    = false /\
  Samples.fnmatch "*.csv" "FakeWaveform_XENON1T_1_truth.csv" = true.
Proof. repeat split; reflexivity. Qed.

End Primitives.

(** * Properties of mc_postprocess.py *)

Section Postprocess.
Import Py McPostprocess.

Context {W : Type} {HW : World W}.

Lemma emit_twice (tr : list event) (a b : event) :
  ((tr ++ [a]) ++ [b])%list = (tr ++ [a; b])%list.
Proof. now rewrite <- app_assoc. Qed.

Lemma del_index_length {A : Type} (l : list A) (i : nat) :
  del_index l i = None <-> (List.length l <= i)%nat.
Proof.
  revert i; induction l as [|x l IH]; intros i; simpl.
  - split; [lia | reflexivity].
  - destruct i as [|i]; simpl.
    + split; [discriminate | lia].
    + specialize (IH i). destruct (del_index l i); simpl.
      * split; [discriminate | intros Hl].
        assert (Hn : (List.length l <= i)%nat) by lia.
        apply IH in Hn. discriminate.
      * split; [intros _ | reflexivity].
        assert (Hn : (List.length l <= i)%nat) by now apply IH.
        lia.
Qed.

(** ** merge_files *)

(** C10: [merge_files] raises IndexError exactly when the file list is empty
    or the first file name has fewer than four fields between underscores;
    it returns False exactly when the merge is attempted and fails in one of
    the four ways of [merge_fails]. *)
Theorem merge_files_partial :
  forall (R : Type) (file_list : list string) (result_dir : string) (s : state W),
    let r := fst (merge_files (R := R) file_list result_dir s) in
    (r = Raised IndexError <->
       file_list = [] \/
       exists f l, file_list = f :: l /\ (List.length (split f "_") < 4)%nat) /\
    (r = Normal false <-> merge_fails file_list result_dir (world s)).
Proof.
  intros R file_list result_dir s.
  unfold merge_files, merge_files_body, merge_fails, bind, of_option, index.
  destruct file_list as [|f l]; simpl.
  - split; split; try discriminate; auto.
    intros (f & l & fields & Hnil & _). discriminate.
  - destruct (del_index (split f "_") 3) as [fields|] eqn:Hd; simpl.
    + assert (Hlen : ~ (List.length (split f "_") < 4)%nat).
      { intros Hl. assert (Hn : del_index (split f "_") 3 = None)
          by (apply del_index_length; lia). congruence. }
      assert (Hshort :
        f :: l = [] \/
        (exists f' l', f :: l = f' :: l' /\ (List.length (split f' "_") < 4)%nat) ->
        False).
      { intros [Hnil | (f' & l' & Heq & Hl)]; [discriminate|].
        injection Heq as <- <-. contradiction. }
      destruct (check_call ("hadd" :: join "_" fields :: f :: l) (world s))
        as [c w1] eqn:Hc.
      destruct c; simpl.
      * destruct (os_path_isdir result_dir w1) eqn:Hdir; simpl.
        -- destruct (os_path_isfile (join "_" fields) w1) eqn:Hfile; simpl.
           ++ destruct (os_rename (join "_" fields)
                          (os_path_join result_dir (join "_" fields)) w1)
                as [msg|w2] eqn:Hmv; simpl.
              ** split; split; try discriminate; try (intros _; reflexivity);
                   try (intros Hs; now apply Hshort in Hs).
                 intros _. exists f, l, fields.
                 split; [reflexivity|]. split; [exact Hd|].
                 cbv zeta; rewrite Hc; simpl. right. split; [reflexivity|].
                 right; right. rewrite Hdir, Hfile, Hmv. eauto.
              ** split; split; try discriminate;
                   try (intros Hs; now apply Hshort in Hs).
                 intros (f' & l' & fields' & Heq & Hd' & Hcases).
                 injection Heq as <- <-.
                 assert (fields' = fields) by congruence. subst fields'.
                 cbv zeta in Hcases; rewrite Hc in Hcases; simpl in Hcases.
                 rewrite Hdir, Hfile, Hmv in Hcases.
                 destruct Hcases
                   as [Hbad | (_ & [Hbad | [(_ & Hbad) | (_ & _ & msg & Hbad)]])];
                   discriminate.
           ++ split; split; try discriminate; try (intros _; reflexivity);
                try (intros Hs; now apply Hshort in Hs).
              intros _. exists f, l, fields.
              split; [reflexivity|]. split; [exact Hd|].
              cbv zeta; rewrite Hc; simpl. right. split; [reflexivity|].
              right; left. now rewrite Hdir, Hfile.
        -- split; split; try discriminate; try (intros _; reflexivity);
             try (intros Hs; now apply Hshort in Hs).
           intros _. exists f, l, fields.
           split; [reflexivity|]. split; [exact Hd|].
           cbv zeta; rewrite Hc; simpl. right. split; [reflexivity|].
           left. exact Hdir.
      * split; split; try discriminate; try (intros _; reflexivity);
          try (intros Hs; now apply Hshort in Hs).
        intros _. exists f, l, fields.
        split; [reflexivity|]. split; [exact Hd|].
        cbv zeta; rewrite Hc; simpl. now left.
      * split; split; try discriminate;
          try (intros Hs; now apply Hshort in Hs).
        intros (f' & l' & fields' & Heq & Hd' & Hcases).
        injection Heq as <- <-.
        assert (fields' = fields) by congruence. subst fields'.
        cbv zeta in Hcases; rewrite Hc in Hcases; simpl in Hcases.
        destruct Hcases as [Hbad | (Hbad & _)]; discriminate.
    + assert (Hlen : (List.length (split f "_") < 4)%nat).
      { apply del_index_length in Hd. lia. }
      split; split; try discriminate; try reflexivity.
      * intros _. right. exists f, l. split; [reflexivity | exact Hlen].
      * intros (f' & l' & fields' & Heq & Hd' & _).
        injection Heq as <- <-. congruence.
Qed.

(** ** run_main before the output groups *)

(** C7: when the dag file is not there, [get_dag_information] returns a pair
    and the three-name assignment in [run_main] raises ValueError: the run
    ends with an exception that nothing handles, not with [return 1]. *)
Theorem run_main_missing_dag :
  forall (dag_file : string) (s : state W),
    os_path_isfile dag_file (world s) = false ->
    run_main dag_file s =
    (Raised ValueError,
     mkState (world s) (trace s ++ [Stderr (dag_file ++ " not found" ++ NL)])).
Proof.
  intros dag_file s Hfile.
  unfold run_main, get_dag_information, bind, query, emit, ret, raise; simpl.
  now rewrite Hfile.
Qed.

(** The flavor switch either goes on or returns 1. *)
Lemma flavor_outputs_cases (flavor : option string) (rf : dict) (s : state W) :
  (exists sel, flavor_outputs flavor rf s = (Normal sel, s)) \/
  (exists s', flavor_outputs flavor rf s = (Returned 1, s')).
Proof.
  unfold flavor_outputs, bind, emit, ret, return_.
  repeat match goal with
         | |- context [match ?x with _ => _ end] => destruct x
         end; eauto.
Qed.

(** The loop over [MINITREE_OUTPUTS] cannot unpack the key [Basics]. *)
Lemma add_minitrees_raises (R : Type) (rf : dict) (s : state W) :
  add_minitrees (R := R) (keys MINITREE_OUTPUTS) rf s = (Raised ValueError, s).
Proof. reflexivity. Qed.

(** No run of [run_main] reaches its end: it returns 1 or it raises. *)
Lemma run_main_never_completes (dag_file : string) (s : state W) :
  match fst (run_main dag_file s) with
  | Normal _ => False
  | Returned n => n = 1
  | Raised _ => True
  end.
Proof.
  unfold run_main, bind.
  destruct (get_dag_information dag_file s) as [[info | r | e] s1] eqn:Hinfo;
    simpl; auto.
  - destruct info as [jobs events | jobs events flavor]; simpl; auto.
    destruct (events =? 0); simpl; auto.
    destruct (jobs =? 0); simpl; auto.
    destruct (negb (os_path_isdir "output" (world s1))); simpl; auto.
    unfold command; simpl.
    destruct (os_chdir "output" (world s1)) as [w1|]; simpl; auto.
    match goal with
    | |- context [flavor_outputs flavor ?rf ?st] =>
        destruct (flavor_outputs_cases flavor rf st) as [[[gs rf'] ->] | [s' ->]]
    end; simpl; auto.
  - unfold get_dag_information, bind, query, emit, ret, of_option in Hinfo.
    simpl in Hinfo.
    destruct (negb (os_path_isfile dag_file (world s))); simpl in Hinfo;
      [discriminate|].
    destruct (open_read dag_file (world s)); simpl in Hinfo;
      [|discriminate].
    destruct (scan_dag _ _ _); discriminate.
Qed.

(** ** The file-count loop *)

Lemma check_file_counts_spec (jobs : Z) (d : dict) (s : state W) :
  check_file_counts jobs d s =
  match find (count_differs jobs) d with
  | Some item =>
      (Returned 1,
       mkState (world s)
               (trace s ++ [Stderr (count_message jobs item); Stderr count_advice]))
  | None => (Normal tt, s)
  end.
Proof.
  induction d as [|item d IH]; simpl; [reflexivity|].
  destruct (count_differs jobs item); [|exact IH].
  unfold bind, emit, return_; simpl. now rewrite emit_twice.
Qed.

(** C1, as the code has it: when the file-count loop meets a group whose
    number of files differs from the number of jobs, the rest of [run_main]
    does nothing but report the first such group on stderr and return 1; the
    world is left as it was, so no group is merged. *)
Theorem count_mismatch_ends_run :
  forall (jobs events : Z) (cur_dir : string) (root_files : dict)
         (item : string * group) (s : state W),
    find (count_differs jobs) root_files = Some item ->
    check_and_merge jobs events cur_dir root_files s =
    (Returned 1,
     mkState (world s)
             (trace s ++ [Stderr (count_message jobs item); Stderr count_advice])) /\
    exit_status (fst (check_and_merge jobs events cur_dir root_files s)) = 1.
Proof.
  intros jobs events cur_dir rf item s Hfind.
  assert (Hrun :
    check_and_merge jobs events cur_dir rf s =
    (Returned 1,
     mkState (world s)
             (trace s ++ [Stderr (count_message jobs item); Stderr count_advice]))).
  { unfold check_and_merge, bind.
    now rewrite check_file_counts_spec, Hfind. }
  split; [exact Hrun | now rewrite Hrun].
Qed.

(** ** The merge loop *)

(** C5, as the code has it: when [merge_files] returns False for a group,
    the merge loop reports it and returns 1 at once; the groups before it
    have been merged, the groups after it are not touched. *)
Theorem merge_failure_ends_run :
  forall (result_dir : string) (merged : dict) (output_type : string)
         (files : list string) (suffix : string) (rest : dict)
         (s s1 s2 : state W),
    merge_all result_dir merged s = (Normal tt, s1) ->
    merge_files (R := Z) files result_dir s1 = (Normal false, s2) ->
    merge_all result_dir (merged ++ (output_type, Group files suffix) :: rest)%list s =
    (Returned 1,
     mkState (world s2) (trace s2 ++ [Stderr (merge_message output_type)])).
Proof.
  intros result_dir merged output_type files suffix rest.
  induction merged as [|[o g] merged IH]; intros s s1 s2 Hdone Hfail; simpl.
  - injection Hdone as <-.
    unfold bind, group_files, ret; simpl. now rewrite Hfail.
  - simpl in Hdone. unfold bind in *.
    destruct (group_files AttributeError g s) as [[fl | r | e] s'];
      try discriminate.
    destruct (merge_files fl result_dir s') as [[ok | r | e] s''];
      try discriminate.
    destruct ok; simpl in *; [|discriminate].
    now apply IH with (s1 := s1).
Qed.

End Postprocess.

(** ** The theorems above on the test doubles *)

Section PostprocessExamples.
Import Py McPostprocess Samples.

Lemma run_main_missing_dag_witness :
  os_path_isfile "other.dag" (post_world 500 [] []) = false /\
  run (run_main "other.dag") (post_world 500 [] []) =
  (Raised ValueError, [Stderr ("other.dag not found" ++ NL)]).
Proof.
  split; [reflexivity|].
  unfold run.
  rewrite (@run_main_missing_dag sim sim_world "other.dag"
             (mkState (post_world 500 [] []) [])); reflexivity.
Defined.

(** C1 as the specification states it fails: with two jobs, one PAX file
    and two files in every other group, the file-count loop returns 1 with
    two lines on stderr and no [hadd] at all, so the Sort group, whose count
    is right, is not merged.  (From the dag file on, the run of the whole of
    [run_main] on these outputs does not get that far: it raises at the loop
    over [MINITREE_OUTPUTS].) *)
Lemma count_mismatch_blocks_every_group :
  count_differs 2 ("PAX ROOT", Group ["mc_run_v1_0_pax.root"] "pax.root") = true /\
  count_differs 2 ("Sort ROOT", Group (outputs_of "Sort.root") "Sort.root") = false /\
  run (check_and_merge 2 1000 "/work" groups_pax_short) (post_world 500 [] []) =
  (Returned 1,
   [Stderr (count_message 2 ("PAX ROOT", Group ["mc_run_v1_0_pax.root"] "pax.root"));
    Stderr count_advice]) /\
  run (run_main "mc.dag")
      (post_world 500 ("mc_run_v1_0_pax.root" :: outputs_of "Sort.root") []) =
  (Raised ValueError, [Chdir "output"]).
Proof. repeat split; reflexivity. Qed.

Lemma count_mismatch_ends_run_witness :
  find (count_differs 2) groups_pax_short =
    Some ("PAX ROOT", Group ["mc_run_v1_0_pax.root"] "pax.root") /\
  exit_status
    (fst (check_and_merge 2 1000 "/work" groups_pax_short
            (mkState (post_world 500 [] []) []))) = 1.
Proof.
  split; [reflexivity|].
  apply (@count_mismatch_ends_run sim sim_world 2 1000 "/work" groups_pax_short
           ("PAX ROOT", Group ["mc_run_v1_0_pax.root"] "pax.root")
           (mkState (post_world 500 [] []) [])).
  reflexivity.
Defined.

(** C5 as the specification states it fails: [hadd] fails on the Sort
    group, the second of eight; the loop has merged the PAX group, reports
    the Sort group and returns 1, and the six groups after it are never
    handed to [hadd]. *)
Lemma merge_failure_blocks_later_groups :
  run (merge_all "/work/merged_results" groups_complete)
      (merge_world ["mc_run_v1_Sort.root"]) =
  (Returned 1,
   [Exec ("hadd" :: "mc_run_v1_pax.root" :: outputs_of "pax.root");
    Rename "mc_run_v1_pax.root" "/work/merged_results/mc_run_v1_pax.root";
    Exec ("hadd" :: "mc_run_v1_Sort.root" :: outputs_of "Sort.root");
    Stderr ("Can't combine files into " ++ repr_list (outputs_of "Sort.root") ++ NL);
    Stderr (merge_message "Sort ROOT")]).
Proof. reflexivity. Qed.

Lemma merge_failure_ends_run_witness :
  let s := mkState (merge_world ["mc_run_v1_Sort.root"]) [] in
  let s1 := snd (merge_all "/work/merged_results" (firstn 1 groups_complete) s) in
  let s2 := snd (merge_files (R := Z) (outputs_of "Sort.root")
                             "/work/merged_results" s1) in
  merge_all "/work/merged_results" (firstn 1 groups_complete) s = (Normal tt, s1) /\
  merge_files (R := Z) (outputs_of "Sort.root") "/work/merged_results" s1 =
    (Normal false, s2) /\
  merge_all "/work/merged_results" groups_complete s =
    (Returned 1, mkState (world s2) (trace s2 ++ [Stderr (merge_message "Sort ROOT")])).
Proof.
  intros s s1 s2.
  assert (Hpair : forall (A B : Type) (p : A * B) (a : A), fst p = a -> p = (a, snd p))
    by (intros A B [x y] a Hx; simpl in Hx; now subst).
  assert (H1 : merge_all "/work/merged_results" (firstn 1 groups_complete) s =
               (Normal tt, s1))
    by (apply Hpair; vm_compute; reflexivity).
  assert (H2 : merge_files (R := Z) (outputs_of "Sort.root")
                           "/work/merged_results" s1 = (Normal false, s2))
    by (apply Hpair; vm_compute; reflexivity).
  split; [exact H1|]. split; [exact H2|].
  exact (@merge_failure_ends_run sim sim_world "/work/merged_results"
           (firstn 1 groups_complete) "Sort ROOT" (outputs_of "Sort.root")
           "Sort.root" (skipn 2 groups_complete) s s1 s2 H1 H2).
Defined.

End PostprocessExamples.

(** * Binary64 rounding, as far as the event threshold needs it *)

Section Rounding.
Import Py.
















End Rounding.

(** * The event threshold of mc_postprocess.py *)

Section Threshold.
Import Py McPostprocess.



End Threshold.

Section ThresholdExamples.
Import Py McPostprocess Samples.

(** The two totals of the specification against 1000 requested events. *)
Example tolerance_1000 :
  events_differ 1000 960 = Some false /\ events_differ 1000 900 = Some true.
Proof. split; reflexivity. Qed.



(** With 900 events found for 1000 requested, every group is reported and
    every group is merged all the same. *)
Example tolerance_does_not_block_merge :
  let r := run (check_and_merge 2 1000 "/work" groups_complete)
               (post_world 450 [] []) in
  fst r = Normal tt /\
  List.length (filter (fun e => match e with Stderr _ => true | _ => false end)
                      (snd r)) = 8%nat /\
  List.length (filter (fun e => match e with Exec _ => true | _ => false end)
                      (snd r)) = 8%nat.
Proof. vm_compute. repeat split; reflexivity. Qed.

End ThresholdExamples.

(** * Properties of BatchMergeTruthAndProcessed.py *)

Lemma prefix_empty (s : string) : String.prefix EmptyString s = true.
Proof. now destruct s. Qed.

Lemma prefix_cons (a b : ascii) (s1 s2 : string) :
  String.prefix (String a s1) (String b s2) = Ascii.eqb a b && String.prefix s1 s2.
Proof.
  change (String.prefix (String a s1) (String b s2))
    with (match ascii_dec a b with
          | left _ => String.prefix s1 s2
          | right _ => false
          end).
  destruct (ascii_dec a b), (Ascii.eqb_spec a b); try contradiction; reflexivity.
Qed.

Lemma append_assoc (a b c : string) : (a ++ b) ++ c = a ++ (b ++ c).
Proof. induction a as [|x a IH]; simpl; [reflexivity | now rewrite IH]. Qed.

Lemma length_append (a b : string) :
  String.length (a ++ b) = (String.length a + String.length b)%nat.
Proof. induction a as [|x a IH]; simpl; [reflexivity | now rewrite IH]. Qed.

Lemma prefix_append (a b c : string) :
  String.prefix (a ++ b) (a ++ c) = String.prefix b c.
Proof.
  induction a as [|x a IH]; [reflexivity|].
  change (String.prefix (String x (a ++ b)) (String x (a ++ c)) = String.prefix b c).
  now rewrite prefix_cons, Ascii.eqb_refl, IH.
Qed.

Section Throttle.
Import Py BatchMerge.

Variable cfg : config.

Lemma is_sbatch_sbatch (sp f : string) : is_sbatch (sbatch sp f) = true.
Proof. unfold sbatch, is_sbatch. simpl. apply prefix_empty. Qed.



(** C8: with the queue counts 70, 70 and 10 against a ceiling of 64, the
    loop polls three times, sleeps 30 after each of the first two polls and
    submits the job on the third, by the shell command
    [cd SubmitPath;sbatch SubmitFile;cd -]; later poll results are left
    untouched. *)
Theorem throttle_three_polls :
  forall (sp SubmitFile : string) (later : list poll),
    MaxNumJob cfg = 64 ->
    let polls :=
      {| Output := 70; Status := 0 |} :: {| Output := 70; Status := 0 |} ::
      {| Output := 10; Status := 0 |} :: later in
    let tr := fst (submit_loop cfg sp SubmitFile polls) in
    submit_loop cfg sp SubmitFile polls =
      ((asks cfg 70 ++ [Sleep 30] ++ asks cfg 70 ++ [Sleep 30] ++ asks cfg 10 ++
        [ Call ("cd " ++ sp ++ ";sbatch " ++ SubmitFile ++ ";cd -");
          Call ("rm " ++ SubmitFile); Sleep 1 ])%list,
       Some later) /\
    List.length (filter is_squeue tr) = 3%nat /\
    List.length (filter is_backoff tr) = 2%nat /\
    filter is_sbatch tr = [Call ("cd " ++ sp ++ ";sbatch " ++ SubmitFile ++ ";cd -")].
Proof.
  intros sp SubmitFile later Hmax polls tr.
  assert (Hrun :
    submit_loop cfg sp SubmitFile polls =
      ((asks cfg 70 ++ [Sleep 30] ++ asks cfg 70 ++ [Sleep 30] ++ asks cfg 10 ++
        [sbatch sp SubmitFile; Call ("rm " ++ SubmitFile); Sleep 1])%list,
       Some later)).
  { unfold polls. simpl. unfold poll_once. simpl. rewrite Hmax. reflexivity. }
  split; [exact Hrun|].
  unfold tr. rewrite Hrun. simpl.
  rewrite prefix_empty. repeat split; reflexivity.
Qed.

End Throttle.

Section Submission.
Import Py BatchMerge.

Variable cfg : config.
Variable w : world.

Lemma submit_dir_job_dir (j : nat) (sp : string) :
  submit_dir cfg j = Some sp -> sp = job_dir cfg j.
Proof.
  unfold submit_dir, job_dir, startswith.
  destruct (RelativeSubmitPath cfg) as [|c r]; [discriminate|].
  intros [= <-].
  rewrite prefix_cons, prefix_empty, andb_true_r, Ascii.eqb_sym.
  reflexivity.
Qed.

Lemma write_submit_no_sbatch (j : nat) (ID sp f proc : string) :
  filter is_sbatch (fst (write_submit cfg j ID sp f proc)) = [].
Proof.
  unfold write_submit.
  destruct (IfPublicNode cfg =? 0), (IfPublicNode cfg =? 2),
    (negb (ArrayOutput cfg =? 0)), (save_ap cfg); reflexivity.
Qed.

Lemma prepare_no_sbatch (j : nat) (ID : string) :
  filter is_sbatch (fst (prepare cfg w j ID)) = [].
Proof.
  unfold prepare.
  destruct (submit_dir cfg j) as [sp|]; [|reflexivity].
  assert (Hdirs :
    filter is_sbatch
      ((if path_exists w sp then [Call ("rm -r " ++ sp)] else []) ++
       [Call ("mkdir " ++ sp)] ++
       (if path_exists w (sp ++ "/submit")
        then [Call ("rm " ++ sp ++ "/submit")] else []))%list = []).
  { destruct (path_exists w sp), (path_exists w (sp ++ "/submit")); reflexivity. }
  destruct (correlate cfg w ID) as [proc|]; [|exact Hdirs].
  pose proof (write_submit_no_sbatch j ID sp (sp ++ "/submit") proc) as Hw.
  destruct (write_submit cfg j ID sp (sp ++ "/submit") proc) as [lines err].
  simpl in Hw.
  assert (Htr :
    filter is_sbatch
      (((if path_exists w sp then [Call ("rm -r " ++ sp)] else []) ++
        [Call ("mkdir " ++ sp)] ++
        (if path_exists w (sp ++ "/submit")
         then [Call ("rm " ++ sp ++ "/submit")] else [])) ++
       [Print ("To process -> " ++ ID)] ++ lines)%list = []).
  { rewrite filter_app, Hdirs. simpl. exact Hw. }
  destruct err; exact Htr.
Qed.

Lemma prepare_skip (j : nat) (ID : string) :
  snd (prepare cfg w j ID) = Skip -> correlate cfg w ID = None.
Proof.
  unfold prepare.
  destruct (submit_dir cfg j) as [sp|]; [|discriminate].
  destruct (correlate cfg w ID) as [proc|]; [|reflexivity].
  destruct (write_submit cfg j ID sp (sp ++ "/submit") proc) as [lines [e|]];
    discriminate.
Qed.

Lemma prepare_ready (j : nat) (ID sp f proc : string) :
  snd (prepare cfg w j ID) = Ready sp f proc ->
  correlate cfg w ID = Some proc /\ sp = job_dir cfg j /\ f = sp ++ "/submit".
Proof.
  unfold prepare.
  destruct (submit_dir cfg j) as [sp'|] eqn:Hsp; [|discriminate].
  apply submit_dir_job_dir in Hsp.
  destruct (correlate cfg w ID) as [proc'|]; [|discriminate].
  destruct (write_submit cfg j ID sp' (sp' ++ "/submit") proc') as [lines [e|]];
    [discriminate|].
  simpl. intros [= <- <- <-]. auto.
Qed.

Lemma prepare_abort (j : nat) (ID : string) (e : exn) :
  snd (prepare cfg w j ID) = Abort e ->
  e = IndexError \/ e = NameError.
Proof.
  unfold prepare.
  destruct (submit_dir cfg j) as [sp|]; [|simpl; intros [= <-]; now left].
  destruct (correlate cfg w ID) as [proc|]; [|discriminate].
  unfold write_submit.
  destruct (negb (ArrayOutput cfg =? 0)); [|discriminate].
  destruct (save_ap cfg); [discriminate|].
  simpl. intros [= <-]. now right.
Qed.

Lemma submit_loop_sbatch (sp f : string) (polls : list poll) :
  filter is_sbatch (fst (submit_loop cfg sp f polls)) =
  match snd (submit_loop cfg sp f polls) with
  | Some _ => [sbatch sp f]
  | None => []
  end.
Proof.
  induction polls as [|p polls IH]; [reflexivity|].
  simpl. unfold poll_once.
  destruct ((Status p =? 0) && (Output p <? MaxNumJob cfg)).
  - simpl. now rewrite prefix_empty.
  - destruct (submit_loop cfg sp f polls) as [tr rest]. simpl in *. exact IH.
Qed.

(** C3: whatever the identifiers and the poll results, the submissions in
    the trace of the loop are the submissions of the first [k] jobs of the
    Correlator, in its order, each once; when the loop runs to its end they
    are the submissions of all of them. *)
Theorem dispatch_in_order :
  forall (ids : list string) (j : nat) (polls : list poll),
    exists k : nat,
      filter is_sbatch (fst (submission cfg w j ids polls)) =
        firstn k (expected cfg w j ids) /\
      (snd (submission cfg w j ids polls) = Finished ->
       filter is_sbatch (fst (submission cfg w j ids polls)) = expected cfg w j ids).
Proof.
  unfold expected.
  induction ids as [|ID ids IH]; intros j polls.
  - exists 0%nat. split; reflexivity.
  - simpl.
    pose proof (prepare_no_sbatch j ID) as Hquiet.
    pose proof (prepare_skip j ID) as Hskip.
    pose proof (prepare_ready j ID) as Hready.
    destruct (prepare cfg w j ID) as [tr p]. simpl in *.
    destruct p as [| e | sp f proc].
    + rewrite (Hskip eq_refl).
      destruct (IH (S j) polls) as (k & Hk & Hall).
      destruct (submission cfg w (S j) ids polls) as [tr' o]. simpl in *.
      exists k. rewrite filter_app, Hquiet. simpl. auto.
    + exists 0%nat. simpl. rewrite Hquiet. split; [reflexivity | discriminate].
    + destruct (Hready sp f proc eq_refl) as (Hc & -> & ->).
      rewrite Hc. simpl.
      pose proof (submit_loop_sbatch (job_dir cfg j) (job_dir cfg j ++ "/submit") polls)
        as Hloop.
      destruct (submit_loop cfg (job_dir cfg j) (job_dir cfg j ++ "/submit") polls)
        as [tr1 [polls'|]]; simpl in *.
      * destruct (IH (S j) polls') as (k & Hk & Hall).
        destruct (submission cfg w (S j) ids polls') as [tr' o]. simpl in *.
        exists (S k). rewrite !filter_app, Hquiet, Hloop. simpl.
        unfold dispatch_of at 1. unfold job_index at 1. simpl.
        split; [now rewrite Hk|].
        intros Ho. now rewrite (Hall Ho).
      * exists 0%nat. rewrite filter_app, Hquiet, Hloop.
        split; [reflexivity | discriminate].
Qed.

(** ** The Correlator *)

Lemma TruthCSVFilename_long (ID : string) :
  (String.length (TruthCSVFilename cfg ID) <? 2)%nat = false.
Proof.
  unfold TruthCSVFilename. rewrite length_append. simpl.
  apply Nat.ltb_ge. lia.
Qed.

Lemma correlate_first_match (ID : string) :
  correlate cfg w ID =
  match OneProcessedFile cfg w ID with
  | [] => None
  | f :: _ => if (String.length f <? 2)%nat then None else Some f
  end.
Proof.
  unfold correlate. destruct (OneProcessedFile cfg w ID) as [|f fs]; [reflexivity|].
  now rewrite TruthCSVFilename_long, orb_false_r.
Qed.

(** C4, as the code has it: the Correlator keeps, in the order of the truth
    listing, exactly the identifiers whose glob returns at least one path
    (of two characters or more, as every path of that glob has), pairs each
    with the first path returned, and has at most as many jobs as there are
    identifiers. *)
Theorem correlator_exact :
  forall (ids : list string) (j : nat),
    map job_ID (Correlator cfg w j ids) = filter (matched cfg w) ids /\
    (forall ID,
       matched cfg w ID = true <->
       exists f fs, OneProcessedFile cfg w ID = f :: fs /\
                    (2 <= String.length f)%nat) /\
    (forall job,
       In job (Correlator cfg w j ids) ->
       (j <= job_index job)%nat /\
       nth_error ids (job_index job - j) = Some (job_ID job) /\
       snd (fst job) = TruthCSVFilename cfg (job_ID job) /\
       hd_error (OneProcessedFile cfg w (job_ID job)) = Some (snd job)) /\
    (List.length (Correlator cfg w j ids) <= List.length ids)%nat.
Proof.
  intros ids j. split; [|split; [|split]].
  - revert j. induction ids as [|ID ids IH]; intros j; [reflexivity|].
    simpl. unfold matched at 1.
    destruct (correlate cfg w ID); simpl; now rewrite IH.
  - intros ID. unfold matched. rewrite correlate_first_match.
    destruct (OneProcessedFile cfg w ID) as [|f fs].
    + split; [discriminate | intros (f & fs & Hnil & _); discriminate].
    + destruct (Nat.ltb_spec (String.length f) 2).
      * split; [discriminate|]. intros (f' & fs' & [= <- <-] & Hlen). lia.
      * split; [|reflexivity]. intros _. exists f, fs. split; [reflexivity | lia].
  - revert j. induction ids as [|ID ids IH]; intros j job Hin; [destruct Hin|].
    simpl in Hin.
    assert (Hlater :
      In job (Correlator cfg w (S j) ids) ->
      (j <= job_index job)%nat /\
      nth_error (ID :: ids) (job_index job - j) = Some (job_ID job) /\
      snd (fst job) = TruthCSVFilename cfg (job_ID job) /\
      hd_error (OneProcessedFile cfg w (job_ID job)) = Some (snd job)).
    { intros Hin'. destruct (IH (S j) job Hin') as (Hle & Hnth & Ht & Hp).
      repeat split; auto; [lia|].
      replace (job_index job - j)%nat with (S (job_index job - S j)) by lia.
      exact Hnth. }
    pose proof (correlate_first_match ID) as Hc.
    destruct (correlate cfg w ID) as [proc|]; [|now apply Hlater].
    destruct Hin as [<- | Hin]; [|now apply Hlater].
    unfold job_index, job_ID; simpl.
    rewrite Nat.sub_diag. repeat split; auto.
    destruct (OneProcessedFile cfg w ID) as [|f fs]; [discriminate|].
    destruct (String.length f <? 2)%nat; [discriminate|].
    now injection Hc as <-.
  - revert j. induction ids as [|ID ids IH]; intros j; [reflexivity|].
    simpl. specialize (IH (S j)).
    destruct (correlate cfg w ID); simpl; lia.
Qed.

(** ** The temporary directory *)

Hypothesis cwd_absolute : startswith (CurrentPath cfg) "/" = true.

Lemma startswith_slash (s : string) :
  startswith s "/" = true -> exists r, s = String "/" r.
Proof.
  unfold startswith. destruct s as [|c r]; [discriminate|].
  rewrite prefix_cons, prefix_empty, andb_true_r.
  intros Hc. apply Ascii.eqb_eq in Hc. subst c. now exists r.
Qed.

Lemma job_dir_absolute (j : nat) : exists r, job_dir cfg j = String "/" r.
Proof.
  unfold job_dir.
  destruct (startswith (RelativeSubmitPath cfg) "/") eqn:Hrel.
  - apply startswith_slash in Hrel. destruct Hrel as [r Hr].
    unfold SubmitPath_abs. rewrite Hr. simpl. eauto.
  - apply startswith_slash in cwd_absolute. destruct cwd_absolute as [r Hr].
    unfold SubmitPath. rewrite Hr. simpl. eauto.
Qed.

Lemma write_submit_no_cleanup (j : nat) (ID sp f proc : string) :
  filter is_cleanup (fst (write_submit cfg j ID sp f proc)) = [].
Proof.
  unfold write_submit.
  destruct (IfPublicNode cfg =? 0), (IfPublicNode cfg =? 2),
    (negb (ArrayOutput cfg =? 0)), (save_ap cfg); reflexivity.
Qed.

Lemma prepare_no_cleanup (j : nat) (ID : string) :
  filter is_cleanup (fst (prepare cfg w j ID)) = [].
Proof.
  unfold prepare.
  destruct (submit_dir cfg j) as [sp|] eqn:Hsp; [|reflexivity].
  apply submit_dir_job_dir in Hsp.
  destruct (job_dir_absolute j) as [r Hr]. rewrite Hr in Hsp. subst sp.
  assert (Hdirs :
    filter is_cleanup
      ((if path_exists w (String "/" r)
        then [Call ("rm -r " ++ String "/" r)] else []) ++
       [Call ("mkdir " ++ String "/" r)] ++
       (if path_exists w (String "/" r ++ "/submit")
        then [Call ("rm " ++ String "/" r ++ "/submit")] else []))%list = []).
  { destruct (path_exists w (String "/" r)),
      (path_exists w (String "/" r ++ "/submit")); reflexivity. }
  destruct (correlate cfg w ID) as [proc|]; [|exact Hdirs].
  pose proof (write_submit_no_cleanup j ID (String "/" r)
                (String "/" r ++ "/submit") proc) as Hw.
  destruct (write_submit cfg j ID (String "/" r) (String "/" r ++ "/submit") proc)
    as [lines err].
  simpl in Hw.
  assert (Htr :
    filter is_cleanup
      (((if path_exists w (String "/" r)
         then [Call ("rm -r " ++ String "/" r)] else []) ++
        [Call ("mkdir " ++ String "/" r)] ++
        (if path_exists w (String "/" r ++ "/submit")
         then [Call ("rm " ++ String "/" r ++ "/submit")] else [])) ++
       [Print ("To process -> " ++ ID)] ++ lines)%list = []).
  { rewrite filter_app, Hdirs. simpl. exact Hw. }
  destruct err; exact Htr.
Qed.

Lemma submit_loop_no_cleanup (sp r : string) (polls : list poll) :
  filter is_cleanup (fst (submit_loop cfg sp (String "/" r) polls)) = [].
Proof.
  induction polls as [|p polls IH]; [reflexivity|].
  cbn [submit_loop]. unfold poll_once.
  destruct ((Status p =? 0) && (Output p <? MaxNumJob cfg)).
  - reflexivity.
  - destruct (submit_loop cfg sp (String "/" r) polls) as [tr rest].
    cbn [fst] in *. rewrite filter_app, IH. reflexivity.
Qed.

Lemma submission_no_cleanup (ids : list string) (j : nat) (polls : list poll) :
  filter is_cleanup (fst (submission cfg w j ids polls)) = [].
Proof.
  revert j polls. induction ids as [|ID ids IH]; intros j polls; [reflexivity|].
  cbn [submission].
  pose proof (prepare_no_cleanup j ID) as Hquiet.
  pose proof (prepare_ready j ID) as Hready.
  destruct (prepare cfg w j ID) as [tr p]. cbn [fst snd] in *.
  destruct p as [| e | sp f proc].
  - specialize (IH (S j) polls).
    destruct (submission cfg w (S j) ids polls) as [tr' o]. cbn [fst] in *.
    now rewrite filter_app, Hquiet, IH.
  - exact Hquiet.
  - destruct (Hready sp f proc eq_refl) as (_ & -> & ->).
    destruct (job_dir_absolute j) as [r Hr].
    assert (Hf : job_dir cfg j ++ "/submit" = String "/" (r ++ "/submit"))
      by (rewrite Hr; reflexivity).
    rewrite Hf.
    pose proof (submit_loop_no_cleanup (job_dir cfg j) (r ++ "/submit") polls)
      as Hloop.
    destruct (submit_loop cfg (job_dir cfg j) (String "/" (r ++ "/submit")) polls)
      as [tr1 [polls'|]]; cbn [fst] in *.
    + specialize (IH (S j) polls').
      destruct (submission cfg w (S j) ids polls') as [tr' o]. cbn [fst] in *.
      now rewrite !filter_app, Hquiet, Hloop, IH.
    + now rewrite filter_app, Hquiet, Hloop.
Qed.

End Submission.

Section Cleanup.
Import Py BatchMerge.

Lemma is_cleanup_rm_rf (t : string) : is_cleanup (Call ("rm -rf " ++ t)) = true.
Proof. unfold is_cleanup. simpl. apply prefix_empty. Qed.

(** C9, as the code has it: the temporary directory is removed by the last
    statement of the script, and by nothing else.  A run that reaches the
    end of the submission loop ends with [rm -rf TmpPath]; a run that an
    exception ends earlier, or that is still polling, has issued no such
    removal.  The merged outputs are not under the temporary directory. *)
Theorem cleanup_only_at_the_end :
  forall (cfg : config) (w : world) (polls : list poll),
    startswith (CurrentPath cfg) "/" = true ->
    filter is_cleanup (fst (script cfg w polls)) =
      (if is_finished (snd (script cfg w polls))
       then [Call ("rm -rf " ++ TmpPath cfg)] else []) /\
    (snd (script cfg w polls) = Finished ->
     exists tr, fst (script cfg w polls) =
                (tr ++ [Call ("rm -rf " ++ TmpPath cfg)])%list) /\
    (forall ID, startswith (OutputFilename cfg ID) (TmpPath cfg ++ "/") = false).
Proof.
  intros cfg w polls Habs.
  assert (Htmp :
    filter is_cleanup
      ((if path_exists w (TmpPath cfg)
        then [Call ("rm -r " ++ TmpPath cfg)] else []) ++
       [Call ("mkdir " ++ TmpPath cfg)])%list = []).
  { destruct (path_exists w (TmpPath cfg)); reflexivity. }
  split; [|split].
  - unfold script.
    destruct (make_IDList (FileList cfg w)) as [ids|]; [|reflexivity].
    pose proof (submission_no_cleanup cfg w Habs ids 0 polls) as Hsub.
    destruct (submission cfg w 0 ids polls) as [tr o]. cbn [fst] in Hsub.
    destruct o; cbn [fst snd is_finished].
    + rewrite filter_app, Htmp, filter_app, Hsub. cbn [filter app].
      now rewrite is_cleanup_rm_rf.
    + now rewrite filter_app, Htmp, Hsub.
    + now rewrite filter_app, Htmp, Hsub.
  - unfold script.
    destruct (make_IDList (FileList cfg w)) as [ids|]; [|discriminate].
    destruct (submission cfg w 0 ids polls) as [tr o].
    destruct o; cbn [fst snd]; try discriminate.
    intros _. eexists. rewrite app_assoc. reflexivity.
  - intros ID. unfold startswith, OutputFilename, TmpPath.
    rewrite append_assoc, prefix_append. reflexivity.
Qed.

End Cleanup.

(** ** The theorems above on the test doubles *)

Section BatchExamples.
Import Py BatchMerge Samples.

Lemma throttle_three_polls_witness :
  MaxNumJob cfg_public = 64 /\
  submit_loop cfg_public "/home/user/Submit/0_0" "/home/user/Submit/0_0/submit"
    [ {| Output := 70; Status := 0 |}; {| Output := 70; Status := 0 |};
      {| Output := 10; Status := 0 |} ] =
  ((asks cfg_public 70 ++ [Sleep 30] ++ asks cfg_public 70 ++ [Sleep 30] ++
    asks cfg_public 10 ++
    [ Call "cd /home/user/Submit/0_0;sbatch /home/user/Submit/0_0/submit;cd -";
      Call "rm /home/user/Submit/0_0/submit"; Sleep 1 ])%list,
   Some []).
Proof.
  split; [reflexivity|].
  apply (throttle_three_polls cfg_public "/home/user/Submit/0_0"
           "/home/user/Submit/0_0/submit" [] eq_refl).
Defined.

(** C4 as the specification states it fails: with truth files for the
    identifiers 1 and 10 and a single processed file, that of identifier 10,
    the glob of identifier 1 also returns the file of identifier 10; the
    Correlator has two jobs, more than there are processed files, and pairs
    the truth file of identifier 1 with the processed file of identifier
    10. *)
Lemma correlator_exceeds_processed_side :
  make_IDList (FileList cfg_public world_prefix) = Some ["1"; "10"] /\
  glob world_prefix "/data/processed/*.root" =
    ["/data/processed/FakeWaveform_XENON1T_10_pax.root"] /\
  Correlator cfg_public world_prefix 0 ["1"; "10"] =
    [ (0%nat, "1", "/data/truth/FakeWaveform_XENON1T_1_truth.csv",
       "/data/processed/FakeWaveform_XENON1T_10_pax.root");
      (1%nat, "10", "/data/truth/FakeWaveform_XENON1T_10_truth.csv",
       "/data/processed/FakeWaveform_XENON1T_10_pax.root") ] /\
  (Nat.min 2 1 < List.length (Correlator cfg_public world_prefix 0 ["1"; "10"]))%nat.
Proof. repeat split; vm_compute; lia. Qed.

(** C9 as the specification states it fails: asked for arrays without a
    value for [save_ap], the script creates the temporary directory, dies on
    NameError while writing the first submit file, and never removes it. *)
Lemma abort_leaves_temporary_directory :
  snd (script cfg_arrays world_prefix [idle; idle]) = Raised NameError /\
  In (Call "mkdir /data/merged/TmpFolder_0")
     (fst (script cfg_arrays world_prefix [idle; idle])) /\
  filter is_cleanup (fst (script cfg_arrays world_prefix [idle; idle])) = [].
Proof.
  split; [reflexivity|]. split; [|reflexivity].
  left. reflexivity.
Qed.

Lemma cleanup_only_at_the_end_witness :
  startswith (CurrentPath cfg_public) "/" = true /\
  snd (script cfg_public world_prefix [idle; idle]) = Finished /\
  filter is_cleanup (fst (script cfg_public world_prefix [idle; idle])) =
    [Call "rm -rf /data/merged/TmpFolder_0"].
Proof.
  split; [reflexivity|]. split; [reflexivity|].
  destruct (cleanup_only_at_the_end cfg_public world_prefix [idle; idle] eq_refl)
    as (Hfilter & _ & _).
  exact Hfilter.
Defined.

End BatchExamples.

(** * Strings: how [split], [join] and [in] fit together *)

Section Strings.
Import Py.

Lemma append_empty_r (s : string) : s ++ "" = s.
Proof. induction s as [|c s IH]; simpl; [reflexivity | now rewrite IH]. Qed.

Lemma prefix_length (p s : string) :
  String.prefix p s = true -> (String.length p <= String.length s)%nat.
Proof.
  revert s. induction p as [|a p IH]; intros s H; simpl; [lia|].
  destruct s as [|b s]; [discriminate|].
  rewrite prefix_cons in H. apply andb_true_iff in H. destruct H as [_ H].
  apply IH in H. simpl. lia.
Qed.

(** A prefix test reads no further than the length of the prefix. *)
Lemma prefix_app_long (p u v : string) :
  (String.length p <= String.length u)%nat ->
  String.prefix p (u ++ v) = String.prefix p u.
Proof.
  revert u. induction p as [|a p IH]; intros u Hlen.
  - now rewrite !prefix_empty.
  - destruct u as [|b u]; simpl in Hlen; [lia|].
    change (String b u ++ v) with (String b (u ++ v)).
    rewrite !prefix_cons, IH by lia. reflexivity.
Qed.

Lemma prefix_self_app (p v : string) : String.prefix p (p ++ v) = true.
Proof.
  rewrite <- (append_empty_r p) at 1. rewrite prefix_append. apply prefix_empty.
Qed.

(** The fields of [split] are never none. *)
Lemma split_go_length (sep : string) (s : string) (skip : nat) (acc : string) :
  (1 <= List.length (split_go sep skip acc s))%nat.
Proof.
  revert skip acc. induction s as [|c s IH]; intros skip acc;
    cbn [split_go List.length]; [lia|].
  destruct skip as [|k]; [|apply IH].
  destruct (String.prefix sep (String c s)); cbn [List.length]; [lia | apply IH].
Qed.

(** Once a separator is found, the rest of it is passed over. *)
Lemma split_go_skip (sep t rest acc : string) :
  split_go sep (String.length t) acc (t ++ rest) = split_go sep 0 acc rest.
Proof.
  induction t as [|c t IH]; simpl.
  - destruct rest; reflexivity.
  - exact IH.
Qed.

Lemma split_go_sep (c : ascii) (t rest acc : string) :
  split_go (String c t) 0 acc (String c t ++ rest) =
  acc :: split_go (String c t) 0 EmptyString rest.
Proof.
  change (String c t ++ rest) with (String c (t ++ rest)).
  cbn [split_go].
  change (String c (t ++ rest)) with (String c t ++ rest).
  rewrite prefix_self_app.
  cbn [String.length]. rewrite Nat.sub_succ, Nat.sub_0_r.
  now rewrite split_go_skip.
Qed.

Lemma split_go_char (sep : string) (c : ascii) (s acc : string) :
  String.prefix sep (String c s) = false ->
  split_go sep 0 acc (String c s) = split_go sep 0 (acc ++ String c EmptyString) s.
Proof. intros H. cbn [split_go]. now rewrite H. Qed.

Lemma join_cons (sep x : string) (l : list string) :
  (1 <= List.length l)%nat -> join sep (x :: l) = x ++ sep ++ join sep l.
Proof. destruct l; simpl; [lia | reflexivity]. Qed.

(** A string with no separator in it is a single field. *)
Lemma split_go_whole (sep s acc : string) :
  contains sep s = false -> split_go sep 0 acc s = [acc ++ s].
Proof.
  revert acc. induction s as [|c s IH]; intros acc H.
  - simpl. now rewrite append_empty_r.
  - cbn [contains] in H. apply orb_false_iff in H. destruct H as [Hp Hc].
    rewrite split_go_char by exact Hp.
    rewrite IH by exact Hc. now rewrite append_assoc.
Qed.

(** A string with a separator in it has two fields or more. *)
Lemma split_go_two (c : ascii) (t s acc : string) :
  contains (String c t) s = true ->
  (2 <= List.length (split_go (String c t) 0 acc s))%nat.
Proof.
  revert acc. induction s as [|a s IH]; intros acc H.
  - cbn in H. discriminate.
  - cbn [contains] in H. cbn [split_go].
    destruct (String.prefix (String c t) (String a s)) eqn:Hp.
    + cbn [List.length].
      pose proof (split_go_length (String c t) s
                    (String.length (String c t) - 1) EmptyString).
      lia.
    + simpl in H. apply IH. exact H.
Qed.

(** The first field: up to the first separator. *)
Lemma split_go_first (i : string) (l : ascii) (x y acc : string) :
  contains (i ++ String l EmptyString) (x ++ i) = false ->
  split_go (i ++ String l EmptyString) 0 acc (x ++ (i ++ String l EmptyString) ++ y) =
  (acc ++ x) :: split_go (i ++ String l EmptyString) 0 EmptyString y.
Proof.
  set (sep := i ++ String l EmptyString).
  assert (Hsep : exists c t, sep = String c t).
  { unfold sep. destruct i as [|c i]; simpl; eauto. }
  assert (Hlen : String.length sep = S (String.length i)).
  { unfold sep. rewrite length_append. simpl. lia. }
  revert acc. induction x as [|a x IH]; intros acc H.
  - destruct Hsep as (c & t & ->). simpl. rewrite append_empty_r.
    apply split_go_sep.
  - cbn [contains] in H. apply orb_false_iff in H. destruct H as [Hp Hc].
    change (String a x ++ sep ++ y) with (String a (x ++ sep ++ y)).
    rewrite split_go_char.
    + rewrite IH by exact Hc. now rewrite append_assoc.
    + change (String a (x ++ sep ++ y)) with (String a x ++ sep ++ y).
      replace (String a x ++ sep ++ y)
        with ((String a x ++ i) ++ String l EmptyString ++ y)
        by (unfold sep; now rewrite !append_assoc).
      rewrite prefix_app_long; [exact Hp|].
      rewrite length_append, Hlen. simpl. lia.
Qed.

Lemma split_first (i : string) (l : ascii) (x y : string) :
  contains (i ++ String l EmptyString) (x ++ i) = false ->
  split (x ++ (i ++ String l EmptyString) ++ y) (i ++ String l EmptyString) =
  x :: split y (i ++ String l EmptyString).
Proof. intros H. unfold split. now rewrite split_go_first. Qed.

Lemma prefix_split (p u : string) :
  String.prefix p u = true -> exists rest, u = p ++ rest.
Proof.
  revert u. induction p as [|x p IH]; intros u Hp.
  - now exists u.
  - destruct u as [|y u]; [discriminate|].
    rewrite prefix_cons in Hp. apply andb_true_iff in Hp.
    destruct Hp as [Hxy Hp]. apply Ascii.eqb_eq in Hxy. subst y.
    destruct (IH u Hp) as (rest & ->). now exists rest.
Qed.

(** Joining the fields with the separator gives the string back. *)
Lemma join_split_go (c : ascii) (t : string) (n : nat) :
  forall (s acc : string),
    (String.length s <= n)%nat ->
    join (String c t) (split_go (String c t) 0 acc s) = acc ++ s.
Proof.
  induction n as [|n IH]; intros s acc Hn.
  - destruct s; simpl in Hn; [|lia]. simpl. now rewrite append_empty_r.
  - destruct s as [|a s]; [simpl; now rewrite append_empty_r|].
    simpl in Hn.
    destruct (String.prefix (String c t) (String a s)) eqn:Hp.
    + assert (Hs : exists rest, String a s = String c t ++ rest /\
                                (String.length rest <= n)%nat).
      { destruct (prefix_split _ _ Hp) as (rest & Hrest).
        exists rest. split; [exact Hrest|].
        assert (Hl : String.length (String a s) =
                     String.length (String c t ++ rest)) by now rewrite Hrest.
        rewrite length_append in Hl. simpl in Hl. lia. }
      destruct Hs as (rest & -> & Hr).
      rewrite split_go_sep, join_cons by apply split_go_length.
      rewrite IH by exact Hr. simpl. reflexivity.
    + rewrite split_go_char by exact Hp.
      rewrite IH by lia. now rewrite append_assoc.
Qed.

End Strings.

(** * mc_postprocess.py: the dag file and the ways out of run_main *)

Section DagFile.
Import Py McPostprocess.

Context {W : Type} {HW : World W}.

Lemma span_digits_int (s : string) (acc : Z) :
  0 <= acc -> 0 <= int_digits acc (fst (span_digits s)).
Proof.
  revert acc. induction s as [|c s IH]; intros acc Hacc; cbn [span_digits].
  - exact Hacc.
  - destruct (is_digit c) eqn:Hc; [|exact Hacc].
    destruct (span_digits s) as [d r]. cbn [fst int_digits] in *.
    apply IH. unfold is_digit in Hc.
    apply andb_true_iff in Hc. destruct Hc as [Hlo _].
    apply Nat.leb_le in Hlo. lia.
Qed.

Lemma events_here_int (s d : string) : events_here s = Some d -> 0 <= int d.
Proof.
  unfold events_here.
  destruct (drop_prefix ("events=" ++ dq) s) as [r|]; [|discriminate].
  pose proof (span_digits_int r 0 ltac:(lia)) as Hd.
  destruct (span_digits r) as [d' r']. cbn [fst] in Hd.
  destruct d' as [|c d']; [discriminate|].
  destruct (drop_prefix dq r'); [|discriminate].
  intros [= <-]. exact Hd.
Qed.

Lemma event_search_int (s d : string) : event_search s = Some d -> 0 <= int d.
Proof.
  induction s as [|c s IH]; cbn [event_search].
  - destruct (events_here "") eqn:He; [|discriminate].
    intros [= <-]. now apply events_here_int in He.
  - destruct (events_here (String c s)) eqn:He.
    + intros [= <-]. now apply events_here_int in He.
    + exact IH.
Qed.

Lemma line_events_nonneg (line : string) : 0 <= line_events line.
Proof.
  unfold line_events. destruct (event_search line) as [d|] eqn:Hd; [|lia].
  now apply event_search_int in Hd.
Qed.

Lemma total_nonneg (ls : list string) : 0 <= total (map line_events ls).
Proof.
  induction ls as [|l ls IH]; simpl; [lia|].
  pose proof (line_events_nonneg l). lia.
Qed.

(** The loop over the lines, in closed form. *)
Lemma scan_dag_closed (ls : list string) (jobs events : Z) :
  scan_dag ls jobs events =
  (jobs + Z.of_nat (List.length (filter line_is_job ls)),
   events + total (map line_events ls)).
Proof.
  revert jobs events. induction ls as [|l ls IH]; intros jobs events.
  - simpl. f_equal; lia.
  - cbn [scan_dag filter map total fold_right]. rewrite IH.
    unfold line_is_job at 2, line_events at 2.
    destruct (startswith l "JOB"), (event_search l);
      cbn [List.length]; f_equal; fold (total (map line_events ls)); lia.
Qed.

Lemma get_dag_information_read
  (R : Type) (dag_filename content : string) (s : state W) :
  os_path_isfile dag_filename (world s) = true ->
  open_read dag_filename (world s) = Some content ->
  get_dag_information (R := R) dag_filename s =
  (Normal (Info3 (fst (scan_dag (file_lines content) 0 0))
                 (snd (scan_dag (file_lines content) 0 0))
                 (flavor_search (substring 0 1024 content))), s).
Proof.
  intros Hfile Hread.
  unfold get_dag_information, bind, query, of_option, ret. cbn [world].
  rewrite Hfile. cbn [negb world]. rewrite Hread.
  now destruct (scan_dag (file_lines content) 0 0).
Qed.

(** X1: on a dag file that is there, [get_dag_information] only reads.
    It returns the number of lines that start with JOB, the sum over the
    lines of the number in the first [events="N"] of each, and the flavor
    found in the first 1024 characters; the two counts are not negative, the
    number of jobs is at most the number of lines, and the file system and
    the terminal are left as they were. *)
Theorem get_dag_information_counts :
  forall (R : Type) (dag_filename content : string) (s : state W),
    os_path_isfile dag_filename (world s) = true ->
    open_read dag_filename (world s) = Some content ->
    let ls := file_lines content in
    let jobs := Z.of_nat (List.length (filter line_is_job ls)) in
    let events := total (map line_events ls) in
    get_dag_information (R := R) dag_filename s =
      (Normal (Info3 jobs events (flavor_search (substring 0 1024 content))), s) /\
    0 <= jobs <= Z.of_nat (List.length ls) /\
    0 <= events.
Proof.
  intros R dag content s Hfile Hread ls jobs events.
  split; [|split].
  - rewrite (get_dag_information_read R dag content s Hfile Hread).
    fold ls. rewrite scan_dag_closed. reflexivity.
  - unfold jobs. pose proof (filter_length_le line_is_job ls). lia.
  - apply total_nonneg.
Qed.

End DagFile.

Section Exits.
Import Py McPostprocess.

Context {W : Type} {HW : World W}.

Lemma known_flavor_cases (flavor : option string) :
  known_flavor flavor = true ->
  flavor = Some "NEST" \/ flavor = Some "G4" \/ flavor = Some "G4p10".
Proof.
  destruct flavor as [f|]; [|discriminate].
  unfold known_flavor. rewrite !orb_true_iff, !String.eqb_eq.
  intros [[-> | ->] | ->]; auto.
Qed.

Lemma flavor_outputs_known (flavor : option string) (rf : dict) (s : state W) :
  known_flavor flavor = true ->
  exists sel, flavor_outputs flavor rf s = (Normal sel, s).
Proof.
  intros Hk. apply known_flavor_cases in Hk.
  destruct Hk as [-> | [-> | ->]]; eexists; reflexivity.
Qed.

Lemma flavor_outputs_unknown (flavor : option string) (rf : dict) (s : state W) :
  known_flavor flavor = false ->
  flavor_outputs flavor rf s =
  (Returned 1,
   mkState (world s)
           (trace s ++ [Stderr ("MC flavor unknown: " ++ flavor_repr flavor ++ NL)])).
Proof.
  unfold flavor_outputs, known_flavor, flavor_repr, bind, emit, return_.
  destruct flavor as [f|]; [|reflexivity].
  repeat match goal with
         | |- context [match ?x with _ => _ end] =>
             is_var x; destruct x
         end; cbn; intros Hk; try discriminate; reflexivity.
Qed.

Lemma run_main_info3 (dag_file : string) (jobs events : Z)
  (flavor : option string) (s : state W) :
  get_dag_information (R := Z) dag_file s = (Normal (Info3 jobs events flavor), s) ->
  run_main dag_file s =
  if events =? 0 then
    (Returned 1,
     mkState (world s)
             (trace s ++ [Stdout ("No events generated by this dag file" ++ NL)]))
  else if jobs =? 0 then
    (Returned 1,
     mkState (world s) (trace s ++ [Stdout ("No jobs run by this dag file" ++ NL)]))
  else if negb (os_path_isdir "output" (world s)) then
    (Returned 1,
     mkState (world s) (trace s ++ [Stderr ("Output directory not present" ++ NL)]))
  else
    match os_chdir "output" (world s) with
    | None => (Raised OSError, mkState (world s) (trace s ++ [Chdir "output"]))
    | Some w1 =>
        if known_flavor flavor then
          (Raised ValueError, mkState w1 (trace s ++ [Chdir "output"]))
        else
          (Returned 1,
           mkState w1
                   (trace s ++
                    [Chdir "output";
                     Stderr ("MC flavor unknown: " ++ flavor_repr flavor ++ NL)]))
    end.
Proof.
  intros Hinfo. unfold run_main, bind at 1. rewrite Hinfo.
  destruct (events =? 0); [reflexivity|].
  destruct (jobs =? 0); [reflexivity|].
  unfold bind at 1. unfold query at 1. unfold bind at 1. unfold query at 1.
  cbn [world].
  destruct (negb (os_path_isdir "output" (world s))); [reflexivity|].
  unfold bind at 1. unfold emit at 1. unfold bind at 1. unfold command at 1.
  cbn [world trace].
  destruct (os_chdir "output" (world s)) as [w1|]; [|reflexivity].
  unfold bind at 1.
  destruct (known_flavor flavor) eqn:Hk.
  - match goal with
    | |- context [flavor_outputs flavor ?rf ?st] =>
        destruct (flavor_outputs_known flavor rf st Hk) as [[gs rf'] ->]
    end.
    unfold bind at 1. now rewrite add_minitrees_raises.
  - rewrite flavor_outputs_unknown by exact Hk.
    cbn [world trace]. now rewrite emit_twice.
Qed.

(** X2: the ways out of [run_main] before it enters the output directory.
    For a dag file that is there: when no line carries an event count the
    run writes [No events generated by this dag file] to stdout and returns
    1, whether or not there are jobs; when there are events and no line
    starts with JOB it writes [No jobs run by this dag file] and returns 1;
    when there are both and [output] is not a directory it writes
    [Output directory not present] to stderr and returns 1.  The file
    system is left as it was. *)
Theorem run_main_exits_before_output :
  forall (dag_file content : string) (s : state W),
    os_path_isfile dag_file (world s) = true ->
    open_read dag_file (world s) = Some content ->
    let jobs := Z.of_nat (List.length (filter line_is_job (file_lines content))) in
    let events := total (map line_events (file_lines content)) in
    (events = 0 ->
     run_main dag_file s =
     (Returned 1,
      mkState (world s)
              (trace s ++ [Stdout ("No events generated by this dag file" ++ NL)]))) /\
    (0 < events -> jobs = 0 ->
     run_main dag_file s =
     (Returned 1,
      mkState (world s) (trace s ++ [Stdout ("No jobs run by this dag file" ++ NL)]))) /\
    (0 < events -> 0 < jobs -> os_path_isdir "output" (world s) = false ->
     run_main dag_file s =
     (Returned 1,
      mkState (world s) (trace s ++ [Stderr ("Output directory not present" ++ NL)]))).
Proof.
  intros dag content s Hfile Hread jobs events.
  pose proof (get_dag_information_read Z dag content s Hfile Hread) as Hinfo.
  rewrite scan_dag_closed in Hinfo. cbn [fst snd] in Hinfo.
  rewrite !Z.add_0_l in Hinfo. fold jobs events in Hinfo.
  pose proof (run_main_info3 dag jobs events _ s Hinfo) as Hrun.
  split; [|split].
  - intros He. rewrite Hrun, He. reflexivity.
  - intros He Hj. rewrite Hrun, Hj.
    destruct (Z.eqb_spec events 0); [lia | reflexivity].
  - intros He Hj Hdir. rewrite Hrun, Hdir.
    destruct (Z.eqb_spec events 0); [lia|].
    destruct (Z.eqb_spec jobs 0); [lia | reflexivity].
Qed.

(** X3: the ways out of [run_main] once it is in the output directory.
    For a dag file with events and jobs and an [output] directory the run
    changes into: when the flavor found in the first 1024 characters of the
    dag file is none of NEST, G4 and G4p10 (or none is found), the run writes
    [MC flavor unknown] to stderr and returns 1; when it is one of them, the
    run raises ValueError at the loop over [MINITREE_OUTPUTS], before it has
    listed the directory.  In both cases the process is left in [output]. *)
Theorem run_main_in_output :
  forall (dag_file content : string) (s : state W) (w1 : W),
    os_path_isfile dag_file (world s) = true ->
    open_read dag_file (world s) = Some content ->
    0 < total (map line_events (file_lines content)) ->
    (0 < List.length (filter line_is_job (file_lines content)))%nat ->
    os_path_isdir "output" (world s) = true ->
    os_chdir "output" (world s) = Some w1 ->
    let flavor := flavor_search (substring 0 1024 content) in
    (known_flavor flavor = true ->
     run_main dag_file s =
     (Raised ValueError, mkState w1 (trace s ++ [Chdir "output"]))) /\
    (known_flavor flavor = false ->
     run_main dag_file s =
     (Returned 1,
      mkState w1
              (trace s ++
               [Chdir "output";
                Stderr ("MC flavor unknown: " ++ flavor_repr flavor ++ NL)]))).
Proof.
  intros dag content s w1 Hfile Hread He Hj Hdir Hcd flavor.
  pose proof (get_dag_information_read Z dag content s Hfile Hread) as Hinfo.
  rewrite scan_dag_closed in Hinfo. cbn [fst snd] in Hinfo.
  rewrite !Z.add_0_l in Hinfo.
  pose proof (run_main_info3 dag _ _ _ s Hinfo) as Hrun.
  fold flavor in Hrun.
  rewrite Hdir, Hcd in Hrun. cbn [negb] in Hrun.
  match type of Hrun with
  | context [?e =? 0] => destruct (Z.eqb_spec e 0); [lia|]
  end.
  match type of Hrun with
  | context [?e =? 0] => destruct (Z.eqb_spec e 0); [lia|]
  end.
  split; intros Hk; rewrite Hk in Hrun; exact Hrun.
Qed.

(** X4: [run_main] cannot succeed.  Whatever the dag file and the file
    system, the run ends with the exit status 1, by [return 1] or by an
    exception, and it has run no [hadd], made no directory and moved no file:
    what it adds to the trace is lines on the terminal and at most the change
    into [output]. *)
Theorem run_main_never_succeeds :
  forall (dag_file : string) (s : state W),
    let r := run_main dag_file s in
    exit_status (fst r) = 1 /\
    exists tr, trace (snd r) = (trace s ++ tr)%list /\ filter alters tr = [].
Proof.
  intros dag s r. subst r.
  destruct (os_path_isfile dag (world s)) eqn:Hfile.
  - destruct (open_read dag (world s)) as [content|] eqn:Hread.
    + rewrite (run_main_info3 dag _ _ _ s
                 (get_dag_information_read Z dag content s Hfile Hread)).
      repeat match goal with
             | |- context [if ?b then _ else _] => destruct b
             | |- context [match os_chdir ?d ?w with _ => _ end] =>
                 destruct (os_chdir d w)
             end;
        (split; [reflexivity | eexists; split; [reflexivity | reflexivity]]).
    + unfold run_main, get_dag_information, bind, query, of_option, raise.
      cbn [world]. rewrite Hfile. cbn [negb world]. rewrite Hread.
      cbn [fst snd exit_status].
      split; [reflexivity|]. exists []. now rewrite app_nil_r.
  - unfold run_main, get_dag_information, bind, query, emit, ret, raise.
    cbn [world]. rewrite Hfile. cbn.
    split; [reflexivity | eexists; split; [reflexivity | reflexivity]].
Qed.

End Exits.

Section ExitsExamples.
Import Py McPostprocess Samples.

Lemma get_dag_information_counts_witness :
  run (get_dag_information (R := Z) "mc.dag") (post_world 500 [] []) =
  (Normal (Info3 2 1000 (Some "G4")), []).
Proof.
  unfold run.
  rewrite (proj1 (@get_dag_information_counts sim sim_world Z "mc.dag" dag_text
                    (mkState (post_world 500 [] []) []) eq_refl eq_refl)).
  reflexivity.
Defined.

Lemma run_main_exits_before_output_witness :
  run (run_main "mc.dag") (dag_world dag_no_events ["output"]) =
    (Returned 1, [Stdout ("No events generated by this dag file" ++ NL)]) /\
  run (run_main "mc.dag") (dag_world dag_no_jobs ["output"]) =
    (Returned 1, [Stdout ("No jobs run by this dag file" ++ NL)]) /\
  run (run_main "mc.dag") (dag_world dag_text []) =
    (Returned 1, [Stderr ("Output directory not present" ++ NL)]).
Proof.
  unfold run.
  destruct (@run_main_exits_before_output sim sim_world "mc.dag" dag_no_events
              (mkState (dag_world dag_no_events ["output"]) []) eq_refl eq_refl)
    as (H1 & _ & _).
  destruct (@run_main_exits_before_output sim sim_world "mc.dag" dag_no_jobs
              (mkState (dag_world dag_no_jobs ["output"]) []) eq_refl eq_refl)
    as (_ & H2 & _).
  destruct (@run_main_exits_before_output sim sim_world "mc.dag" dag_text
              (mkState (dag_world dag_text []) []) eq_refl eq_refl)
    as (_ & _ & H3).
  rewrite (H1 eq_refl), (H2 eq_refl eq_refl), (H3 eq_refl eq_refl eq_refl).
  repeat split.
Defined.

Lemma run_main_in_output_witness :
  run (run_main "mc.dag") (dag_world (dag_of_flavor "G4") ["output"]) =
    (Raised ValueError, [Chdir "output"]) /\
  run (run_main "mc.dag") (dag_world (dag_of_flavor "Geant4") ["output"]) =
    (Returned 1, [Chdir "output"; Stderr ("MC flavor unknown: Geant4" ++ NL)]).
Proof.
  unfold run.
  destruct (@run_main_in_output sim sim_world "mc.dag" (dag_of_flavor "G4")
              (mkState (dag_world (dag_of_flavor "G4") ["output"]) [])
              (dag_world (dag_of_flavor "G4") ["output"])
              eq_refl eq_refl eq_refl ltac:(vm_compute; lia) eq_refl eq_refl)
    as (H1 & _).
  destruct (@run_main_in_output sim sim_world "mc.dag" (dag_of_flavor "Geant4")
              (mkState (dag_world (dag_of_flavor "Geant4") ["output"]) [])
              (dag_world (dag_of_flavor "Geant4") ["output"])
              eq_refl eq_refl eq_refl ltac:(vm_compute; lia) eq_refl eq_refl)
    as (_ & H2).
  rewrite (H1 eq_refl), (H2 eq_refl).
  repeat split.
Defined.

End ExitsExamples.

(** * mc_postprocess.py: merge_files *)

Section MergeFiles.
Import Py McPostprocess.

Context {W : Type} {HW : World W}.

Lemma join_split (c : ascii) (t s : string) :
  join (String c t) (split s (String c t)) = s.
Proof. unfold split. now rewrite (join_split_go c t (String.length s)). Qed.

Lemma split_length (s sep : string) : (1 <= List.length (split s sep))%nat.
Proof. apply split_go_length. Qed.

Lemma split_char (c : ascii) (x y : string) :
  contains (String c EmptyString) x = false ->
  split (x ++ String c y) (String c EmptyString) =
  x :: split y (String c EmptyString).
Proof.
  intros H.
  apply (split_first EmptyString c x y).
  now rewrite append_empty_r.
Qed.

Lemma split_field (x y : string) :
  contains "_" x = false -> split (x ++ "_" ++ y) "_" = x :: split y "_".
Proof. apply split_char. Qed.

Lemma split_whole (s sep : string) : contains sep s = false -> split s sep = [s].
Proof. intros H. unfold split. now rewrite split_go_whole. Qed.

(** Every path through [merge_files], one after the other. *)
Lemma merge_files_run (R : Type) (file_list : list string) (result_dir : string)
  (s : state W) :
  merge_files (R := R) file_list result_dir s =
  match output_file file_list with
  | None => (Raised IndexError, s)
  | Some out =>
      let tr := (trace s ++ [Exec ("hadd" :: out :: file_list)])%list in
      match check_call ("hadd" :: out :: file_list) (world s) with
      | (CallOSError, w) => (Raised OSError, mkState w tr)
      | (CalledProcessError, w) =>
          (Normal false,
           mkState w (tr ++ [Stderr ("Can't combine files into " ++
                                     repr_list file_list ++ NL)]))
      | (CallOk, w) =>
          if negb (os_path_isdir result_dir w) then
            (Normal false, mkState w (tr ++ [Stderr (result_dir ++ " not present" ++ NL)]))
          else if negb (os_path_isfile out w) then
            (Normal false,
             mkState w (tr ++ [Stderr (out ++ " not present, couldn't " ++
                                       "merge files" ++ NL)]))
          else
            match os_rename out (os_path_join result_dir out) w with
            | inl e =>
                (Normal false,
                 mkState w (tr ++ [Rename out (os_path_join result_dir out);
                                   Stderr ("Got exception while moving results: " ++
                                           e ++ NL)]))
            | inr w' =>
                (Normal true,
                 mkState w' (tr ++ [Rename out (os_path_join result_dir out)]))
            end
      end
  end.
Proof.
  unfold merge_files, merge_files_body, output_file, bind, of_option, index.
  destruct file_list as [|f l]; simpl; [reflexivity|].
  destruct (del_index (split f "_") 3) as [fields|]; simpl; [|reflexivity].
  destruct (check_call ("hadd" :: join "_" fields :: f :: l) (world s))
    as [[| |] w]; simpl; try reflexivity.
  destruct (os_path_isdir result_dir w); simpl; [|reflexivity].
  destruct (os_path_isfile (join "_" fields) w); simpl; [|reflexivity].
  destruct (os_rename (join "_" fields)
              (os_path_join result_dir (join "_" fields)) w); simpl; [|reflexivity].
  now rewrite emit_twice.
Qed.

(** X5: [merge_files] returns True exactly when [hadd], called with the
    combined name and then the files in their order, exits with status zero,
    and after it the results directory is there, the combined file is there
    and the move into the results directory goes through.  The run then has
    added the [hadd] call and the move to the trace and has written nothing
    to the terminal. *)
Theorem merge_files_success :
  forall (R : Type) (file_list : list string) (result_dir : string)
         (s s' : state W),
    merge_files (R := R) file_list result_dir s = (Normal true, s') <->
    exists (out : string) (w1 w2 : W),
      output_file file_list = Some out /\
      check_call ("hadd" :: out :: file_list) (world s) = (CallOk, w1) /\
      os_path_isdir result_dir w1 = true /\
      os_path_isfile out w1 = true /\
      os_rename out (os_path_join result_dir out) w1 = inr w2 /\
      s' = mkState w2 (trace s ++ merge_events result_dir file_list).
Proof.
  intros R file_list result_dir s s'.
  rewrite merge_files_run. unfold merge_events.
  destruct (output_file file_list) as [out|].
  - cbv zeta.
    destruct (check_call ("hadd" :: out :: file_list) (world s)) as [c w] eqn:Hc.
    split.
    + destruct c; try discriminate.
      destruct (os_path_isdir result_dir w) eqn:Hdir; [|discriminate].
      destruct (os_path_isfile out w) eqn:Hfile; [|discriminate].
      destruct (os_rename out (os_path_join result_dir out) w) as [e|w2] eqn:Hmv;
        [discriminate|].
      cbn [negb]. intros [= <-].
      exists out, w, w2. rewrite <- app_assoc. repeat split; auto.
    + intros (out' & w1 & w2 & [= <-] & Hcall & Hdir & Hfile & Hmv & ->).
      rewrite Hc in Hcall. injection Hcall as -> ->.
      rewrite Hdir, Hfile, Hmv. cbn [negb]. now rewrite <- app_assoc.
  - split; [discriminate|].
    intros (out & w1 & w2 & Hout & _). discriminate.
Qed.


(** X7: the name of the combined file.  For a first file named
    [a_b_c_d_rest], where the first four fields hold no underscore,
    [merge_files] has [hadd] write [a_b_c_rest]: the fourth field, the one
    that tells the jobs apart, is left out, whatever follows it.  For a
    first file with just four fields, [a_b_c_d], the combined file is
    [a_b_c]. *)
Theorem merged_file_name :
  forall (R : Type) (a b c d rest : string) (l : list string)
         (result_dir : string) (s : state W),
    contains "_" a = false -> contains "_" b = false ->
    contains "_" c = false -> contains "_" d = false ->
    let long := a ++ "_" ++ b ++ "_" ++ c ++ "_" ++ d ++ "_" ++ rest in
    let short := a ++ "_" ++ b ++ "_" ++ c ++ "_" ++ d in
    let combined := a ++ "_" ++ b ++ "_" ++ c ++ "_" ++ rest in
    output_file (long :: l) = Some combined /\
    output_file (short :: l) = Some (a ++ "_" ++ b ++ "_" ++ c) /\
    (exists tr,
       trace (snd (merge_files (R := R) (long :: l) result_dir s)) =
       (trace s ++ Exec ("hadd" :: combined :: long :: l) :: tr)%list).
Proof.
  intros R a b c d rest l result_dir s Ha Hb Hc Hd long short combined.
  assert (Hlong : output_file (long :: l) =
                  Some (a ++ "_" ++ b ++ "_" ++ c ++ "_" ++ rest)).
  { unfold output_file, index, long. cbn [nth_error].
    rewrite !split_field by assumption.
    cbn [del_index option_map].
    rewrite !join_cons by (cbn [List.length]; lia || apply split_length).
    now rewrite join_split. }
  split; [exact Hlong|]. split.
  - unfold output_file, index, short. cbn [nth_error].
    rewrite !split_field by assumption.
    rewrite split_whole by assumption.
    reflexivity.
  - rewrite merge_files_run, Hlong. cbv zeta.
    repeat match goal with
           | |- context [match ?x with _ => _ end] => destruct x
           | |- context [if ?x then _ else _] => destruct x
           end; cbn [snd trace]; rewrite <- ?app_assoc; eexists; reflexivity.
Qed.

End MergeFiles.

(** * mc_postprocess.py: the output groups *)

Section Groups.
Import Py McPostprocess.

Context {W : Type} {HW : World W}.

(** ** Sorting the directory entries into the groups *)

Lemma with_listing_nil (item : string * group) : with_listing [] item = item.
Proof.
  destruct item as [k [files suffix | files suffix]]; [|reflexivity].
  simpl. now rewrite app_nil_r.
Qed.

Lemma with_listing_cons (entry : string) (listing : list string)
  (item : string * group) :
  with_listing (entry :: listing) item =
  with_listing listing (with_listing [entry] item).
Proof.
  destruct item as [k [files suffix | files suffix]]; [|reflexivity].
  cbn [with_listing filter].
  destruct (endswith entry suffix); cbn [app]; now rewrite <- app_assoc.
Qed.

Lemma with_listing_plain (listing : list string) (d : dict) :
  forallb plain (map (with_listing listing) d) = forallb plain d.
Proof.
  induction d as [|[k [files suffix | files suffix]] d IH];
    cbn [map forallb with_listing plain snd]; [reflexivity| |]; now rewrite IH.
Qed.

Lemma add_entry_plain (entry : string) (d : dict) :
  forallb plain d = true -> add_entry entry d = Some (map (with_listing [entry]) d).
Proof.
  induction d as [|[k [files suffix | files suffix]] d IH]; cbn [forallb];
    [reflexivity | | discriminate].
  cbn [plain snd andb]. intros Hd.
  cbn [add_entry map with_listing filter]. rewrite (IH Hd). cbn [option_map].
  destruct (endswith entry suffix); cbn [app]; [reflexivity|].
  now rewrite app_nil_r.
Qed.

Lemma add_entry_wrapped (entry : string) (d : dict) :
  forallb plain d = false -> add_entry entry d = None.
Proof.
  induction d as [|[k [files suffix | files suffix]] d IH]; cbn [forallb];
    [discriminate | | reflexivity].
  cbn [plain snd andb]. intros Hd.
  cbn [add_entry]. now rewrite (IH Hd).
Qed.

(** X8: the loop over the directory listing sorts by suffix.  On a
    dictionary whose values are all pairs [(files, suffix)], it keeps the
    keys, their order and the suffixes, and appends to the files of every
    group the entries of the listing that end with the suffix of the group,
    in the order of the listing; an entry is appended to every group whose
    suffix it ends with, and to none if it ends with none.  Nothing else is
    done. *)
Theorem collect_outputs_by_suffix :
  forall (R : Type) (listing : list string) (root_files : dict) (s : state W),
    forallb plain root_files = true ->
    collect_outputs (R := R) listing root_files s =
      (Normal (map (with_listing listing) root_files), s) /\
    keys (map (with_listing listing) root_files) = keys root_files /\
    (forall root_type files suffix,
       In (root_type, Group files suffix) root_files ->
       In (root_type,
           Group (files ++ filter (fun entry => endswith entry suffix) listing) suffix)
          (map (with_listing listing) root_files)).
Proof.
  intros R listing rf s Hplain. split; [|split].
  - revert rf Hplain. induction listing as [|entry listing IH]; intros rf Hplain.
    + cbn [collect_outputs]. unfold ret. f_equal. f_equal.
      rewrite <- (map_id rf) at 1. apply map_ext. intros item.
      now rewrite with_listing_nil.
    + cbn [collect_outputs]. unfold bind, of_option.
      rewrite add_entry_plain by exact Hplain. unfold ret at 1.
      rewrite IH by now rewrite with_listing_plain.
      rewrite map_map. f_equal. f_equal. apply map_ext. intros item.
      now rewrite (with_listing_cons entry listing item).
  - unfold keys. rewrite map_map. apply map_ext.
    intros [k [files suffix | files suffix]]; reflexivity.
  - intros k files suffix Hin.
    apply (in_map (with_listing listing)) in Hin. exact Hin.
Qed.

(** X9: the one-element tuple stops the sorting.  Once a value of the
    dictionary is the tuple [((files, suffix),)], as the value [run_main]
    stores under [Geant ROOT] is, the first entry of the directory listing
    raises IndexError; only an empty listing goes through. *)
Theorem collect_outputs_wrapped :
  forall (R : Type) (entry : string) (listing : list string) (root_files : dict)
         (s : state W),
    forallb plain root_files = false ->
    collect_outputs (R := R) (entry :: listing) root_files s = (Raised IndexError, s) /\
    collect_outputs (R := R) [] root_files s = (Normal root_files, s).
Proof.
  intros R entry listing rf s Hw. split; [|reflexivity].
  cbn [collect_outputs]. unfold bind, of_option.
  now rewrite add_entry_wrapped.
Qed.

(** ** The totals *)

Lemma sum_entries_run (R : Type) (path files : list string) (t : Z) (s : state W) :
  sum_entries (R := R) path files t s =
  match first_error path files (world s) with
  | Some e => (Raised e, s)
  | None => (Normal (t + total (map (entries_of path (world s)) files)), s)
  end.
Proof.
  revert t. induction files as [|f files IH]; intros t.
  - cbn. unfold ret. now rewrite Z.add_0_r.
  - cbn [sum_entries first_error map total fold_right].
    unfold bind, query. unfold entries_of at 1.
    destruct (tree_entries f path (world s)) as [e|n]; [reflexivity|].
    rewrite IH. destruct (first_error path files (world s)); [reflexivity|].
    fold (total (map (entries_of path (world s)) files)).
    f_equal. f_equal. lia.
Qed.

(** X10: the total of a group.  [sum_entries] reads the trees of the files
    in their order and adds their numbers of entries to the running total;
    the first file whose tree cannot be read ends the run with the exception
    of that read, whatever the later files hold.  Reading changes nothing
    and writes nothing. *)
Theorem sum_entries_total :
  forall (R : Type) (path files : list string) (t : Z) (s : state W),
    snd (sum_entries (R := R) path files t s) = s /\
    (first_error path files (world s) = None <->
     fst (sum_entries (R := R) path files t s) =
       Normal (t + total (map (entries_of path (world s)) files))) /\
    (forall before root_file after e,
       files = (before ++ root_file :: after)%list ->
       first_error path before (world s) = None ->
       tree_entries root_file path (world s) = inl e ->
       fst (sum_entries (R := R) path files t s) = Raised e).
Proof.
  intros R path files t s. rewrite sum_entries_run.
  split; [|split].
  - now destruct (first_error path files (world s)).
  - destruct (first_error path files (world s)); split;
      try discriminate; reflexivity.
  - intros before f after e -> Hb Hf.
    assert (He : first_error path (before ++ f :: after) (world s) = Some e).
    { revert Hb. induction before as [|b before IH]; cbn [app first_error].
      - now rewrite Hf.
      - destruct (tree_entries b path (world s)); [discriminate | exact IH]. }
    now rewrite He.
Qed.

(** ** The comparisons only warn *)

Lemma warned_refl (s : state W) : warned s s.
Proof.
  split; [reflexivity|]. exists []. now rewrite app_nil_r.
Qed.

Lemma warned_trans (s1 s2 s3 : state W) : warned s1 s2 -> warned s2 s3 -> warned s1 s3.
Proof.
  intros (Hw1 & tr1 & Ht1 & Hq1) (Hw2 & tr2 & Ht2 & Hq2).
  split; [congruence|]. exists (tr1 ++ tr2)%list.
  rewrite Ht2, Ht1, <- app_assoc, forallb_app, Hq1, Hq2. auto.
Qed.

Lemma warns_ret (R A : Type) (a : A) : warns (W := W) R (ret a).
Proof. intros s. split; [apply warned_refl | exact I]. Qed.

Lemma warns_raise (R A : Type) (e : exn) : warns (W := W) R (raise (A := A) e).
Proof. intros s. split; [apply warned_refl | exact I]. Qed.

Lemma warns_bind (R A B : Type) (m : M W R A) (k : A -> M W R B) :
  warns R m -> (forall a, warns R (k a)) -> warns R (bind m k).
Proof.
  intros Hm Hk s. unfold bind.
  destruct (Hm s) as [Hs Hr].
  destruct (m s) as [[a | r | e] s1]; cbn [fst snd] in *.
  - destruct (Hk a s1) as [Hs1 Hr1]. split; [|exact Hr1].
    eapply warned_trans; eassumption.
  - contradiction.
  - split; [exact Hs | exact I].
Qed.

Lemma warns_of_option (R A : Type) (e : exn) (o : option A) :
  warns (W := W) R (of_option e o).
Proof. destruct o; [apply warns_ret | apply warns_raise]. Qed.

Lemma warns_stderr (R : Type) (msg : string) : warns (W := W) R (emit (Stderr msg)).
Proof.
  intros s. split; [|exact I]. split; [reflexivity|].
  exists [Stderr msg]. split; reflexivity.
Qed.

Lemma warns_sum_entries (R : Type) (path files : list string) (t : Z) :
  warns R (sum_entries path files t).
Proof.
  intros s. rewrite sum_entries_run.
  destruct (first_error path files (world s)); (split; [apply warned_refl | exact I]).
Qed.

Lemma warns_check_events (R : Type) (what : string) (events total_events : Z) :
  warns (W := W) R (check_events what events total_events).
Proof.
  unfold check_events. apply warns_bind; [apply warns_of_option|].
  intros [|]; [apply warns_stderr | apply warns_ret].
Qed.

Lemma warns_group_files (R : Type) (e : exn) (g : group) :
  warns (W := W) R (group_files e g).
Proof. destruct g; [apply warns_ret | apply warns_raise]. Qed.

Lemma warns_check_geant (R : Type) (events : Z) (rf : dict) (outputs : list string) :
  warns R (check_geant events rf outputs).
Proof.
  induction outputs as [|o outputs IH]; [apply warns_ret|].
  cbn [check_geant]. destruct (dict_get rf o) as [g|]; [|exact IH].
  apply warns_bind; [apply warns_group_files|]. intros files.
  apply warns_bind; [apply warns_sum_entries|]. intros t.
  apply warns_bind; [apply warns_check_events|]. intros _. exact IH.
Qed.

Lemma warns_check_pax (R : Type) (events : Z) (rf : dict) :
  warns R (check_pax events rf).
Proof.
  unfold check_pax.
  apply warns_bind; [apply warns_of_option|]. intros g.
  apply warns_bind; [apply warns_group_files|]. intros files.
  apply warns_bind; [apply warns_sum_entries|]. intros t.
  apply warns_check_events.
Qed.

Lemma warns_check_minitrees (R : Type) (events : Z) (rf : dict) (ts : list string) :
  warns R (check_minitrees events rf ts).
Proof.
  induction ts as [|o ts IH]; [apply warns_ret|].
  cbn [check_minitrees].
  apply warns_bind; [apply warns_of_option|]. intros g.
  apply warns_bind; [apply warns_group_files|]. intros files.
  apply warns_bind; [apply warns_sum_entries|]. intros t.
  apply warns_bind; [apply warns_check_events|]. intros _. exact IH.
Qed.

Lemma warns_check_totals (R : Type) (events : Z) (rf : dict) :
  warns R (check_totals events rf).
Proof.
  unfold check_totals.
  apply warns_bind; [apply warns_check_geant|]. intros _.
  apply warns_bind; [apply warns_check_pax|]. intros _.
  apply warns_check_minitrees.
Qed.

(** X11: the comparisons of the totals with the requested events cannot
    stop a run with [return], and they touch nothing.  Whatever the
    dictionary, the requested events and the ROOT files, the three loops
    leave the file system as it was and add to the trace nothing but lines
    on stderr; they end by going on to the merge or by an exception, never by
    a [return]. *)
Theorem check_totals_only_warns :
  forall (R : Type) (events : Z) (root_files : dict) (s : state W),
    let r := check_totals (R := R) events root_files s in
    world (snd r) = world s /\
    (exists tr, trace (snd r) = (trace s ++ tr)%list /\ forallb is_stderr tr = true) /\
    match fst r with
    | Returned _ => False
    | _ => True
    end.
Proof.
  intros R events rf s r. subst r.
  destruct (warns_check_totals R events rf s) as [[Hw Ht] Hr].
  auto.
Qed.

End Groups.

(** * mc_postprocess.py: from the file counts to the end of run_main *)

Section Merging.
Import Py McPostprocess.

Context {W : Type} {HW : World W}.

Lemma merge_files_true (R : Type) (file_list : list string) (result_dir : string)
  (s s' : state W) :
  merge_files (R := R) file_list result_dir s = (Normal true, s') ->
  (exists out, output_file file_list = Some out) /\
  trace s' = (trace s ++ merge_events result_dir file_list)%list.
Proof.
  rewrite merge_files_run. unfold merge_events.
  destruct (output_file file_list) as [out|]; [|discriminate].
  cbv zeta.
  destruct (check_call ("hadd" :: out :: file_list) (world s)) as [[| |] w];
    try discriminate.
  destruct (negb (os_path_isdir result_dir w)); [discriminate|].
  destruct (negb (os_path_isfile out w)); [discriminate|].
  destruct (os_rename out (os_path_join result_dir out) w); [discriminate|].
  intros [= <-]. cbn [trace]. rewrite <- app_assoc. eauto.
Qed.

(** The merge loop when it runs to its end. *)
Lemma merge_all_normal (result_dir : string) (d : dict) (s s' : state W) :
  merge_all result_dir d s = (Normal tt, s') ->
  forallb plain d = true /\
  (forall item, In item d -> exists out, output_file (files_of item) = Some out) /\
  trace s' =
    (trace s ++ flat_map (fun item => merge_events result_dir (files_of item)) d)%list.
Proof.
  revert s. induction d as [|[k g] d IH]; intros s.
  - cbn. intros [= <-]. split; [reflexivity|]. split; [intros item []|].
    now rewrite app_nil_r.
  - cbn [merge_all]. unfold bind at 1.
    destruct g as [files suffix | files suffix];
      cbn [group_files]; [|discriminate].
    unfold ret at 1. unfold bind at 1.
    destruct (merge_files files result_dir s) as [[[|] | r | e] s1] eqn:Hm;
      try discriminate.
    cbn [negb]. intros Hrest.
    apply merge_files_true in Hm. destruct Hm as [Hout Htr].
    destruct (IH s1 Hrest) as (Hplain & Houts & Htr').
    split; [exact Hplain|]. split.
    + intros item [<- | Hin]; [exact Hout | now apply Houts].
    + cbn [flat_map files_of snd]. rewrite Htr', Htr, <- app_assoc. reflexivity.
Qed.

Lemma dict_get_in (d : dict) (k : string) (g : group) :
  dict_get d k = Some g -> In (k, g) d.
Proof.
  induction d as [|[k' v] d IH]; cbn [dict_get]; [discriminate|].
  destruct (String.eqb_spec k k') as [-> | _].
  - intros [= ->]. now left.
  - intros H. right. now apply IH.
Qed.

Lemma bind_normal (R A B : Type) (m : M W R A) (k : A -> M W R B)
  (s s' : state W) (b : B) :
  bind m k s = (Normal b, s') ->
  exists a s1, m s = (Normal a, s1) /\ k a s1 = (Normal b, s').
Proof.
  unfold bind. destruct (m s) as [[a | r | e] s1]; try discriminate.
  intros H. now exists a, s1.
Qed.

(** X12: what a run of the last part of [run_main] has done when it gets
    to its end.  If the run from the file-count loop on ends without a
    [return] and without an exception, then every group is a pair with
    exactly as many files as there are jobs; the comparisons of the totals
    have written at most warnings; [merged_results] has been made under the
    starting directory; every group of the dictionary, in its order, has
    been combined by one [hadd] and moved there; and the last act is the
    change back to the starting directory. *)
Theorem check_and_merge_completed :
  forall (jobs events : Z) (cur_dir : string) (root_files : dict)
         (s s' : state W),
    check_and_merge jobs events cur_dir root_files s = (Normal tt, s') ->
    let result_dir := os_path_join cur_dir "merged_results" in
    (forall item, In item root_files ->
       plain item = true /\
       Z.of_nat (List.length (files_of item)) = jobs /\
       exists out, output_file (files_of item) = Some out) /\
    exists warnings,
      forallb is_stderr warnings = true /\
      trace s' =
        (trace s ++ warnings ++ [Mkdir result_dir] ++
         flat_map (fun item => merge_events result_dir (files_of item)) root_files ++
         [Chdir cur_dir])%list.
Proof.
  intros jobs events cur_dir rf s s' Hrun result_dir.
  unfold check_and_merge in Hrun.
  apply bind_normal in Hrun. destruct Hrun as ([] & s1 & Hcount & Hrun).
  rewrite check_file_counts_spec in Hcount.
  destruct (find (count_differs jobs) rf) eqn:Hfind; [discriminate|].
  injection Hcount as <-.
  apply bind_normal in Hrun. destruct Hrun as ([] & s2 & Hg & Hrun).
  apply bind_normal in Hrun. destruct Hrun as ([] & s3 & Hp & Hrun).
  apply bind_normal in Hrun. destruct Hrun as ([] & s4 & Hm & Hrun).
  assert (Hwarn : warned s s4).
  { pose proof (warns_check_geant Z events rf
                  ["Geant ROOT"; "Sort ROOT"; "Patch ROOT"] s) as [H1 _].
    pose proof (warns_check_pax Z events rf s2) as [H2 _].
    pose proof (warns_check_minitrees Z events rf (keys MINITREE_OUTPUTS) s3)
      as [H3 _].
    rewrite Hg in H1. rewrite Hp in H2. rewrite Hm in H3. cbn [snd] in *.
    eapply warned_trans; [exact H1|]. eapply warned_trans; eassumption. }
  destruct Hwarn as (_ & warnings & Htr4 & Hquiet).
  cbv zeta in Hrun. fold result_dir in Hrun.
  apply bind_normal in Hrun. destruct Hrun as ([] & s5 & Hmk & Hrun).
  unfold emit in Hmk. injection Hmk as <-.
  apply bind_normal in Hrun. destruct Hrun as ([] & s6 & Hcmd & Hrun).
  unfold command in Hcmd. cbn [world trace] in Hcmd.
  destruct (os_mkdir result_dir (world s4)) as [w6|]; [|discriminate].
  injection Hcmd as <-.
  apply bind_normal in Hrun. destruct Hrun as ([] & s7 & Hmerge & Hrun).
  apply merge_all_normal in Hmerge. destruct Hmerge as (Hplain & Houts & Htr7).
  cbn [trace] in Htr7.
  apply bind_normal in Hrun. destruct Hrun as ([] & s8 & Hcd & Hrun).
  unfold emit in Hcd. injection Hcd as <-.
  unfold command in Hrun. cbn [world trace] in Hrun.
  destruct (os_chdir cur_dir (world s7)) as [w9|]; [|discriminate].
  injection Hrun as <-. cbn [trace].
  split.
  - intros item Hin.
    assert (Hpl : plain item = true).
    { rewrite forallb_forall in Hplain. now apply Hplain. }
    split; [exact Hpl|]. split; [|now apply Houts].
    pose proof (find_none _ _ Hfind item Hin) as Hc.
    unfold count_differs in Hc. apply negb_false_iff, Z.eqb_eq in Hc.
    destruct item as [k [files suffix | files suffix]]; [exact Hc | discriminate].
  - exists warnings. split; [exact Hquiet|].
    rewrite Htr7, Htr4. now rewrite <- !app_assoc.
Qed.

(** X13: the value stored under [Geant ROOT] stops every run.  With the
    one-element tuple under that key, as [run_main] stores it, the file-count
    loop takes the length of the pair inside for the number of files: unless
    another group is reported first, the run gets past it only with exactly
    two jobs, and then the first comparison of totals raises TypeError before
    anything is written or merged. *)
Theorem wrapped_geant_stops_run :
  forall (jobs events : Z) (cur_dir : string) (root_files : dict)
         (files : list string) (suffix : string) (s : state W),
    dict_get root_files "Geant ROOT" = Some (Wrapped files suffix) ->
    match find (count_differs jobs) root_files with
    | Some item =>
        check_and_merge jobs events cur_dir root_files s =
        (Returned 1,
         mkState (world s)
                 (trace s ++ [Stderr (count_message jobs item); Stderr count_advice]))
    | None =>
        jobs = 2 /\
        check_and_merge jobs events cur_dir root_files s = (Raised TypeError, s)
    end.
Proof.
  intros jobs events cur_dir rf files suffix s Hg.
  destruct (find (count_differs jobs) rf) eqn:Hfind.
  { unfold check_and_merge, bind at 1.
    now rewrite check_file_counts_spec, Hfind. }
  split.
  - apply dict_get_in in Hg.
    pose proof (find_none _ _ Hfind _ Hg) as Hc.
    unfold count_differs in Hc. apply negb_false_iff, Z.eqb_eq in Hc.
    cbn in Hc. lia.
  - unfold check_and_merge, bind at 1.
    rewrite check_file_counts_spec, Hfind.
    unfold bind at 1. cbn [check_geant]. rewrite Hg. reflexivity.
Qed.

End Merging.

Section GroupsExamples.
Import Py McPostprocess Samples.

Lemma merged_file_name_witness :
  output_file (outputs_of "pax.root") = Some "mc_run_v1_pax.root" /\
  output_file ["mc_run_v1_7"] = Some "mc_run_v1".
Proof.
  destruct (@merged_file_name sim sim_world Z "mc" "run" "v1" "0" "pax.root"
              ["mc_run_v1_1_pax.root"] "/work/merged_results"
              (mkState (merge_world []) []) eq_refl eq_refl eq_refl eq_refl)
    as (Hlong & _ & _).
  split; [exact Hlong | reflexivity].
Defined.

(** A listing with two files of every group of [groups_complete] but the
    first, a stray file, and no file for the first. *)
Lemma collect_outputs_by_suffix_witness :
  forallb plain [("PAX ROOT", Group [] "pax.root"); ("Sort ROOT", Group [] "Sort.root")]
    = true /\
  run (collect_outputs (R := Z)
         ["notes.txt"; "mc_run_v1_0_Sort.root"; "mc_run_v1_0_pax.root";
          "mc_run_v1_1_Sort.root"]
         [("PAX ROOT", Group [] "pax.root"); ("Sort ROOT", Group [] "Sort.root")])
      (merge_world []) =
  (Normal [("PAX ROOT", Group ["mc_run_v1_0_pax.root"] "pax.root");
           ("Sort ROOT", Group (outputs_of "Sort.root") "Sort.root")], []).
Proof.
  split; [reflexivity|]. unfold run.
  destruct (@collect_outputs_by_suffix sim Z
              ["notes.txt"; "mc_run_v1_0_Sort.root"; "mc_run_v1_0_pax.root";
               "mc_run_v1_1_Sort.root"]
              [("PAX ROOT", Group [] "pax.root"); ("Sort ROOT", Group [] "Sort.root")]
              (mkState (merge_world []) []) eq_refl) as (Hrun & _).
  rewrite Hrun. reflexivity.
Defined.

Lemma collect_outputs_wrapped_witness :
  forallb plain [("PAX ROOT", Group [] "pax.root");
                 ("Geant ROOT", Wrapped [] "G4.root")] = false /\
  run (collect_outputs (R := Z) ["mc_run_v1_0_pax.root"]
         [("PAX ROOT", Group [] "pax.root"); ("Geant ROOT", Wrapped [] "G4.root")])
      (merge_world []) = (Raised IndexError, []).
Proof.
  split; [reflexivity|]. unfold run.
  destruct (@collect_outputs_wrapped sim Z "mc_run_v1_0_pax.root" []
              [("PAX ROOT", Group [] "pax.root"); ("Geant ROOT", Wrapped [] "G4.root")]
              (mkState (merge_world []) []) eq_refl) as (Hrun & _).
  rewrite Hrun. reflexivity.
Defined.

Lemma check_and_merge_completed_witness :
  fst (check_and_merge 2 1000 "/work" groups_complete
         (mkState (post_world 500 [] []) [])) = Normal tt /\
  exists warnings,
    forallb is_stderr warnings = true /\
    trace (snd (check_and_merge 2 1000 "/work" groups_complete
                  (mkState (post_world 500 [] []) []))) =
    (warnings ++ [Mkdir "/work/merged_results"] ++
     flat_map (fun item => merge_events "/work/merged_results" (files_of item))
              groups_complete ++
     [Chdir "/work"])%list.
Proof.
  assert (Hpair : forall (A B : Type) (p : A * B) (a : A), fst p = a -> p = (a, snd p))
    by (intros A B [x y] a Hx; simpl in Hx; now subst).
  assert (Hrun : check_and_merge 2 1000 "/work" groups_complete
                   (mkState (post_world 500 [] []) []) =
                 (Normal tt,
                  snd (check_and_merge 2 1000 "/work" groups_complete
                         (mkState (post_world 500 [] []) []))))
    by (apply Hpair; vm_compute; reflexivity).
  split; [now rewrite Hrun|].
  destruct (@check_and_merge_completed sim sim_world 2 1000 "/work" groups_complete
              (mkState (post_world 500 [] []) []) _ Hrun)
    as (_ & warnings & Hquiet & Htr).
  exists warnings. split; [exact Hquiet|].
  cbn [trace app] in Htr.
  change (os_path_join "/work" "merged_results") with "/work/merged_results" in Htr.
  rewrite Htr. reflexivity.
Defined.

Lemma wrapped_geant_stops_run_witness :
  run (check_and_merge 2 1000 "/work"
         (dict_set groups_complete "Geant ROOT" (Wrapped [] "G4.root")))
      (post_world 500 [] []) = (Raised TypeError, []).
Proof.
  unfold run.
  pose proof (@wrapped_geant_stops_run sim sim_world 2 1000 "/work"
                (dict_set groups_complete "Geant ROOT" (Wrapped [] "G4.root"))
                [] "G4.root" (mkState (post_world 500 [] []) []) eq_refl) as H.
  cbn [find] in H.
  change (find (count_differs 2)
            (dict_set groups_complete "Geant ROOT" (Wrapped [] "G4.root")))
    with (@None (string * group)) in H.
  destruct H as [_ ->]. reflexivity.
Defined.

End GroupsExamples.

(** * mc_postprocess.py: how far the flavor is looked for *)

Section FlavorWindow.
Import Py McPostprocess.

Context {W : Type} {HW : World W}.

Lemma substring_app (a b : string) :
  substring 0 (String.length a) (a ++ b) = a.
Proof.
  induction a as [|c a IH]; cbn [String.length append substring].
  - now destruct b.
  - now rewrite IH.
Qed.

(** X22: a flavor that starts after the first 1024 characters of the dag
    file is not seen.  When the first 1024 characters hold no complete
    [flavor="..."], [get_dag_information] returns no flavor, whatever the
    rest of the file says; a run with events, jobs and an [output] directory
    then stops in [output] on [MC flavor unknown: None] with the status 1. *)
Theorem flavor_after_1024_not_seen :
  forall (dag_file head rest : string) (s : state W),
    os_path_isfile dag_file (world s) = true ->
    open_read dag_file (world s) = Some (head ++ rest) ->
    String.length head = 1024%nat ->
    flavor_search head = None ->
    (exists jobs events,
       get_dag_information (R := Z) dag_file s =
       (Normal (Info3 jobs events None), s)) /\
    (forall w1,
       0 < total (map line_events (file_lines (head ++ rest))) ->
       (0 < List.length (filter line_is_job (file_lines (head ++ rest))))%nat ->
       os_path_isdir "output" (world s) = true ->
       os_chdir "output" (world s) = Some w1 ->
       run_main dag_file s =
       (Returned 1,
        mkState w1
                (trace s ++
                 [Chdir "output"; Stderr ("MC flavor unknown: None" ++ NL)]))).
Proof.
  intros dag head rest s Hfile Hread Hlen Hnone.
  pose proof (get_dag_information_read Z dag (head ++ rest) s Hfile Hread) as Hinfo.
  rewrite <- Hlen, substring_app, Hnone in Hinfo.
  split; [eauto|].
  intros w1 He Hj Hdir Hcd.
  rewrite scan_dag_closed in Hinfo. cbn [fst snd] in Hinfo.
  rewrite !Z.add_0_l in Hinfo.
  rewrite (run_main_info3 dag _ _ _ s Hinfo), Hdir, Hcd.
  cbn [negb known_flavor flavor_repr].
  repeat match goal with
         | |- context [?e =? 0] => destruct (Z.eqb_spec e 0); [lia|]
         end.
  reflexivity.
Qed.

End FlavorWindow.

Section FlavorWindowExamples.
Import Py McPostprocess Samples.

Lemma flavor_after_1024_not_seen_witness :
  run (run_main "mc.dag") (dag_world (dag_header ++ dag_of_flavor "G4") ["output"]) =
  (Returned 1, [Chdir "output"; Stderr ("MC flavor unknown: None" ++ NL)]).
Proof.
  unfold run.
  destruct (@flavor_after_1024_not_seen sim sim_world "mc.dag" dag_header
              (dag_of_flavor "G4")
              (mkState (dag_world (dag_header ++ dag_of_flavor "G4") ["output"]) [])
              eq_refl eq_refl eq_refl ltac:(vm_compute; reflexivity))
    as (_ & Hrun).
  rewrite (Hrun (dag_world (dag_header ++ dag_of_flavor "G4") ["output"])
             ltac:(vm_compute; reflexivity) ltac:(vm_compute; lia)
             eq_refl eq_refl).
  reflexivity.
Defined.

End FlavorWindowExamples.

(** * BatchMergeTruthAndProcessed.py: the loop as a whole *)

Section Waiting.
Import Py BatchMerge.

Variable cfg : config.

Lemma poll_once_admits (sp f : string) (p : poll) :
  poll_once cfg sp f p =
  if admits cfg p
  then ((asks cfg (Output p) ++ [sbatch sp f; Call ("rm " ++ f); Sleep 1])%list, true)
  else (waits cfg p, false).
Proof. reflexivity. Qed.

Lemma submit_loop_waits (sp f : string) (waiting polls : list poll) :
  forallb (fun q => negb (admits cfg q)) waiting = true ->
  submit_loop cfg sp f (waiting ++ polls) =
  ((flat_map (waits cfg) waiting ++ fst (submit_loop cfg sp f polls))%list,
   snd (submit_loop cfg sp f polls)).
Proof.
  induction waiting as [|q waiting IH]; intros Hw.
  - cbn [app flat_map]. now destruct (submit_loop cfg sp f polls).
  - cbn [forallb] in Hw. apply andb_true_iff in Hw. destruct Hw as [Hq Hw].
    apply negb_true_iff in Hq.
    cbn [app submit_loop flat_map]. rewrite poll_once_admits, Hq.
    rewrite (IH Hw). now rewrite <- app_assoc.
Qed.

(** X14: the job goes to the queue at the first poll that admits it.  When
    the polls before it all fail the test (a non-zero status, or a count at
    the ceiling or above) and the next one passes, every pass, the passing
    one included, has run [squeue] twice, once for the count and once
    through the shell for the status; the loop has slept 30 after each of
    the failing passes; on the passing one it has run
    [cd SubmitPath;sbatch SubmitFile;cd -] once, removed the submit file and
    slept 1; the polls after it are left for the next job. *)
Theorem submit_loop_first_admitting :
  forall (sp SubmitFile : string) (waiting : list poll) (p : poll)
         (later : list poll),
    forallb (fun q => negb (admits cfg q)) waiting = true ->
    admits cfg p = true ->
    let tr := fst (submit_loop cfg sp SubmitFile (waiting ++ p :: later)) in
    submit_loop cfg sp SubmitFile (waiting ++ p :: later) =
      ((flat_map
          (fun q =>
             [ Squeue (Partition cfg) (CurrentUser cfg);
               Call ("squeue --partition=" ++ Partition cfg ++
                     " --user=mcfate | wc -l");
               Print ("Current job running number " ++ str (Output q));
               Sleep 30 ]) waiting ++
        [ Squeue (Partition cfg) (CurrentUser cfg);
          Call ("squeue --partition=" ++ Partition cfg ++ " --user=mcfate | wc -l");
          Print ("Current job running number " ++ str (Output p));
          Call ("cd " ++ sp ++ ";sbatch " ++ SubmitFile ++ ";cd -");
          Call ("rm " ++ SubmitFile);
          Sleep 1 ])%list,
       Some later) /\
    List.length (filter is_squeue tr) = S (List.length waiting) /\
    List.length (filter is_status_query tr) = S (List.length waiting) /\
    List.length (filter is_backoff tr) = List.length waiting /\
    filter is_sbatch tr = [Call ("cd " ++ sp ++ ";sbatch " ++ SubmitFile ++ ";cd -")].
Proof.
  intros sp f waiting p later Hw Hp tr.
  assert (Hrun :
    submit_loop cfg sp f (waiting ++ p :: later) =
      ((flat_map (waits cfg) waiting ++ asks cfg (Output p) ++
        [sbatch sp f; Call ("rm " ++ f); Sleep 1])%list, Some later)).
  { rewrite (submit_loop_waits sp f waiting (p :: later) Hw).
    cbn [submit_loop]. rewrite poll_once_admits, Hp. reflexivity. }
  split; [exact Hrun|].
  subst tr. rewrite Hrun. cbn [fst].
  assert (Hq : forall (g : event -> bool) (n : nat),
             (forall q, List.length (filter g (waits cfg q)) = n) ->
             List.length (filter g (flat_map (waits cfg) waiting)) =
             (n * List.length waiting)%nat).
  { intros g n Hg. clear Hw Hrun.
    induction waiting as [|q waiting IH]; [cbn; lia|].
    cbn [flat_map List.length]. rewrite filter_app, length_app, Hg, IH. lia. }
  rewrite !filter_app, !length_app.
  rewrite (Hq is_squeue 1%nat) by reflexivity.
  rewrite (Hq is_status_query 1%nat) by reflexivity.
  rewrite (Hq is_backoff 1%nat) by reflexivity.
  split; [cbn; lia|]. split; [cbn; lia|]. split; [cbn; lia|].
  assert (Hs : filter is_sbatch (flat_map (waits cfg) waiting) = []).
  { clear Hw Hrun Hq.
    induction waiting as [|q waiting IH]; [reflexivity|].
    cbn [flat_map]. now rewrite filter_app, IH. }
  rewrite Hs. cbn [app]. unfold asks. cbn [filter is_sbatch app].
  rewrite is_sbatch_sbatch. cbn. reflexivity.
Qed.

(** X15: the loop does not give up.  While no poll passes the test, the
    loop has done nothing but query the queue and sleep 30 after every poll:
    it has submitted nothing, and it is still waiting when the polls run
    out, however many there were. *)
Theorem submit_loop_keeps_waiting :
  forall (sp SubmitFile : string) (polls : list poll),
    forallb (fun q => negb (admits cfg q)) polls = true ->
    submit_loop cfg sp SubmitFile polls = (flat_map (waits cfg) polls, None) /\
    filter is_sbatch (fst (submit_loop cfg sp SubmitFile polls)) = [] /\
    List.length (filter is_backoff (fst (submit_loop cfg sp SubmitFile polls))) =
      List.length polls.
Proof.
  intros sp f polls Hw.
  assert (Hrun : submit_loop cfg sp f polls = (flat_map (waits cfg) polls, None)).
  { pose proof (submit_loop_waits sp f polls [] Hw) as H.
    rewrite app_nil_r in H. rewrite H. cbn. now rewrite app_nil_r. }
  split; [exact Hrun|]. rewrite Hrun. cbn [fst]. clear Hw Hrun.
  induction polls as [|q polls [IH1 IH2]]; [split; reflexivity|].
  cbn [flat_map]. rewrite !filter_app, length_app, IH1, IH2. split; reflexivity.
Qed.

End Waiting.

Section Identifiers.
Import Py BatchMerge.

Variable cfg : config.
Variable w : world.

(** ** From the truth files to the identifiers *)

Lemma extract_ID_none (filename : string) :
  extract_ID filename = None <-> contains "FakeWaveform_XENON1T_" filename = false.
Proof.
  unfold extract_ID, index, split.
  destruct (contains "FakeWaveform_XENON1T_" filename) eqn:Hc.
  - pose proof (split_go_two _ _ filename EmptyString Hc) as Hlen.
    destruct (split_go "FakeWaveform_XENON1T_" 0 EmptyString filename)
      as [|x [|tail l]]; cbn [List.length] in Hlen; try lia.
    cbn [nth_error].
    pose proof (split_go_length "_truth.csv" tail 0 EmptyString) as Hlen'.
    destruct (split_go "_truth.csv" 0 EmptyString tail); cbn [List.length] in Hlen';
      [lia|].
    split; discriminate.
  - rewrite split_go_whole by exact Hc. split; reflexivity.
Qed.

Lemma make_IDList_none (files : list string) :
  make_IDList files = None <->
  exists filename, In filename files /\
                   contains "FakeWaveform_XENON1T_" filename = false.
Proof.
  induction files as [|f files IH]; cbn [make_IDList].
  - split; [discriminate | intros (x & [] & _)].
  - destruct (extract_ID f) as [ID|] eqn:Hf.
    + destruct (make_IDList files) as [ids|].
      * split; [discriminate|].
        intros (x & [<- | Hin] & Hx).
        -- apply extract_ID_none in Hx. congruence.
        -- assert (Hnone : @None (list string) = None) by reflexivity.
           destruct IH as [_ IH]. discriminate IH. eauto.
      * split; [|reflexivity]. intros _.
        destruct IH as [IH _]. destruct (IH eq_refl) as (x & Hin & Hx).
        exists x. split; [now right | exact Hx].
    + split; [|reflexivity]. intros _.
      exists f. split; [now left | now apply extract_ID_none].
Qed.

(** X16: the identifier cut out of a truth file name is the one the name
    was made of.  For an identifier [ID] and the truth file
    [TruthCSVPath/FakeWaveform_XENON1T_ID_truth.csv], the two [split]s give
    [ID] back, provided the marker [FakeWaveform_XENON1T_] occurs neither in
    the directory nor in what follows it in the name, and [_truth.csv] does
    not occur before the end of the name. *)
Theorem extract_ID_of_truth_file :
  forall (ID : string),
    contains "FakeWaveform_XENON1T_"
             (TruthCSVPath cfg ++ "/FakeWaveform_XENON1T") = false ->
    contains "FakeWaveform_XENON1T_" (ID ++ "_truth.csv") = false ->
    contains "_truth.csv" (ID ++ "_truth.cs") = false ->
    extract_ID (TruthCSVFilename cfg ID) = Some ID.
Proof.
  intros ID Hdir Htail Hend.
  assert (Hdir' : contains "FakeWaveform_XENON1T_"
                    ((TruthCSVPath cfg ++ "/") ++ "FakeWaveform_XENON1T") = false)
    by now rewrite append_assoc.
  pose proof (split_first "FakeWaveform_XENON1T" "_"%char
                (TruthCSVPath cfg ++ "/") (ID ++ "_truth.csv") Hdir') as Hfirst.
  rewrite append_assoc in Hfirst.
  pose proof (split_first "_truth.cs" "v"%char ID EmptyString Hend) as Hsecond.
  unfold extract_ID, TruthCSVFilename.
  change (TruthCSVPath cfg ++ "/FakeWaveform_XENON1T_" ++ ID ++ "_truth.csv")
    with (TruthCSVPath cfg ++ "/" ++
          ("FakeWaveform_XENON1T" ++ String "_" EmptyString) ++ ID ++ "_truth.csv").
  change "FakeWaveform_XENON1T_"
    with ("FakeWaveform_XENON1T" ++ String "_" EmptyString) at 1.
  rewrite Hfirst. cbn [index nth_error].
  change ("FakeWaveform_XENON1T" ++ String "_" EmptyString)
    with "FakeWaveform_XENON1T_".
  rewrite (split_whole _ _ Htail). cbn [nth_error].
  change (split (ID ++ "_truth.csv") "_truth.csv")
    with (split (ID ++ ("_truth.cs" ++ String "v" EmptyString) ++ EmptyString)
                ("_truth.cs" ++ String "v" EmptyString)).
  rewrite Hsecond. reflexivity.
Qed.

(** X17: one file that does not carry the marker stops everything.  The
    script ends on IndexError with nothing done, not even the temporary
    directory made, exactly when the listing of [TruthCSVPath/*.csv] has a
    name in which [FakeWaveform_XENON1T_] does not occur. *)
Theorem stray_csv_aborts :
  forall (polls : list poll),
    (exists filename,
       In filename (FileList cfg w) /\
       contains "FakeWaveform_XENON1T_" filename = false) <->
    script cfg w polls = ([], Raised IndexError).
Proof.
  intros polls. rewrite <- make_IDList_none. unfold script.
  destruct (make_IDList (FileList cfg w)) as [ids|]; [|split; reflexivity].
  split; [discriminate|].
  destruct (submission cfg w 0 ids polls) as [tr o].
  destruct o, (path_exists w (TmpPath cfg)); discriminate.
Qed.

End Identifiers.

Section Arrays.
Import Py BatchMerge.

Variable cfg : config.
Variable w : world.

Hypothesis arrays : ArrayOutput cfg <> 0.
Hypothesis unbound : save_ap cfg = None.

Lemma write_submit_no_squeue (j : nat) (ID sp f proc : string) :
  filter is_squeue (fst (write_submit cfg j ID sp f proc)) = [].
Proof.
  unfold write_submit.
  destruct (IfPublicNode cfg =? 0), (IfPublicNode cfg =? 2),
    (negb (ArrayOutput cfg =? 0)), (save_ap cfg); reflexivity.
Qed.

Lemma prepare_no_squeue (j : nat) (ID : string) :
  filter is_squeue (fst (prepare cfg w j ID)) = [].
Proof.
  unfold prepare.
  destruct (submit_dir cfg j) as [sp|]; [|reflexivity].
  destruct (correlate cfg w ID) as [proc|].
  - pose proof (write_submit_no_squeue j ID sp (sp ++ "/submit") proc) as Hw.
    destruct (write_submit cfg j ID sp (sp ++ "/submit") proc) as [lines err].
    cbn [fst] in Hw.
    destruct err; cbn [fst]; rewrite !filter_app, Hw;
      destruct (path_exists w sp), (path_exists w (sp ++ "/submit")); reflexivity.
  - cbn [fst].
    destruct (path_exists w sp), (path_exists w (sp ++ "/submit")); reflexivity.
Qed.

Lemma prepare_arrays (j : nat) (ID : string) :
  snd (prepare cfg w j ID) =
  match submit_dir cfg j with
  | None => Abort IndexError
  | Some _ => if matched cfg w ID then Abort NameError else Skip
  end.
Proof.
  unfold prepare, matched.
  destruct (submit_dir cfg j) as [sp|]; [|reflexivity].
  destruct (correlate cfg w ID) as [proc|]; [|reflexivity].
  unfold write_submit. rewrite unbound.
  destruct (Z.eqb_spec (ArrayOutput cfg) 0); [contradiction | reflexivity].
Qed.

Lemma submission_arrays (ids : list string) (j : nat) (polls : list poll) :
  filter is_sbatch (fst (submission cfg w j ids polls)) = [] /\
  filter is_squeue (fst (submission cfg w j ids polls)) = [] /\
  (forall c rest, RelativeSubmitPath cfg = String c rest ->
     snd (submission cfg w j ids polls) =
     if existsb (matched cfg w) ids then Raised NameError else Finished).
Proof.
  revert j. induction ids as [|ID ids IH]; intros j.
  - cbn. repeat split.
  - cbn [submission existsb].
    pose proof (prepare_no_sbatch cfg w j ID) as Hs.
    pose proof (prepare_no_squeue j ID) as Hq.
    pose proof (prepare_arrays j ID) as Hp.
    destruct (prepare cfg w j ID) as [tr p]. cbn [fst snd] in *.
    destruct (submit_dir cfg j) as [sp|] eqn:Hsp.
    + destruct (matched cfg w ID); subst p.
      * cbn [fst snd orb]. auto.
      * destruct (IH (S j)) as (IHs & IHq & IHo).
        destruct (submission cfg w (S j) ids polls) as [tr' o].
        cbn [fst snd orb] in *. rewrite !filter_app, Hs, Hq, IHs, IHq.
        repeat split. exact IHo.
    + subst p. cbn [fst snd]. repeat split; auto.
      intros c rest Hrel. unfold submit_dir in Hsp. rewrite Hrel in Hsp.
      discriminate.
Qed.

Lemma script_arrays (polls : list poll) :
  filter is_sbatch (fst (script cfg w polls)) = [] /\
  filter is_squeue (fst (script cfg w polls)) = [] /\
  (forall ids c rest,
     make_IDList (FileList cfg w) = Some ids ->
     RelativeSubmitPath cfg = String c rest ->
     snd (script cfg w polls) =
     if existsb (matched cfg w) ids then Raised NameError else Finished).
Proof.
  unfold script.
  destruct (make_IDList (FileList cfg w)) as [ids|].
  - destruct (submission_arrays ids 0 polls) as (Hs & Hq & Ho).
    destruct (submission cfg w 0 ids polls) as [tr o]. cbn [fst snd] in *.
    destruct o, (path_exists w (TmpPath cfg)); cbn [fst snd];
      rewrite !filter_app, Hs, Hq; (split; [reflexivity|]);
      (split; [reflexivity|]);
      intros ids' c rest [= <-] Hrel; exact (Ho c rest Hrel).
  - cbn. repeat split. intros ids c rest Hids. discriminate.
Qed.

(** X18: arrays without the eleventh argument submit nothing.  When the
    script is asked for arrays in the output ([ArrayOutput] not zero) and
    [save_ap] was not given on the command line, it never queries the queue
    and never submits a job; with a submission path that is not empty, it
    ends on NameError at the first identifier that has a processed file, and
    runs to its end only when no identifier has one. *)
Theorem arrays_need_save_ap :
  forall (polls : list poll),
    let r := script cfg w polls in
    filter is_sbatch (fst r) = [] /\
    filter is_squeue (fst r) = [] /\
    (forall ids c rest,
       make_IDList (FileList cfg w) = Some ids ->
       RelativeSubmitPath cfg = String c rest ->
       snd r = if existsb (matched cfg w) ids then Raised NameError else Finished).
Proof.
  intros polls r. subst r. apply script_arrays.
Qed.

End Arrays.

Section Directories.
Import Py BatchMerge.

Variable cfg : config.
Variable w : world.

Lemma is_mkdir_mkdir (d : string) : is_mkdir (Call ("mkdir " ++ d)) = true.
Proof. unfold is_mkdir. apply prefix_self_app. Qed.

Lemma write_submit_no_mkdir (j : nat) (ID sp f proc : string) :
  filter is_mkdir (fst (write_submit cfg j ID sp f proc)) = [].
Proof.
  unfold write_submit.
  destruct (IfPublicNode cfg =? 0), (IfPublicNode cfg =? 2),
    (negb (ArrayOutput cfg =? 0)), (save_ap cfg); reflexivity.
Qed.

(** Whatever becomes of the identifier, its submit directory is made. *)
Lemma prepare_mkdir (j : nat) (ID : string) :
  filter is_mkdir (fst (prepare cfg w j ID)) =
  match submit_dir cfg j with
  | Some _ => [mkdir_of cfg j]
  | None => []
  end.
Proof.
  unfold prepare, mkdir_of.
  destruct (submit_dir cfg j) as [sp|] eqn:Hsp; [|reflexivity].
  apply submit_dir_job_dir in Hsp. subst sp.
  set (sp := job_dir cfg j).
  assert (Hdirs :
    filter is_mkdir
      ((if path_exists w sp then [Call ("rm -r " ++ sp)] else []) ++
       [Call ("mkdir " ++ sp)] ++
       (if path_exists w (sp ++ "/submit")
        then [Call ("rm " ++ sp ++ "/submit")] else []))%list =
    [Call ("mkdir " ++ sp)]).
  { rewrite !filter_app. cbn [filter]. rewrite is_mkdir_mkdir.
    destruct (path_exists w sp), (path_exists w (sp ++ "/submit")); reflexivity. }
  destruct (correlate cfg w ID) as [proc|]; [|exact Hdirs].
  pose proof (write_submit_no_mkdir j ID sp (sp ++ "/submit") proc) as Hw.
  destruct (write_submit cfg j ID sp (sp ++ "/submit") proc) as [lines err].
  cbn [fst] in Hw.
  assert (Htr :
    filter is_mkdir
      (((if path_exists w sp then [Call ("rm -r " ++ sp)] else []) ++
        [Call ("mkdir " ++ sp)] ++
        (if path_exists w (sp ++ "/submit")
         then [Call ("rm " ++ sp ++ "/submit")] else [])) ++
       [Print ("To process -> " ++ ID)] ++ lines)%list =
    [Call ("mkdir " ++ sp)]).
  { rewrite filter_app, Hdirs. cbn [app filter is_mkdir]. now rewrite Hw. }
  destruct err; exact Htr.
Qed.

Lemma submit_loop_no_mkdir (sp f : string) (polls : list poll) :
  filter is_mkdir (fst (submit_loop cfg sp f polls)) = [].
Proof.
  induction polls as [|p polls IH]; [reflexivity|].
  cbn [submit_loop]. rewrite poll_once_admits.
  destruct (admits cfg p).
  - reflexivity.
  - destruct (submit_loop cfg sp f polls) as [tr rest].
    cbn [fst] in *. rewrite filter_app, IH. reflexivity.
Qed.

Lemma submission_mkdir (ids : list string) (j : nat) (polls : list poll) :
  exists k : nat,
    (k <= List.length ids)%nat /\
    filter is_mkdir (fst (submission cfg w j ids polls)) =
      map (mkdir_of cfg) (seq j k) /\
    (snd (submission cfg w j ids polls) = Finished -> k = List.length ids).
Proof.
  revert j polls. induction ids as [|ID ids IH]; intros j polls.
  - exists 0%nat. repeat split. cbn. lia.
  - cbn [submission].
    pose proof (prepare_mkdir j ID) as Hm.
    pose proof (prepare_ready cfg w j ID) as Hready.
    destruct (prepare cfg w j ID) as [tr p] eqn:Hprep. cbn [fst snd] in *.
    destruct p as [| e | sp f proc].
    + assert (Hsp : exists sp, submit_dir cfg j = Some sp).
      { unfold prepare in Hprep. destruct (submit_dir cfg j); [eauto|].
        discriminate. }
      destruct Hsp as [sp Hsp]. rewrite Hsp in Hm.
      destruct (IH (S j) polls) as (k & Hk & Hf & Hall).
      destruct (submission cfg w (S j) ids polls) as [tr' o]. cbn [fst snd] in *.
      exists (S k). split; [cbn; lia|]. split.
      * rewrite filter_app, Hm, Hf. reflexivity.
      * intros Ho. cbn. now rewrite (Hall Ho).
    + destruct (submit_dir cfg j) as [sp|].
      * exists 1%nat. split; [cbn; lia|]. split; [exact Hm | discriminate].
      * exists 0%nat. split; [cbn; lia|]. split; [exact Hm | discriminate].
    + destruct (Hready sp f proc eq_refl) as (_ & -> & ->).
      assert (Hsp : exists sp, submit_dir cfg j = Some sp).
      { unfold prepare in Hprep. destruct (submit_dir cfg j); [eauto|].
        discriminate. }
      destruct Hsp as [sp Hsp]. rewrite Hsp in Hm.
      pose proof (submit_loop_no_mkdir (job_dir cfg j) (job_dir cfg j ++ "/submit")
                    polls) as Hloop.
      destruct (submit_loop cfg (job_dir cfg j) (job_dir cfg j ++ "/submit") polls)
        as [tr1 [polls'|]]; cbn [fst] in Hloop.
      * destruct (IH (S j) polls') as (k & Hk & Hf & Hall).
        destruct (submission cfg w (S j) ids polls') as [tr' o]. cbn [fst snd] in *.
        exists (S k). split; [cbn; lia|]. split.
        -- rewrite !filter_app, Hm, Hloop, Hf. reflexivity.
        -- intros Ho. cbn. now rewrite (Hall Ho).
      * exists 1%nat. split; [cbn; lia|]. split; [|discriminate].
        cbn [fst]. rewrite filter_app, Hm, Hloop. reflexivity.
Qed.

(** X19: a submit directory is made for every identifier, matched or not.
    The directories the script makes are the temporary directory and then
    the submit directories of the positions 0, 1, 2, ... of the identifier
    list, without a gap, as far as the run got; a run that reaches its end has
    made one for every identifier of the list, also for those that have no
    processed file and are skipped. *)
Theorem submit_dir_for_every_identifier :
  forall (polls : list poll) (ids : list string),
    make_IDList (FileList cfg w) = Some ids ->
    exists k : nat,
      (k <= List.length ids)%nat /\
      filter is_mkdir (fst (script cfg w polls)) =
        Call ("mkdir " ++ TmpPath cfg) :: map (mkdir_of cfg) (seq 0 k) /\
      (snd (script cfg w polls) = Finished -> k = List.length ids).
Proof.
  intros polls ids Hids. unfold script. rewrite Hids.
  destruct (submission_mkdir ids 0 polls) as (k & Hk & Hf & Hall).
  destruct (submission cfg w 0 ids polls) as [tr o]. cbn [fst snd] in *.
  exists k. split; [exact Hk|].
  assert (Htmp :
    filter is_mkdir
      ((if path_exists w (TmpPath cfg)
        then [Call ("rm -r " ++ TmpPath cfg)] else []) ++
       [Call ("mkdir " ++ TmpPath cfg)])%list = [Call ("mkdir " ++ TmpPath cfg)]).
  { rewrite filter_app. cbn [filter]. rewrite is_mkdir_mkdir.
    destruct (path_exists w (TmpPath cfg)); reflexivity. }
  destruct o; cbn [fst snd].
  - split; [|exact Hall].
    rewrite filter_app, Htmp, filter_app, Hf. cbn. now rewrite app_nil_r.
  - split; [|discriminate]. now rewrite filter_app, Htmp, Hf.
  - split; [|discriminate]. now rewrite filter_app, Htmp, Hf.
Qed.

(** ** The paths of the two worker scripts *)

(** X20: where the worker scripts are looked for.  [EXE_Path] is what
    stands before the first [BatchMergeTruthAndProcessed.py] in the path the
    script was started by; when the script runs under another name the whole
    of that path is taken.  Either way the result is put behind the working
    directory, so [EXE1] is [CurrentPath/EXE_Path] followed by the name of the
    first worker, also when the script was started by an absolute path. *)
Theorem worker_script_paths :
  (contains script_name (CurrentEXE cfg) = false ->
   EXE_Path cfg = CurrentEXE cfg) /\
  (forall d rest,
     CurrentEXE cfg = d ++ script_name ++ rest ->
     contains script_name (d ++ "BatchMergeTruthAndProcessed.p") = false ->
     EXE_Path cfg = d) /\
  EXE1 cfg =
    CurrentPath cfg ++ "/" ++ EXE_Path cfg ++
    (if ArrayOutput cfg =? 1 then "TruthSorting_arrays.py" else "TruthSorting.py") /\
  EXE2 cfg =
    CurrentPath cfg ++ "/" ++ EXE_Path cfg ++
    (if MinitreeType cfg =? 2
     then "MergeTruthAndProcessed_peaks.py" else "MergeTruthAndProcessed.py").
Proof.
  split; [|split; [|split]].
  - intros Hc. unfold EXE_Path.
    fold script_name. now rewrite (split_whole _ _ Hc).
  - intros d rest Hexe Hd. unfold EXE_Path. rewrite Hexe.
    pose proof (split_first "BatchMergeTruthAndProcessed.p" "y"%char d rest Hd)
      as Hsplit.
    change ("BatchMergeTruthAndProcessed.p" ++ String "y" EmptyString)
      with script_name in Hsplit.
    fold script_name. now rewrite Hsplit.
  - unfold EXE1. now destruct (ArrayOutput cfg =? 1).
  - unfold EXE2. now destruct (MinitreeType cfg =? 2).
Qed.

(** ** No two jobs share a name *)

Lemma append_inj_l (a x y : string) : a ++ x = a ++ y -> x = y.
Proof.
  induction a as [|c a IH]; cbn; [auto|]. intros [= H]. now apply IH.
Qed.

Lemma append_inj_r (x y t : string) : x ++ t = y ++ t -> x = y.
Proof.
  revert y. induction x as [|c x IH]; intros y H.
  - destruct y as [|d y]; [reflexivity|].
    apply (f_equal String.length) in H.
    rewrite !length_append in H. cbn in H. lia.
  - destruct y as [|d y].
    + apply (f_equal String.length) in H.
      rewrite !length_append in H. cbn in H. lia.
    + cbn in H. injection H as -> H. f_equal. now apply IH.
Qed.

Lemma to_int_not_nil (n : Z) :
  Z.to_int n <> Decimal.Pos Decimal.Nil /\ Z.to_int n <> Decimal.Neg Decimal.Nil.
Proof.
  pose proof (DecimalZ.to_of (Z.to_int n)) as H.
  rewrite DecimalZ.of_to in H.
  split; intros Hn; rewrite Hn in H; discriminate.
Qed.

Lemma str_inj (a b : Z) : str a = str b -> a = b.
Proof.
  unfold str. intros H.
  apply DecimalZ.to_int_inj.
  destruct (to_int_not_nil a) as [Ha1 Ha2], (to_int_not_nil b) as [Hb1 Hb2].
  pose proof (NilZero.isi (Z.to_int a) Ha1 Ha2) as Ia.
  pose proof (NilZero.isi (Z.to_int b) Hb1 Hb2) as Ib.
  rewrite H in Ia. congruence.
Qed.

(** X21: no two jobs share a directory, and the files of two jobs are the
    same only for the same identifier.  The submit directories of two
    positions of the identifier list are the same only when the positions
    are; the temporary files and the merged files of two identifiers are the
    same only when the identifiers are. *)
Theorem job_names_distinct :
  (forall j1 j2 : nat, job_dir cfg j1 = job_dir cfg j2 <-> j1 = j2) /\
  (forall a b : string, TmpOutputFilename cfg a = TmpOutputFilename cfg b <-> a = b) /\
  (forall a b : string, OutputFilename cfg a = OutputFilename cfg b <-> a = b).
Proof.
  split; [|split].
  - intros j1 j2. split; [|now intros ->].
    unfold job_dir, SubmitPath_abs, SubmitPath.
    intros H.
    assert (Hs : str (Z.of_nat j1) = str (Z.of_nat j2)).
    { destruct (startswith (RelativeSubmitPath cfg) "/").
      - apply append_inj_l, append_inj_l in H. now apply append_inj_r in H.
      - do 4 apply append_inj_l in H. now apply append_inj_r in H. }
    apply str_inj in Hs. lia.
  - intros a b. split; [|now intros ->].
    unfold TmpOutputFilename. intros H.
    do 2 apply append_inj_l in H. now apply append_inj_r in H.
  - intros a b. split; [|now intros ->].
    unfold OutputFilename. intros H.
    do 2 apply append_inj_l in H. now apply append_inj_r in H.
Qed.

End Directories.

Section LoopExamples.
Import Py BatchMerge Samples.

Lemma submit_loop_first_admitting_witness :
  submit_loop cfg_public "/home/user/Submit/0_0" "/home/user/Submit/0_0/submit"
    ([full; failed] ++ idle :: [idle]) =
  ([ Squeue "sandyb" "user";
     Call "squeue --partition=sandyb --user=mcfate | wc -l";
     Print "Current job running number 64";
     Sleep 30;
     Squeue "sandyb" "user";
     Call "squeue --partition=sandyb --user=mcfate | wc -l";
     Print "Current job running number 3";
     Sleep 30;
     Squeue "sandyb" "user";
     Call "squeue --partition=sandyb --user=mcfate | wc -l";
     Print "Current job running number 1";
     Call "cd /home/user/Submit/0_0;sbatch /home/user/Submit/0_0/submit;cd -";
     Call "rm /home/user/Submit/0_0/submit";
     Sleep 1 ],
   Some [idle]).
Proof.
  exact (proj1 (submit_loop_first_admitting cfg_public "/home/user/Submit/0_0"
                  "/home/user/Submit/0_0/submit" [full; failed] idle [idle]
                  eq_refl eq_refl)).
Defined.

Lemma submit_loop_keeps_waiting_witness :
  submit_loop cfg_public "/home/user/Submit/0_0" "/home/user/Submit/0_0/submit"
    [full; failed; full] =
  (flat_map (waits cfg_public) [full; failed; full], None).
Proof.
  exact (proj1 (submit_loop_keeps_waiting cfg_public "/home/user/Submit/0_0"
                  "/home/user/Submit/0_0/submit" [full; failed; full] eq_refl)).
Defined.

Lemma extract_ID_of_truth_file_witness :
  extract_ID (TruthCSVFilename cfg_public "000012") = Some "000012".
Proof.
  exact (extract_ID_of_truth_file cfg_public "000012" eq_refl eq_refl eq_refl).
Defined.

Lemma arrays_need_save_ap_witness :
  filter is_sbatch (fst (script cfg_arrays world_prefix [idle; idle])) = [] /\
  snd (script cfg_arrays world_prefix [idle; idle]) = Raised NameError.
Proof.
  assert (Harrays : ArrayOutput cfg_arrays <> 0) by discriminate.
  destruct (arrays_need_save_ap cfg_arrays world_prefix Harrays eq_refl [idle; idle])
    as (Hs & _ & Ho).
  split; [exact Hs|].
  exact (Ho ["1"; "10"] "S"%char "ubmit" eq_refl eq_refl).
Defined.

Lemma submit_dir_for_every_identifier_witness :
  exists k : nat,
    (k <= 2)%nat /\
    filter is_mkdir (fst (script cfg_public world_unmatched [idle; idle])) =
      Call ("mkdir " ++ TmpPath cfg_public) :: map (mkdir_of cfg_public) (seq 0 k) /\
    (snd (script cfg_public world_unmatched [idle; idle]) = Finished -> k = 2%nat).
Proof.
  exact (submit_dir_for_every_identifier cfg_public world_unmatched [idle; idle]
           ["1"; "2"] eq_refl).
Defined.

End LoopExamples.

(** * BatchMergeTruthAndProcessed.py: the command line *)

Section CommandLine.
Import Py BatchMerge.

Variable to_int : string -> option Z.
Variables cwd user : string.

Lemma int_argument_short (argv : list string) (i : nat) (d : Z) :
  (List.length argv <= i)%nat -> int_argument to_int argv i d = Some d.
Proof.
  intros H. unfold int_argument.
  destruct (Nat.ltb_spec i (List.length argv)); [lia | reflexivity].
Qed.

Lemma int_argument_given (argv : list string) (i : nat) (d : Z) :
  (i < List.length argv)%nat ->
  int_argument to_int argv i d = to_int (nth i argv EmptyString).
Proof.
  intros H. unfold int_argument.
  destruct (Nat.ltb_spec i (List.length argv)); [reflexivity | lia].
Qed.

(** The binding on a command line of five entries or more. *)
Lemma bind_names_long (argv : list string) :
  (5 <= List.length argv)%nat ->
  bind_names to_int cwd user argv =
  match int_argument to_int argv 6 1, int_argument to_int argv 7 0,
        int_argument to_int argv 8 0, int_argument to_int argv 9 0 with
  | Some pub, Some sid, Some arr, Some mt =>
      Started
        {| CurrentEXE := nth 0 argv EmptyString;
           ConfigFile := nth 1 argv EmptyString;
           TruthCSVPath := nth 2 argv EmptyString;
           ProcessedRootPath := nth 3 argv EmptyString;
           OutputPath := nth 4 argv EmptyString;
           RelativeSubmitPath :=
             if (5 <? List.length argv)%nat then nth 5 argv EmptyString
             else "Submit";
           IfPublicNode := pub;
           SubmitID := sid;
           ArrayOutput := arr;
           MinitreeType := mt;
           save_ap :=
             if (10 <? List.length argv)%nat
             then Some (nth 10 argv EmptyString) else None;
           CurrentPath := cwd;
           CurrentUser := user |}
  | _, _, _, _ => Died ValueError
  end.
Proof.
  intros Hlen.
  destruct argv as [|a0 [|a1 [|a2 [|a3 [|a4 rest]]]]];
    cbn [List.length] in Hlen; try lia.
  unfold bind_names.
  change (List.length (a0 :: a1 :: a2 :: a3 :: a4 :: rest) <=? 1)%nat with false.
  cbn [index nth_error nth].
  destruct (int_argument to_int _ 6 1); [|reflexivity].
  destruct (int_argument to_int _ 7 0); [|reflexivity].
  destruct (int_argument to_int _ 8 0); [|reflexivity].
  destruct (int_argument to_int _ 9 0); reflexivity.
Qed.

Lemma bind_names_short (argv : list string) :
  (List.length argv <= 4)%nat ->
  bind_names to_int cwd user argv =
  if (List.length argv <=? 1)%nat then Usage else Died IndexError.
Proof.
  intros Hlen.
  destruct argv as [|a0 [|a1 [|a2 [|a3 [|a4 rest]]]]];
    cbn [List.length] in Hlen; try lia; reflexivity.
Qed.

(** X23: how the command line is taken.  The usage text is printed exactly
    when no argument is given; with one, two or three arguments the script
    ends on IndexError at the first name it cannot bind; with four or more
    the only exception is the ValueError of [int] on one of the sixth to
    ninth arguments, raised exactly when one that is given is refused; and
    [save_ap] is bound exactly when there are ten arguments or more. *)
Theorem command_line_outcomes :
  forall (argv : list string),
    let n := List.length argv in
    let b := bind_names to_int cwd user argv in
    (b = Usage <-> (n <= 1)%nat) /\
    (b = Died IndexError <-> (2 <= n <= 4)%nat) /\
    (b = Died ValueError <->
     (5 <= n)%nat /\
     exists i, (6 <= i <= 9)%nat /\ (i < n)%nat /\
               to_int (nth i argv EmptyString) = None) /\
    (forall e, b = Died e -> e = IndexError \/ e = ValueError) /\
    (forall cfg, b = Started cfg -> (save_ap cfg = None <-> (n <= 10)%nat)).
Proof.
  intros argv n b. subst b.
  destruct (Nat.le_gt_cases n 4) as [Hshort | Hlong].
  - rewrite (bind_names_short argv Hshort). fold n.
    destruct (Nat.leb_spec n 1); repeat split;
      try discriminate; try lia; try (intros; reflexivity);
      try (intros (H5 & _); lia); try (intros e [= <-]; now left).
  - rewrite (bind_names_long argv) by (fold n; lia). fold n.
    assert (Hsome : forall i d, (6 <= i <= 9)%nat ->
              int_argument to_int argv i d = None ->
              exists i, (6 <= i <= 9)%nat /\ (i < n)%nat /\
                        to_int (nth i argv EmptyString) = None).
    { intros i d Hi Hnone. exists i. unfold int_argument in Hnone. fold n in Hnone.
      destruct (Nat.ltb_spec i n); [|discriminate]. auto. }
    assert (Hnone : forall i d, (6 <= i <= 9)%nat -> (i < n)%nat ->
              to_int (nth i argv EmptyString) = None ->
              int_argument to_int argv i d = None).
    { intros i d Hi Hlt Hn. now rewrite int_argument_given. }
    destruct (int_argument to_int argv 6 1) as [pub|] eqn:H6;
      [destruct (int_argument to_int argv 7 0) as [sid|] eqn:H7;
       [destruct (int_argument to_int argv 8 0) as [arr|] eqn:H8;
        [destruct (int_argument to_int argv 9 0) as [mt|] eqn:H9|]|]|];
      repeat split; try discriminate; try lia; try (intros; reflexivity);
      try (intros e [= <-]; now right);
      try (now apply (Hsome 6%nat 1); [lia | exact H6]);
      try (now apply (Hsome 7%nat 0); [lia | exact H7]);
      try (now apply (Hsome 8%nat 0); [lia | exact H8]);
      try (now apply (Hsome 9%nat 0); [lia | exact H9]).
    + intros (_ & i & Hi & Hlt & Hn).
      assert (Hcase : i = 6%nat \/ i = 7%nat \/ i = 8%nat \/ i = 9%nat) by lia.
      destruct Hcase as [-> | [-> | [-> | ->]]];
        [ rewrite (Hnone 6%nat 1) in H6 by (auto; lia)
        | rewrite (Hnone 7%nat 0) in H7 by (auto; lia)
        | rewrite (Hnone 8%nat 0) in H8 by (auto; lia)
        | rewrite (Hnone 9%nat 0) in H9 by (auto; lia) ]; discriminate.
    + match goal with H : Started _ = Started _ |- _ => injection H as <- end.
      cbn [save_ap].
      destruct (Nat.ltb_spec 10 n); [discriminate | lia].
    + match goal with H : Started _ = Started _ |- _ => injection H as <- end.
      cbn [save_ap]. intros Hn.
      destruct (Nat.ltb_spec 10 n); [lia | reflexivity].
Qed.

(** X24: arrays in the output need the eleventh entry of the command line.
    When the ninth entry, the one bound to [ArrayOutput], is read as a number
    other than zero and the command line stops at the ninth or tenth entry,
    the script never queries the queue and never submits a job, whatever the
    directories hold. *)
Theorem arrays_need_eleven_arguments :
  forall (argv : list string) (a : Z) (w : world) (polls : list poll),
    (8 < List.length argv <= 10)%nat ->
    to_int (nth 8 argv EmptyString) = Some a ->
    a <> 0 ->
    let r := from_command_line to_int cwd user argv w polls in
    filter is_sbatch (fst r) = [] /\ filter is_squeue (fst r) = [].
Proof.
  intros argv a w polls Hlen Ha Hnz r. subst r. unfold from_command_line.
  rewrite (bind_names_long argv) by lia.
  rewrite (int_argument_given argv 8) by lia. rewrite Ha.
  destruct (int_argument to_int argv 6 1) as [pub|]; [|now split].
  destruct (int_argument to_int argv 7 0) as [sid|]; [|now split].
  destruct (int_argument to_int argv 9 0) as [mt|]; [|now split].
  match goal with
  | |- context [script ?cfg w polls] =>
      assert (Harr : ArrayOutput cfg <> 0) by exact Hnz;
      assert (Hap : save_ap cfg = None)
        by (cbn [save_ap]; destruct (Nat.ltb_spec 10 (List.length argv));
            [lia | reflexivity]);
      destruct (script_arrays cfg w Harr Hap polls) as (Hs & Hq & _)
  end.
  split; assumption.
Qed.

End CommandLine.

Section CommandLineExamples.
Import Py BatchMerge Samples.

Lemma arrays_need_eleven_arguments_witness :
  filter is_sbatch
    (fst (from_command_line digits_to_int "/home/user" "user" argv_arrays
            world_unmatched [idle; idle])) = [] /\
  snd (from_command_line digits_to_int "/home/user" "user" argv_arrays
         world_unmatched [idle; idle]) = Raised NameError.
Proof.
  split.
  - apply (arrays_need_eleven_arguments digits_to_int "/home/user" "user"
             argv_arrays 1 world_unmatched [idle; idle]);
      [cbn; lia | reflexivity | lia].
  - reflexivity.
Defined.

End CommandLineExamples.
